(** * Zoho Books API client: a shallow embedding and its verified properties

    The client module (token lifecycle, request dispatcher, resource
    accessors, expense normalizer) is embedded as executable Rocq
    functions over a model of the JavaScript values it manipulates and
    of the remote boundary it talks to (edge functions, record store,
    clock).  Definitions keep the names of the TypeScript source. *)

From Stdlib Require Import ZArith List String Ascii Bool Lia DecimalString DecimalPos DecimalN.
Import ListNotations.

Local Open Scope string_scope.
Local Open Scope Z_scope.

(** ** Strings

    A JavaScript string is modelled as a Rocq [string].  Case mapping and
    white space are the ASCII ones. *)

Module Str.

Definition is_ws (c : ascii) : bool :=
  let n := nat_of_ascii c in
  ((9 <=? n)%nat && (n <=? 13)%nat) || (n =? 32)%nat.

Definition is_digit (c : ascii) : bool :=
  let n := nat_of_ascii c in (48 <=? n)%nat && (n <=? 57)%nat.

Definition is_upper (c : ascii) : bool :=
  let n := nat_of_ascii c in (65 <=? n)%nat && (n <=? 90)%nat.

Definition lower_char (c : ascii) : ascii :=
  if is_upper c then ascii_of_nat (nat_of_ascii c + 32) else c.

(** [String.prototype.toLowerCase] *)
Fixpoint toLowerCase (s : string) : string :=
  match s with
  | EmptyString => EmptyString
  | String c r => String (lower_char c) (toLowerCase r)
  end.

(** [String.prototype.trimStart] *)
Fixpoint trimStart (s : string) : string :=
  match s with
  | EmptyString => EmptyString
  | String c r => if is_ws c then trimStart r else s
  end.

(** [String.prototype.trimEnd] *)
Fixpoint trimEnd (s : string) : string :=
  match s with
  | EmptyString => EmptyString
  | String c r =>
      match trimEnd r with
      | EmptyString => if is_ws c then EmptyString else String c EmptyString
      | r' => String c r'
      end
  end.

(** [String.prototype.trim] *)
Definition trim (s : string) : string := trimEnd (trimStart s).

Definition nonempty (s : string) : bool :=
  match s with EmptyString => false | _ => true end.

(** [String.prototype.startsWith] *)
Definition startsWith (s p : string) : bool := String.prefix p s.

(** [String.prototype.includes] *)
Fixpoint includes (s sub : string) : bool :=
  String.prefix sub s ||
  match s with
  | EmptyString => false
  | String _ r => includes r sub
  end.

(** Longest prefix of characters satisfying [p], and the rest. *)
Fixpoint span (p : ascii -> bool) (s : string) : string * string :=
  match s with
  | EmptyString => (EmptyString, EmptyString)
  | String c r =>
      if p c then let (a, b) := span p r in (String c a, b)
      else (EmptyString, s)
  end.

(** [Array.prototype.join] on strings *)
Fixpoint join (sep : string) (l : list string) : string :=
  match l with
  | [] => EmptyString
  | [x] => x
  | x :: r => x ++ sep ++ join sep r
  end.

(** [String.prototype.padStart] with the pad character ["0"] *)
Definition pad0 (width : nat) (s : string) : string :=
  String.concat EmptyString (repeat "0" (width - String.length s)) ++ s.

(** Decimal digits of a natural number. *)
Definition of_N (n : N) : string := NilZero.string_of_uint (N.to_uint n).
Definition of_nat (n : nat) : string := of_N (N.of_nat n).

(** The double-quote and backslash characters. *)
Definition dquote : ascii := ascii_of_nat 34.
Definition backslash : ascii := ascii_of_nat 92.

(** Replace every single quote by a double quote: lets JSON texts be
    written legibly below. *)
Fixpoint dq (s : string) : string :=
  match s with
  | EmptyString => EmptyString
  | String c r => String (if Ascii.eqb c "'" then dquote else c) (dq r)
  end.

(** A string equals its own lower-casing. *)
Definition is_lower_case (s : string) : Prop := toLowerCase s = s.

End Str.

(** ** Numbers

    A JavaScript number is a double.  It is modelled by a decimal
    [m * 10^e] that denotes it, or one of the three special values: the
    decimal that [Number::toString] prints for it, the one with the
    fewest digits that rounds to it.  Parsing and subtraction round to
    the nearest double, ties to even, as IEEE-754 has it; the sign of
    zero is not modelled.  The tests the client performs on numbers
    (sign, zero, NaN) and the printing of decimals are those of the
    language. *)

Module Num.

Inductive number : Type :=
| NaN
| Inf (neg : bool)
| Dec (m : Z) (e : Z).

Fixpoint strip (fuel : nat) (m e : Z) : Z * Z :=
  match fuel with
  | O => (m, e)
  | S f => if (m mod 10 =? 0) then strip f (m / 10) (e + 1) else (m, e)
  end.

(** Canonical representative: no trailing zero in the mantissa. *)
Definition norm (x : number) : number :=
  match x with
  | Dec m e =>
      if m =? 0 then Dec 0 0
      else let (m', e') := strip (Z.to_nat (Z.log2 (Z.abs m)) + 1) m e in Dec m' e'
  | _ => x
  end.

Definition of_Z (z : Z) : number := norm (Dec z 0).

Definition isNaN (x : number) : bool :=
  match x with NaN => true | _ => false end.

Definition is_zero (x : number) : bool :=
  match x with Dec m _ => m =? 0 | _ => false end.

(** [x > 0] *)
Definition gt0 (x : number) : bool :=
  match x with
  | NaN => false
  | Inf neg => negb neg
  | Dec m _ => 0 <? m
  end.

(** [x < 0] *)
Definition lt0 (x : number) : bool :=
  match x with
  | NaN => false
  | Inf neg => neg
  | Dec m _ => m <? 0
  end.

(** [x === y] on numbers *)
Definition eqb (x y : number) : bool :=
  match norm x, norm y with
  | Inf a, Inf b => Bool.eqb a b
  | Dec m e, Dec m' e' => (m =? m') && (e =? e')
  | _, _ => false
  end.

Definition neg (x : number) : number :=
  match x with
  | NaN => NaN
  | Inf b => Inf (negb b)
  | Dec m e => Dec (- m) e
  end.

(** *** Binary64

    A finite double is [M * 2^E] with [|M| < 2^53] and
    [-1074 <= E <= 971]. *)
Inductive double : Type :=
| DNaN
| DInf (neg : bool)
| DFin (M E : Z).

(** The ratio [p / (q * 2^E)] as a fraction of integers. *)
Definition scaled2 (p q E : Z) : Z * Z :=
  if 0 <=? E then (p, q * 2 ^ E) else (p * 2 ^ (- E), q).

(** The ratio [p / (q * 10^t)] as a fraction of integers. *)
Definition scaled10 (p q t : Z) : Z * Z :=
  if 0 <=? t then (p, q * 10 ^ t) else (p * 10 ^ (- t), q).

(** [num / den] rounded to the nearest integer, ties to even *)
Definition nearest_even (num den : Z) : Z :=
  let M := num / den in
  let r := num mod den in
  match 2 * r ?= den with
  | Lt => M
  | Gt => M + 1
  | Eq => if Z.even M then M else M + 1
  end.

(** The positive ratio [p / q] rounded to the nearest double, ties to
    even; [None] is the overflow to infinity. *)
Definition round_pos (p q : Z) : option (Z * Z) :=
  let E0 := Z.max (Z.log2 p - Z.log2 q - 53) (-1074) in
  let (n0, d0) := scaled2 p q E0 in
  let E := if 2 ^ 53 <=? n0 / d0 then E0 + 1 else E0 in
  let (num, den) := scaled2 p q E in
  let M := nearest_even num den in
  let (M, E) := if M =? 2 ^ 53 then (2 ^ 52, E + 1) else (M, E) in
  if 971 <? E then None else Some (M, E).

(** The signed ratio [s * p / q], [p] and [q] positive *)
Definition round_ratio (neg : bool) (p q : Z) : double :=
  match round_pos p q with
  | Some (M, E) => if M =? 0 then DFin 0 0 else DFin (if neg then - M else M) E
  | None => DInf neg
  end.

(** The double a decimal denotes: the nearest one. *)
Definition to_double (x : number) : double :=
  match x with
  | NaN => DNaN
  | Inf neg => DInf neg
  | Dec m e =>
      if m =? 0 then DFin 0 0
      else let (p, q) := scaled10 (Z.abs m) 1 (- e) in round_ratio (m <? 0) p q
  end.

(** The number of digits of the integer part of [p / q]: the [d] with
    [10^(d-1) <= p/q < 10^d]. *)
Definition below_pow10 (p q d : Z) : bool :=
  let (n, m) := scaled10 p q d in n <? m.

Fixpoint magnitude_up (fuel : nat) (p q d : Z) : Z :=
  match fuel with
  | O => d
  | S f => if below_pow10 p q d then d else magnitude_up f p q (d + 1)
  end.

Fixpoint magnitude_down (fuel : nat) (p q d : Z) : Z :=
  match fuel with
  | O => d
  | S f => if below_pow10 p q (d - 1) then magnitude_down f p q (d - 1) else d
  end.

Definition magnitude (p q : Z) : Z :=
  let d0 := ((Z.log2 p - Z.log2 q) * 30103) / 100000 in
  magnitude_down 4 p q (magnitude_up 4 p q d0).

(** The decimal [s * 10^t] rounds to the double [M * 2^E]. *)
Definition rounds_to (M E s t : Z) : bool :=
  if s <=? 0 then false
  else
    let (p, q) := scaled10 s 1 (- t) in
    match round_pos p q with
    | Some (M', E') => (M' =? M) && (E' =? E)
    | None => false
    end.

(** The decimal with the fewest digits that rounds to the positive
    double [M * 2^E], the closest to it when there are several, as
    [Number::toString] chooses it; [k] counts the digits tried. *)
Fixpoint shortest (fuel : nat) (M E d k : Z) : Z * Z :=
  let t := d - k in
  let (p, q) := scaled2 M 1 (- E) in
  let (num, den) := scaled10 p q t in
  let s := num / den in
  let r := num mod den in
  let low := (r =? 0) || rounds_to M E s t in
  let high := negb (r =? 0) && rounds_to M E (s + 1) t in
  match fuel with
  | O => (nearest_even num den, t)
  | S f =>
      if low && high then (nearest_even num den, t)
      else if low then (s, t)
      else if high then (s + 1, t)
      else shortest f M E d (k + 1)
  end.

(** The decimal that denotes a double: the shortest that rounds to it. *)
Definition of_double (x : double) : number :=
  match x with
  | DNaN => NaN
  | DInf neg => Inf neg
  | DFin M E =>
      if M =? 0 then Dec 0 0
      else
        let (p, q) := scaled2 (Z.abs M) 1 (- E) in
        let (s, t) := shortest 16 (Z.abs M) E (magnitude p q) 1 in
        norm (Dec (if M <? 0 then - s else s) t)
  end.

(** The double nearest to a decimal, as its shortest decimal. *)
Definition canon (x : number) : number := of_double (to_double x).

(** [x - y] on doubles *)
Definition dsub (x y : double) : double :=
  match x, y with
  | DNaN, _ | _, DNaN => DNaN
  | DInf a, DInf b => if Bool.eqb a b then DNaN else DInf a
  | DInf a, DFin _ _ => DInf a
  | DFin _ _, DInf b => DInf (negb b)
  | DFin M E, DFin M' E' =>
      let lo := Z.min E E' in
      let S := M * 2 ^ (E - lo) - M' * 2 ^ (E' - lo) in
      if S =? 0 then DFin 0 0
      else let (p, q) := scaled2 (Z.abs S) 1 (- lo) in round_ratio (S <? 0) p q
  end.

(** [x - y]: the difference of the two doubles, rounded *)
Definition sub (x y : number) : number := of_double (dsub (to_double x) (to_double y)).

Definition zeros (n : Z) : string := String.concat EmptyString (repeat "0" (Z.to_nat n)).

(** [Number::toString] for a positive canonical decimal with digits [s]
    ([k] of them) and decimal point position [n]. *)
Definition digits_toString (s : string) (k n : Z) : string :=
  if (k <=? n) && (n <=? 21) then s ++ zeros (n - k)
  else if (0 <? n) && (n <=? 21) then
    substring 0 (Z.to_nat n) s ++ "." ++ substring (Z.to_nat n) (Z.to_nat (k - n)) s
  else if (-6 <? n) && (n <=? 0) then "0." ++ zeros (- n) ++ s
  else
    let ex := (if 0 <=? n - 1 then "+" else "-") ++ Str.of_N (Z.to_N (Z.abs (n - 1))) in
    if k =? 1 then s ++ "e" ++ ex
    else substring 0 1 s ++ "." ++ substring 1 (Z.to_nat (k - 1)) s ++ "e" ++ ex.

(** [Number::toString] (radix 10) *)
Definition toString (x : number) : string :=
  match norm x with
  | NaN => "NaN"
  | Inf false => "Infinity"
  | Inf true => "-Infinity"
  | Dec m e =>
      if m =? 0 then "0"
      else
        let s := Str.of_N (Z.to_N (Z.abs m)) in
        let k := Z.of_nat (String.length s) in
        (if m <? 0 then "-" else EmptyString) ++ digits_toString s k (k + e)
  end.

Definition digit_value (c : ascii) : Z := Z.of_nat (nat_of_ascii c) - 48.

Fixpoint digits_value (acc : Z) (s : string) : Z :=
  match s with
  | EmptyString => acc
  | String c r => digits_value (10 * acc + digit_value c) r
  end.

Definition read_sign (s : string) : bool * string :=
  match s with
  | String "-" r => (true, r)
  | String "+" r => (false, r)
  | _ => (false, s)
  end.

Definition apply_sign (neg : bool) (z : Z) : Z := if neg then - z else z.

(** Exponent part [e[+-]digits]; absent or incomplete ones read as 0 and
    consume nothing. *)
Definition read_exponent (s : string) : Z * string :=
  match s with
  | String c r =>
      if (Ascii.eqb c "e" || Ascii.eqb c "E")%bool then
        let (eneg, r1) := read_sign r in
        let (ds, r2) := Str.span Str.is_digit r1 in
        if Str.nonempty ds then (apply_sign eneg (digits_value 0 ds), r2) else (0, s)
      else (0, s)
  | EmptyString => (0, s)
  end.

(** Longest prefix of [s] that is a [StrDecimalLiteral], with the rest of
    the input; [None] when no prefix is one. *)
Definition read_decimal (s : string) : option (number * string) :=
  let (neg, s1) := read_sign s in
  if String.prefix "Infinity" s1 then
    Some (Inf neg, substring 8 (String.length s1 - 8) s1)
  else
    let (ip, s2) := Str.span Str.is_digit s1 in
    let (fp, s3) :=
      match s2 with
      | String "." r =>
          let (f, r') := Str.span Str.is_digit r in
          if Str.nonempty ip || Str.nonempty f then (f, r') else (EmptyString, s2)
      | _ => (EmptyString, s2)
      end in
    if Str.nonempty ip || Str.nonempty fp then
      let (ex, s4) := read_exponent s3 in
      Some (canon (Dec (apply_sign neg (digits_value 0 (ip ++ fp)))
                       (ex - Z.of_nat (String.length fp))), s4)
    else None.

(** The global [parseFloat], applied to a string *)
Definition parseFloat (s : string) : number :=
  match read_decimal (Str.trimStart s) with
  | Some (x, _) => x
  | None => NaN
  end.

Definition radix_digit (radix : Z) (c : ascii) : option Z :=
  let n := Z.of_nat (nat_of_ascii c) in
  let v := if (48 <=? n) && (n <=? 57) then n - 48
           else if (97 <=? n) && (n <=? 102) then n - 87
           else if (65 <=? n) && (n <=? 70) then n - 55
           else 99 in
  if v <? radix then Some v else None.

Fixpoint radix_value (radix acc : Z) (s : string) : option Z :=
  match s with
  | EmptyString => Some acc
  | String c r =>
      match radix_digit radix c with
      | Some v => radix_value radix (radix * acc + v) r
      | None => None
      end
  end.

Definition read_radix (radix : Z) (ds : string) : number :=
  if Str.nonempty ds then
    match radix_value radix 0 ds with
    | Some z => canon (of_Z z)
    | None => NaN
    end
  else NaN.

(** [StringToNumber]: the whole trimmed string must be a numeric literal. *)
Definition ofString (s : string) : number :=
  let t := Str.trim s in
  match t with
  | EmptyString => Dec 0 0
  | String "0" (String c r) =>
      if (Ascii.eqb c "x" || Ascii.eqb c "X")%bool then read_radix 16 r
      else if (Ascii.eqb c "o" || Ascii.eqb c "O")%bool then read_radix 8 r
      else if (Ascii.eqb c "b" || Ascii.eqb c "B")%bool then read_radix 2 r
      else match read_decimal t with
           | Some (x, EmptyString) => x
           | _ => NaN
           end
  | _ =>
      match read_decimal t with
      | Some (x, EmptyString) => x
      | _ => NaN
      end
  end.

End Num.

(** ** JavaScript values

    The values that cross the remote boundary are JSON data; [undefined]
    is added for absent properties.  Objects are plain data (no accessor,
    no method of their own), kept as association lists in insertion order
    and read at the first binding of a key; the language's reordering of
    integer-like keys is not modelled. *)

Module JS.

#[local] Set Warnings "-register-all".

Inductive value : Type :=
| JUndefined
| JNull
| JBool (b : bool)
| JNum (x : Num.number)
| JStr (s : string)
| JArr (items : list value)
| JObj (fields : list (string * value)).

Definition num (z : Z) : value := JNum (Num.of_Z z).

(** [ToBoolean] *)
Definition truthy (v : value) : bool :=
  match v with
  | JUndefined | JNull => false
  | JBool b => b
  | JNum x => negb (Num.isNaN x || Num.is_zero x)
  | JStr s => Str.nonempty s
  | JArr _ | JObj _ => true
  end.

Definition nullish (v : value) : bool :=
  match v with JUndefined | JNull => true | _ => false end.

(** [typeof v === 'number'] *)
Definition is_number (v : value) : bool :=
  match v with JNum _ => true | _ => false end.

(** [typeof v === 'object'] *)
Definition typeof_object (v : value) : bool :=
  match v with JNull | JArr _ | JObj _ => true | _ => false end.

(** [Array.isArray] *)
Definition isArray (v : value) : bool :=
  match v with JArr _ => true | _ => false end.

(** [a || b] on values already evaluated *)
Definition or (a b : value) : value := if truthy a then a else b.

Fixpoint assoc (k : string) (fields : list (string * value)) : option value :=
  match fields with
  | [] => None
  | (k', v) :: r => if String.eqb k k' then Some v else assoc k r
  end.

(** Define property [k] of an object literal under construction. *)
Fixpoint set (k : string) (v : value) (fields : list (string * value))
  : list (string * value) :=
  match fields with
  | [] => [(k, v)]
  | (k', v') :: r =>
      if String.eqb k k' then (k, v) :: r else (k', v') :: set k v r
  end.

Definition has (v : value) (k : string) : bool :=
  match v with
  | JObj fields => match assoc k fields with Some _ => true | None => false end
  | _ => false
  end.

Fixpoint index_of_key (k : string) (i n : nat) : option nat :=
  match n with
  | O => None
  | S n' => if String.eqb k (Str.of_nat i) then Some i else index_of_key k (S i) n'
  end.

(** Own property [v.k] of a value that is neither [null] nor [undefined].
    None of the keys the client reads is defined on a prototype. *)
Definition get (v : value) (k : string) : value :=
  match v with
  | JObj fields => match assoc k fields with Some x => x | None => JUndefined end
  | JArr items =>
      if String.eqb k "length" then num (Z.of_nat (List.length items))
      else match index_of_key k 0 (List.length items) with
           | Some i => nth i items JUndefined
           | None => JUndefined
           end
  | JStr s =>
      if String.eqb k "length" then num (Z.of_nat (String.length s))
      else match index_of_key k 0 (String.length s) with
           | Some i => JStr (substring i 1 s)
           | None => JUndefined
           end
  | _ => JUndefined
  end.

(** Optional chaining [v?.k] *)
Definition opt_get (v : value) (k : string) : value :=
  if nullish v then JUndefined else get v k.

(** The string a value converts to, when it converts (see [ToString]). *)
Fixpoint display (v : value) : string :=
  match v with
  | JUndefined => "undefined"
  | JNull => "null"
  | JBool true => "true"
  | JBool false => "false"
  | JNum x => Num.toString x
  | JStr s => s
  | JArr items =>
      Str.join ","
        (map (fun e => match e with
                       | JUndefined | JNull => EmptyString
                       | _ => display e
                       end) items)
  | JObj _ => "[object Object]"
  end.

(** [ToPrimitive] succeeds.  A plain object converts through
    [Object.prototype.toString] unless it has a property of its own named
    [toString]: being data, that property is not callable, and
    [Object.prototype.valueOf] gives the object back, so the conversion
    ends in a TypeError, whichever of string or number is asked for.  An
    array converts through [Array.prototype.join], which converts each
    element other than [null] and [undefined]. *)
Fixpoint converts (v : value) : bool :=
  match v with
  | JArr items => forallb converts items
  | JObj fields =>
      match assoc "toString" fields with
      | Some _ => false
      | None => true
      end
  | _ => true
  end.

(** [ToString], as performed by [String(v)], template literals and
    [new Error(v)]; [None] when it throws a TypeError. *)
Definition ToString (v : value) : option string :=
  if converts v then Some (display v) else None.

(** [ToNumber]; [None] when it throws a TypeError. *)
Definition ToNumber (v : value) : option Num.number :=
  match v with
  | JUndefined => Some Num.NaN
  | JNull => Some (Num.Dec 0 0)
  | JBool true => Some (Num.Dec 1 0)
  | JBool false => Some (Num.Dec 0 0)
  | JNum x => Some x
  | JStr s => Some (Num.ofString s)
  | JArr _ | JObj _ => if converts v then Some (Num.ofString (display v)) else None
  end.

(** [a - b]; [None] when the conversion of [a] or of [b] throws. *)
Definition minus (a b : value) : option value :=
  match ToNumber a, ToNumber b with
  | Some x, Some y => Some (JNum (Num.sub x y))
  | _, _ => None
  end.

Fixpoint indexed {A} (f : A -> value) (i : nat) (l : list A) : list (string * value) :=
  match l with
  | [] => []
  | x :: r => (Str.of_nat i, f x) :: indexed f (S i) r
  end.

(** Own enumerable properties copied by the spread [{...v}] *)
Definition spread (v : value) : list (string * value) :=
  match v with
  | JObj fields => fields
  | JArr items => indexed (fun x => x) 0 items
  | JStr s => indexed (fun c => JStr (String c EmptyString)) 0 (list_ascii_of_string s)
  | _ => []
  end.

(** [{a: x, b: y, ...}] built left to right *)
Definition object (fields : list (string * value)) : value :=
  JObj (fold_left (fun acc kv => set (fst kv) (snd kv) acc) fields []).

(** [{...v, k: x}] *)
Definition spread_with (v : value) (k : string) (x : value) : value :=
  JObj (set k x (spread v)).

(** *** [JSON.parse] *)

Definition is_json_ws (c : ascii) : bool :=
  let n := nat_of_ascii c in
  (n =? 32)%nat || (n =? 9)%nat || (n =? 10)%nat || (n =? 13)%nat.

Fixpoint skip_ws (s : string) : string :=
  match s with
  | String c r => if is_json_ws c then skip_ws r else s
  | EmptyString => s
  end.

(** UTF-8 bytes of a code point (of a lone surrogate, its three bytes). *)
Definition utf8 (u : Z) : string :=
  let byte z := String (ascii_of_nat (Z.to_nat z)) EmptyString in
  if u <? 128 then byte u
  else if u <? 2048 then byte (192 + u / 64) ++ byte (128 + u mod 64)
  else if u <? 65536 then
    byte (224 + u / 4096) ++ byte (128 + (u / 64) mod 64) ++ byte (128 + u mod 64)
  else
    byte (240 + u / 262144) ++ byte (128 + (u / 4096) mod 64)
    ++ byte (128 + (u / 64) mod 64) ++ byte (128 + u mod 64).

(** The four hexadecimal digits of a [\uXXXX] escape. *)
Definition read_hex4 (s : string) : option (Z * string) :=
  if (4 <=? String.length s)%nat then
    match Num.radix_value 16 0 (substring 0 4 s) with
    | Some u => Some (u, substring 4 (String.length s - 4) s)
    | None => None
    end
  else None.

(** The escaped low surrogate that follows a high surrogate [u], if any:
    the code point of the pair. *)
Definition read_low_surrogate (u : Z) (s : string) : option (Z * string) :=
  if (55296 <=? u) && (u <=? 56319) then
    match s with
    | String b (String "u" r) =>
        if Ascii.eqb b Str.backslash then
          match read_hex4 r with
          | Some (lo, r') =>
              if (56320 <=? lo) && (lo <=? 57343)
              then Some (65536 + (u - 55296) * 1024 + (lo - 56320), r')
              else None
          | None => None
          end
        else None
    | _ => None
    end
  else None.

Definition read_escape (s : string) : option (string * string) :=
  match s with
  | String c r =>
      let one x := Some (String x EmptyString, r) in
      if Ascii.eqb c Str.dquote then one c
      else if Ascii.eqb c Str.backslash then one c
      else if Ascii.eqb c "/" then one c
      else if Ascii.eqb c "b" then one (ascii_of_nat 8)
      else if Ascii.eqb c "f" then one (ascii_of_nat 12)
      else if Ascii.eqb c "n" then one (ascii_of_nat 10)
      else if Ascii.eqb c "r" then one (ascii_of_nat 13)
      else if Ascii.eqb c "t" then one (ascii_of_nat 9)
      else if Ascii.eqb c "u" then
        match read_hex4 r with
        | Some (u, r') =>
            match read_low_surrogate u r' with
            | Some (point, r'') => Some (utf8 point, r'')
            | None => Some (utf8 u, r')
            end
        | None => None
        end
      else None
  | EmptyString => None
  end.

(** Characters of a string literal after its opening quote. *)
Fixpoint read_string (fuel : nat) (s : string) : option (string * string) :=
  match fuel with
  | O => None
  | S f =>
      match s with
      | EmptyString => None
      | String c r =>
          if Ascii.eqb c Str.dquote then Some (EmptyString, r)
          else if Ascii.eqb c Str.backslash then
            match read_escape r with
            | Some (x, r') =>
                match read_string f r' with
                | Some (t, r'') => Some (x ++ t, r'')
                | None => None
                end
            | None => None
            end
          else if (nat_of_ascii c <? 32)%nat then None
          else match read_string f r with
               | Some (t, r') => Some (String c t, r')
               | None => None
               end
      end
  end.

(** A JSON number: [-? int frac? exp?] *)
Definition read_number (s : string) : option (value * string) :=
  let (neg, s1) := match s with String "-" r => (true, r) | _ => (false, s) end in
  let (ip, s2) := Str.span Str.is_digit s1 in
  let int_ok := match ip with
                | EmptyString => false
                | String "0" (String _ _) => false
                | _ => true
                end in
  if int_ok then
    let frac := match s2 with
                | String "." r =>
                    let (f, r') := Str.span Str.is_digit r in
                    if Str.nonempty f then Some (f, r') else None
                | _ => Some (EmptyString, s2)
                end in
    match frac with
    | Some (fp, s3) =>
        let (ex, s4) := Num.read_exponent s3 in
        Some (JNum (Num.canon (Num.Dec (Num.apply_sign neg (Num.digits_value 0 (ip ++ fp)))
                                       (ex - Z.of_nat (String.length fp)))), s4)
    | None => None
    end
  else None.

Definition read_literal (lit : string) (v : value) (s : string) : option (value * string) :=
  if String.prefix lit s
  then Some (v, substring (String.length lit) (String.length s - String.length lit) s)
  else None.

Fixpoint read_value (fuel : nat) (s : string) : option (value * string) :=
  match fuel with
  | O => None
  | S f =>
      match skip_ws s with
      | EmptyString => None
      | String c r as t =>
          if Ascii.eqb c "{" then
            match skip_ws r with
            | String "}" r' => Some (JObj [], r')
            | r' => read_members f [] r'
            end
          else if Ascii.eqb c "[" then
            match skip_ws r with
            | String "]" r' => Some (JArr [], r')
            | r' => read_elements f [] r'
            end
          else if Ascii.eqb c Str.dquote then
            match read_string (S (String.length r)) r with
            | Some (x, r') => Some (JStr x, r')
            | None => None
            end
          else if Ascii.eqb c "t" then read_literal "true" (JBool true) t
          else if Ascii.eqb c "f" then read_literal "false" (JBool false) t
          else if Ascii.eqb c "n" then read_literal "null" JNull t
          else read_number t
      end
  end

with read_elements (fuel : nat) (acc : list value) (s : string) : option (value * string) :=
  match fuel with
  | O => None
  | S f =>
      match read_value f s with
      | Some (v, r) =>
          match skip_ws r with
          | String "," r' => read_elements f (acc ++ [v]) r'
          | String "]" r' => Some (JArr (acc ++ [v]), r')
          | _ => None
          end
      | None => None
      end
  end

with read_members (fuel : nat) (acc : list (string * value)) (s : string)
  : option (value * string) :=
  match fuel with
  | O => None
  | S f =>
      match skip_ws s with
      | String c r =>
          if Ascii.eqb c Str.dquote then
            match read_string (S (String.length r)) r with
            | Some (k, r1) =>
                match skip_ws r1 with
                | String ":" r2 =>
                    match read_value f r2 with
                    | Some (v, r3) =>
                        match skip_ws r3 with
                        | String "," r4 => read_members f (set k v acc) r4
                        | String "}" r4 => Some (JObj (set k v acc), r4)
                        | _ => None
                        end
                    | None => None
                    end
                | _ => None
                end
            | None => None
            end
          else None
      | EmptyString => None
      end
  end.

(** [JSON.parse(text)]; [None] stands for the [SyntaxError] it throws. *)
Definition JSON_parse (text : string) : option value :=
  match read_value (2 * String.length text + 2) text with
  | Some (v, r) => match skip_ws r with EmptyString => Some v | _ => None end
  | None => None
  end.

End JS.

Export JS(value(..)).

(** ** Dates and query strings *)

Module Date.

(** Civil date of a day count from 1970-01-01 (proleptic Gregorian). *)
Definition civil_from_days (days : Z) : Z * Z * Z :=
  let z := days + 719468 in
  let era := z / 146097 in
  let doe := z - era * 146097 in
  let yoe := (doe - doe / 1460 + doe / 36524 - doe / 146096) / 365 in
  let doy := doe - (365 * yoe + yoe / 4 - yoe / 100) in
  let mp := (5 * doy + 2) / 153 in
  let d := doy - (153 * mp + 2) / 5 + 1 in
  let m := if mp <? 10 then mp + 3 else mp - 9 in
  let y := yoe + era * 400 + (if m <=? 2 then 1 else 0) in
  (y, m, d).

Definition pad (width : nat) (z : Z) : string := Str.pad0 width (Str.of_N (Z.to_N z)).

Definition year_toString (y : Z) : string :=
  if (0 <=? y) && (y <=? 9999) then pad 4 y
  else (if y <? 0 then "-" else "+") ++ pad 6 (Z.abs y).

(** [Date.prototype.toISOString] of the time value [t] (milliseconds) *)
Definition toISOString (t : Z) : string :=
  let '(y, m, d) := civil_from_days (t / 86400000) in
  let ms := t mod 86400000 in
  year_toString y ++ "-" ++ pad 2 m ++ "-" ++ pad 2 d ++ "T"
  ++ pad 2 (ms / 3600000) ++ ":" ++ pad 2 ((ms / 60000) mod 60) ++ ":"
  ++ pad 2 ((ms / 1000) mod 60) ++ "." ++ pad 3 (ms mod 1000) ++ "Z".

(** [s.split('T')[0]] *)
Fixpoint before_T (s : string) : string :=
  match s with
  | EmptyString => EmptyString
  | String c r => if Ascii.eqb c "T" then EmptyString else String c (before_T r)
  end.

(** [a < b] on time values, the left one possibly NaN (an invalid date) *)
Definition lt (a : option Z) (b : Z) : bool :=
  match a with
  | Some x => x <? b
  | None => false
  end.

End Date.

Module URLSearchParams.

Definition t := list (string * string).

Definition empty : t := [].

(** [params.set(k, v)]: overwrite the first pair named [k] and drop the
    others, or append. *)
Fixpoint set (k v : string) (p : t) : t :=
  match p with
  | [] => [(k, v)]
  | (k', v') :: r =>
      if String.eqb k k'
      then (k, v) :: filter (fun kv => negb (String.eqb k (fst kv))) r
      else (k', v') :: set k v r
  end.

Definition hex_digit (n : nat) : ascii :=
  ascii_of_nat (if (n <? 10)%nat then 48 + n else 55 + n).

Definition is_unreserved (c : ascii) : bool :=
  let n := nat_of_ascii c in
  ((48 <=? n) && (n <=? 57) || (65 <=? n) && (n <=? 90) || (97 <=? n) && (n <=? 122)
   || (n =? 42) || (n =? 45) || (n =? 46) || (n =? 95))%nat.

(** The application/x-www-form-urlencoded byte serializer *)
Fixpoint encode (s : string) : string :=
  match s with
  | EmptyString => EmptyString
  | String c r =>
      (if is_unreserved c then String c EmptyString
       else if Ascii.eqb c " " then "+"
       else let n := nat_of_ascii c in
            String "%" (String (hex_digit (n / 16)) (String (hex_digit (n mod 16)) EmptyString)))
      ++ encode r
  end.

(** [params.toString()] *)
Definition toString (p : t) : string :=
  Str.join "&" (map (fun kv => encode (fst kv) ++ "=" ++ encode (snd kv)) p).

End URLSearchParams.

(** ** The remote boundary

    Everything the client cannot compute is an oracle of the world it
    runs in: the edge functions, the faults of the record store, the
    clock and the host's date parser.  Oracles answer from the log of the
    requests issued so far; the edge functions may also write to the
    record store.  The client is a state-and-exception computation over
    that world. *)

Module Sys.

(** A row of the table [zoho_books_integrations]; [None] is SQL NULL. *)
Record Integration : Type := {
  user_id : string;
  organization_id : option string;
  access_token : option string;
  refresh_token : option string;
  token_expires_at : option string;
  is_connected : bool;
  connected_at : option string;
  disconnected_at : option string
}.

(** The object passed to [.update(...)] by the client. *)
Record Patch : Type := {
  set_is_connected : bool;
  set_access_token : option string;
  set_refresh_token : option string;
  set_disconnected_at : option string
}.

Definition apply_patch (p : Patch) (r : Integration) : Integration :=
  {| user_id := user_id r;
     organization_id := organization_id r;
     access_token := set_access_token p;
     refresh_token := set_refresh_token p;
     token_expires_at := token_expires_at r;
     is_connected := set_is_connected p;
     connected_at := connected_at r;
     disconnected_at := set_disconnected_at p |}.

(** Requests issued by the client, in the order issued; an invocation is
    logged with the [data] and [error] it was answered with. *)
Inductive event : Type :=
| Invoke (fn : string) (body : value) (data error : value)
| Select (user : string)
| Update (user : string) (patch : Patch)
| Now (t : Z).

Record World : Type := {
  rows : list Integration;
  log : list event;
  (** [supabase.functions.invoke]: the pair [data, error] and the store
      as the function leaves it *)
  edge : list event -> list Integration -> string -> value -> value * value * list Integration;
  (** error reported by the record store for the next request, falsy
      when the request goes through *)
  store_error : list event -> value;
  (** time value read by [new Date()] and [Date.now()] *)
  clock : list event -> Z;
  (** [Date.parse]; [None] is NaN *)
  date_parse : string -> option Z
}.

Definition with_store (w : World) (rs : list Integration) (ev : event) : World :=
  {| rows := rs; log := log w ++ [ev]; edge := edge w; store_error := store_error w;
     clock := clock w; date_parse := date_parse w |}.

Definition record (w : World) (ev : event) : World := with_store w (rows w) ev.

(** Values a JavaScript computation can throw. *)
Inductive exn : Type :=
| Error (message : string)
| TypeError (message : string)
| Thrown (v : value).

Inductive result (A : Type) : Type :=
| Ok (a : A)
| Err (e : exn).
Arguments Ok {A} a.
Arguments Err {A} e.

Definition M (A : Type) : Type := World -> result A * World.

Definition ret {A} (a : A) : M A := fun w => (Ok a, w).
Definition throw {A} (e : exn) : M A := fun w => (Err e, w).

Definition bind {A B} (m : M A) (k : A -> M B) : M B :=
  fun w => match m w with
           | (Ok a, w') => k a w'
           | (Err e, w') => (Err e, w')
           end.

(** [try { m } catch (error) { h error }] *)
Definition try_catch {A} (m : M A) (h : exn -> M A) : M A :=
  fun w => match m w with
           | (Ok a, w') => (Ok a, w')
           | (Err e, w') => h e w'
           end.

Notation "x <- m ;; k" := (bind m (fun x => k))
  (at level 61, m at next level, right associativity).
Notation "' pat <- m ;; k" := (bind m (fun x => match x with pat => k end))
  (at level 61, pat pattern, m at next level, right associativity).

(** [Array.prototype.map] with an effectful callback receiving the index *)
Fixpoint mapM_index {A B} (f : A -> nat -> M B) (i : nat) (l : list A) : M (list B) :=
  match l with
  | [] => ret []
  | x :: r =>
      y <- f x i ;;
      ys <- mapM_index f (S i) r ;;
      ret (y :: ys)
  end.

(** [Array.prototype.filter] with a callback that may throw *)
Fixpoint filterM {A} (f : A -> result bool) (l : list A) : result (list A) :=
  match l with
  | [] => Ok []
  | x :: r =>
      match f x with
      | Err e => Err e
      | Ok b =>
          match filterM f r with
          | Err e => Err e
          | Ok r' => Ok (if b then x :: r' else r')
          end
      end
  end.

Definition lift {A} (r : result A) : M A := fun w => (r, w).

(** [new Date()] / [Date.now()]: read the clock *)
Definition now : M Z :=
  fun w => let t := clock w (log w) in (Ok t, record w (Now t)).

(** [supabase.functions.invoke(fn, { body })] *)
Definition functions_invoke (fn : string) (body : value) : M (value * value) :=
  fun w => let '(data, error, rs) := edge w (log w) (rows w) fn body in
           (Ok (data, error), with_store w rs (Invoke fn body data error)).

Definition of_user (user : string) (r : Integration) : bool := String.eqb (user_id r) user.

(** The error PostgREST returns to [.single()] unless exactly one row
    matches *)
Definition single_error : value :=
  JObj [("code", JStr "PGRST116");
        ("message", JStr "JSON object requested, multiple (or no) rows returned")].

(** [.from('zoho_books_integrations').select(...).eq('user_id', user).single()] *)
Definition select_single (user : string) : M (option Integration * value) :=
  fun w =>
    let error := store_error w (log w) in
    let w' := record w (Select user) in
    if JS.truthy error then (Ok (None, error), w')
    else match filter (of_user user) (rows w) with
         | [r] => (Ok (Some r, JNull), w')
         | _ => (Ok (None, single_error), w')
         end.

(** [.from('zoho_books_integrations').update(patch).eq('user_id', user)];
    yields the [error] of the response *)
Definition update_eq (patch : Patch) (user : string) : M value :=
  fun w =>
    let error := store_error w (log w) in
    if JS.truthy error then (Ok error, record w (Update user patch))
    else (Ok JNull,
          with_store w (map (fun r => if of_user user r then apply_patch patch r else r) (rows w))
                     (Update user patch)).

(** A nullable text column as a value *)
Definition column (c : option string) : value :=
  match c with Some s => JStr s | None => JNull end.

(** [new Date(column)]: the time value, [None] for an invalid date;
    [new Date(null)] is the epoch *)
Definition Date_of_column (w_parse : string -> option Z) (c : option string) : option Z :=
  match c with
  | None => Some 0
  | Some s => w_parse s
  end.

Definition get_date_parse : M (string -> option Z) := fun w => (Ok (date_parse w), w).

(** The TypeError of a conversion that fails. *)
Definition cannot_convert : exn := TypeError "Cannot convert object to primitive value".

(** [String(v)] and [`${v}`] *)
Definition to_string (v : value) : result string :=
  match JS.ToString v with
  | Some s => Ok s
  | None => Err cannot_convert
  end.

(** What [throw new Error(message)] throws, for a [message] that is not
    [undefined]: the error, or the TypeError of the conversion of
    [message] to a string. *)
Definition new_Error (message : value) : exn :=
  match JS.ToString message with
  | Some s => Error s
  | None => cannot_convert
  end.

(** [a - b] *)
Definition minus (a b : value) : result value :=
  match JS.minus a b with
  | Some difference => Ok difference
  | None => Err cannot_convert
  end.

(** Sequencing of computations that may throw and have no other effect. *)
Definition and_then {A B} (r : result A) (k : A -> result B) : result B :=
  match r with
  | Ok a => k a
  | Err e => Err e
  end.

(** The value of a computation that went through, [d] otherwise. *)
Definition value_or {A} (d : A) (r : result A) : A :=
  match r with
  | Ok a => a
  | Err _ => d
  end.

(** [v.k], which throws on [null] and [undefined] *)
Definition prop (v : value) (k : string) : result value :=
  if JS.nullish v
  then Err (TypeError ("Cannot read properties of " ++ JS.display v ++ " (reading '" ++ k ++ "')"))
  else Ok (JS.get v k).

End Sys.

(** ** The client *)

Module Zoho.
Import Sys.

Inductive Method : Type := GET | POST | PUT | DELETE.

Definition Method_toString (m : Method) : string :=
  match m with GET => "GET" | POST => "POST" | PUT => "PUT" | DELETE => "DELETE" end.

(** *** OAuth token *)

Definition refreshZohoBooksToken (userId : string) : M value :=
  try_catch
    ('(data, functionError) <-
       functions_invoke "zoho-token-refresh" (JS.object [("userId", JStr userId)]) ;;
     if JS.truthy functionError then throw (Thrown functionError)
     else if negb (JS.truthy (JS.opt_get data "success"))
             || negb (JS.truthy (JS.opt_get data "accessToken"))
     then throw (new_Error (JS.or (JS.opt_get data "error") (JStr "Token refresh failed")))
     else ret (JS.get data "accessToken"))
    (fun error => throw error).

Definition getValidAccessToken (userId : string) : M value :=
  '(integration, fetchError) <- select_single userId ;;
  let stored := match integration with
                | Some r => column (access_token r)
                | None => JUndefined
                end in
  if JS.truthy fetchError || negb (JS.truthy stored)
  then throw (Error "No Zoho Books integration found")
  else
    parse <- get_date_parse ;;
    let expiresAt :=
      match integration with
      | Some r => Date_of_column parse (token_expires_at r)
      | None => None
      end in
    current <- now ;;
    if Date.lt expiresAt current then refreshZohoBooksToken userId
    else ret stored.

(** *** Dispatcher *)

Definition msg_403 : string :=
  "Permission denied. This item may be linked to active transactions and cannot be deleted.".
Definition msg_404 : string :=
  "Item not found in Zoho Books. It may have already been deleted.".
Definition msg_400 : string :=
  "Invalid request. Please check the item details.".
Definition msg_401 : string :=
  "Authorization failed. Please reconnect to Zoho Books.".

(** [status === n] *)
Definition status_is (status : value) (n : Z) : bool :=
  match status with
  | JNum x => Num.eqb x (Num.of_Z n)
  | _ => false
  end.

(** The [try { JSON.parse(errorMsg) ... } catch (e) { }] block: the message
    left in [errorMsg]. *)
Definition parsed_message (errorMsg : value) : value :=
  match JS.ToString errorMsg with
  | Some text =>
      match JS.JSON_parse text with
      | Some parsedError =>
          match prop parsedError "message" with
          | Ok message => if JS.truthy message then message else errorMsg
          | Err _ => errorMsg
          end
      | None => errorMsg
      end
  | None => errorMsg
  end.

(** The error raised for an envelope [data] whose [success] is falsy. *)
Definition envelope_error (data : value) : exn :=
  let errorMsg := JS.or (JS.opt_get data "error") (JStr "API call failed") in
  let errorStatus := JS.or (JS.opt_get data "status") (JS.num 500) in
  let errorMsg :=
    if status_is errorStatus 403 then JStr msg_403
    else if status_is errorStatus 404 then JStr msg_404
    else if status_is errorStatus 400 then JStr msg_400
    else if status_is errorStatus 401 then JStr msg_401
    else errorMsg in
  new_Error (parsed_message errorMsg).

Definition api_request (userId organizationId endpoint : string) (method : Method)
           (body : value) : value :=
  JS.object [("userId", JStr userId); ("organizationId", JStr organizationId);
             ("endpoint", JStr endpoint); ("method", JStr (Method_toString method));
             ("body", body)].

Definition zohoBooksApiCall (userId organizationId endpoint : string) (method : Method)
           (body : value) : M value :=
  try_catch
    ('(data, functionError) <-
       functions_invoke "zoho-api-call" (api_request userId organizationId endpoint method body) ;;
     if JS.truthy functionError then
       let errorMsg := JS.or (JS.opt_get functionError "message") (JStr "Unknown error") in
       throw (new_Error errorMsg)
     else if negb (JS.truthy (JS.opt_get data "success")) then throw (envelope_error data)
     else ret (JS.get data "data"))
    (fun error => throw error).

Definition getOrganizationId (userId : string) : M value :=
  try_catch
    ('(data, functionError) <-
       functions_invoke "zoho-get-organization" (JS.object [("userId", JStr userId)]) ;;
     if JS.truthy functionError then throw (Thrown functionError)
     else if negb (JS.truthy (JS.opt_get data "success"))
             || negb (JS.truthy (JS.opt_get data "organizationId"))
     then throw (new_Error (JS.or (JS.opt_get data "error") (JStr "Failed to fetch organization")))
     else ret (JS.get data "organizationId"))
    (fun error => throw error).

Definition getOrganizationDetails (userId organizationId : string) : M value :=
  try_catch
    (data <- zohoBooksApiCall userId organizationId "/organization" GET JUndefined ;;
     let currencyCode :=
       JS.or (JS.opt_get (JS.opt_get data "organization") "currency_code") (JStr "USD") in
     let currencySymbol :=
       JS.or (JS.opt_get (JS.opt_get data "organization") "currency_symbol") (JStr "$") in
     ret (JS.object [("currency_code", currencyCode); ("currency_symbol", currencySymbol)]))
    (fun _ => ret (JS.object [("currency_code", JStr "USD"); ("currency_symbol", JStr "$")])).

(** *** List filters *)

Record Filters : Type := {
  status : option string;
  limit : option Num.number;
  offset : option Num.number
}.

(** [if (filters?.status) params.set('status', filters.status)] *)
Definition set_status (filters : option Filters) (params : URLSearchParams.t)
  : URLSearchParams.t :=
  match filters with
  | Some {| status := Some s |} =>
      if JS.truthy (JStr s) then URLSearchParams.set "status" s params else params
  | _ => params
  end.

(** [if (filters?.limit) params.set('limit', filters.limit.toString())] *)
Definition set_limit (filters : option Filters) (params : URLSearchParams.t)
  : URLSearchParams.t :=
  match filters with
  | Some {| limit := Some n |} =>
      if JS.truthy (JNum n) then URLSearchParams.set "limit" (Num.toString n) params else params
  | _ => params
  end.

(** [if (filters?.offset) params.set('offset', filters.offset.toString())] *)
Definition set_offset (filters : option Filters) (params : URLSearchParams.t)
  : URLSearchParams.t :=
  match filters with
  | Some {| offset := Some n |} =>
      if JS.truthy (JNum n) then URLSearchParams.set "offset" (Num.toString n) params else params
  | _ => params
  end.

(** [`${endpoint}${params.toString() ? '?' + params.toString() : ''}`] *)
Definition with_query (endpoint : string) (params : URLSearchParams.t) : string :=
  endpoint ++
  (if JS.truthy (JStr (URLSearchParams.toString params))
   then "?" ++ URLSearchParams.toString params else EmptyString).

(** *** Invoices *)

Definition getInvoices_endpoint (filters : option Filters) : string :=
  let params := URLSearchParams.empty in
  let params := set_status filters params in
  let params := set_limit filters params in
  let params := set_offset filters params in
  with_query "/invoices" params.

Definition getInvoices (userId organizationId : string) (filters : option Filters) : M value :=
  zohoBooksApiCall userId organizationId (getInvoices_endpoint filters) GET JUndefined.

Definition getInvoice (userId organizationId invoiceId : string) : M value :=
  zohoBooksApiCall userId organizationId ("/invoices/" ++ invoiceId) GET JUndefined.

Definition createInvoice (userId organizationId : string) (invoiceData : value) : M value :=
  zohoBooksApiCall userId organizationId "/invoices" POST invoiceData.

Definition updateInvoice (userId organizationId invoiceId : string) (invoiceData : value)
  : M value :=
  zohoBooksApiCall userId organizationId ("/invoices/" ++ invoiceId) PUT invoiceData.

Definition deleteInvoice (userId organizationId invoiceId : string) : M value :=
  zohoBooksApiCall userId organizationId ("/invoices/" ++ invoiceId) DELETE JUndefined.

(** *** Customers *)

(** [data?.contacts || []], emptied when it is not an array *)
Definition contacts_of (data : value) : value :=
  let contacts := JS.or (JS.opt_get data "contacts") (JArr []) in
  if negb (JS.isArray contacts) then JArr [] else contacts.

Definition getCustomers_endpoint (filters : option Filters) : string :=
  let params := URLSearchParams.empty in
  let params := set_limit filters params in
  let params := set_offset filters params in
  let params := set_status filters params in
  let params := URLSearchParams.set "contact_type" "customer" params in
  with_query "/contacts" params.

Definition getCustomers (userId organizationId : string) (filters : option Filters) : M value :=
  data <- zohoBooksApiCall userId organizationId (getCustomers_endpoint filters) GET JUndefined ;;
  let contacts := contacts_of data in
  ret (JS.spread_with data "contacts" contacts).

Definition getCustomer (userId organizationId customerId : string) : M value :=
  zohoBooksApiCall userId organizationId ("/contacts/" ++ customerId) GET JUndefined.

Definition createCustomer (userId organizationId : string) (customerData : value) : M value :=
  zohoBooksApiCall userId organizationId "/contacts" POST customerData.

Definition updateCustomer (userId organizationId customerId : string) (customerData : value)
  : M value :=
  zohoBooksApiCall userId organizationId ("/contacts/" ++ customerId) PUT customerData.

Definition deleteCustomer (userId organizationId customerId : string) : M value :=
  zohoBooksApiCall userId organizationId ("/contacts/" ++ customerId) DELETE JUndefined.

(** *** Vendors *)

Definition getVendors_endpoint (filters : option Filters) : string :=
  let params := URLSearchParams.empty in
  let params := set_limit filters params in
  let params := set_offset filters params in
  let params := set_status filters params in
  let params := URLSearchParams.set "contact_type" "vendor" params in
  with_query "/contacts" params.

Definition getVendors (userId organizationId : string) (filters : option Filters) : M value :=
  data <- zohoBooksApiCall userId organizationId (getVendors_endpoint filters) GET JUndefined ;;
  let vendors := contacts_of data in
  ret (JS.spread_with data "contacts" vendors).

Definition getVendor (userId organizationId vendorId : string) : M value :=
  zohoBooksApiCall userId organizationId ("/contacts/" ++ vendorId) GET JUndefined.

Definition createVendor (userId organizationId : string) (vendorData : value) : M value :=
  let vendorPayload := JS.spread_with vendorData "contact_type" (JStr "vendor") in
  zohoBooksApiCall userId organizationId "/contacts" POST vendorPayload.

Definition updateVendor (userId organizationId vendorId : string) (vendorData : value)
  : M value :=
  zohoBooksApiCall userId organizationId ("/contacts/" ++ vendorId) PUT vendorData.

Definition deleteVendor (userId organizationId vendorId : string) : M value :=
  zohoBooksApiCall userId organizationId ("/contacts/" ++ vendorId) DELETE JUndefined.

(** *** Chart of accounts *)

Definition getChartOfAccounts (userId organizationId : string) : M value :=
  try_catch
    (data <- zohoBooksApiCall userId organizationId "/chartofaccounts" GET JUndefined ;;
     ret data)
    (fun error => throw error).

(** [acc.account_type === 'expense'] *)
Definition is_expense_account (acc : value) : result bool :=
  match prop acc "account_type" with
  | Ok (JStr t) => Ok (String.eqb t "expense")
  | Ok _ => Ok false
  | Err e => Err e
  end.

Definition account_summary (acc : value) : value :=
  JS.object [("account_id", JS.get acc "account_id");
             ("account_name", JS.get acc "account_name");
             ("account_type", JS.get acc "account_type")].

Definition getExpenseAccounts (userId organizationId : string) : M (list value) :=
  try_catch
    (data <- zohoBooksApiCall userId organizationId "/chartofaccounts" GET JUndefined ;;
     match JS.opt_get data "chartofaccounts" with
     | JArr chartofaccounts =>
         filtered <- lift (filterM is_expense_account chartofaccounts) ;;
         ret (map account_summary filtered)
     | _ => ret []
     end)
    (fun error => throw error).

(** *** Expenses *)

Definition getExpenses_endpoint (filters : option Filters) : string :=
  let params := URLSearchParams.empty in
  let params := set_limit filters params in
  let params := set_offset filters params in
  let params := set_status filters params in
  with_query "/expenses" params.

(** [String(v).trim()] *)
Definition String_trim (v : value) : result string :=
  and_then (to_string v) (fun s => Ok (Str.trim s)).

Definition expense_vendor_name (expense : value) : result string :=
  if JS.truthy (JS.get expense "vendor_name") then String_trim (JS.get expense "vendor_name")
  else if JS.truthy (JS.get expense "vendor") then String_trim (JS.get expense "vendor")
  else Ok EmptyString.

Definition expense_vendor_id (expense : value) : result string :=
  if JS.truthy (JS.get expense "vendor_id") then String_trim (JS.get expense "vendor_id")
  else Ok EmptyString.

(** [typeof v === 'number' && v > 0] *)
Definition positive_number (v : value) : bool :=
  match v with
  | JNum x => Num.gt0 x
  | _ => false
  end.

(** [parseFloat(String(v))], with NaN replaced by 0 *)
Definition parsed_or_zero (v : value) : result value :=
  and_then (to_string v)
           (fun s => let parsed := Num.parseFloat s in
                     Ok (JNum (if Num.isNaN parsed then Num.Dec 0 0 else parsed))).

Definition expense_amount (expense : value) : result value :=
  if positive_number (JS.get expense "amount") then Ok (JS.get expense "amount")
  else if positive_number (JS.get expense "total") then Ok (JS.get expense "total")
  else if JS.truthy (JS.get expense "amount") then parsed_or_zero (JS.get expense "amount")
  else if JS.truthy (JS.get expense "total") then parsed_or_zero (JS.get expense "total")
  else Ok (JNum (Num.Dec 0 0)).

(** [v && String(v).trim()] as a condition *)
Definition has_text (v : value) : result bool :=
  if JS.truthy v then and_then (String_trim v) (fun s => Ok (JS.truthy (JStr s)))
  else Ok false.

Definition expense_expense_date (today : string) (expense : value) : result string :=
  and_then (has_text (JS.get expense "expense_date"))
    (fun given =>
       if given then String_trim (JS.get expense "expense_date")
       else and_then (has_text (JS.get expense "date"))
              (fun given => if given then String_trim (JS.get expense "date") else Ok today)).

Definition expense_status (expense : value) : result string :=
  let status :=
    JS.or (JS.or (JS.get expense "status") (JS.get expense "payment_status"))
          (JStr "nonbillable") in
  and_then (to_string status) (fun s => Ok (Str.trim (Str.toLowerCase s))).

(** [expense.expense_id || expense.id || `expense-${index}-${Date.now()}`];
    the two numbers of the template always convert. *)
Definition expense_expense_id (expense : value) (index : nat) : M value :=
  if JS.truthy (JS.get expense "expense_id") then ret (JS.get expense "expense_id")
  else if JS.truthy (JS.get expense "id") then ret (JS.get expense "id")
  else
    t <- now ;;
    ret (JStr ("expense-" ++ Str.of_nat index ++ "-" ++ JS.display (JS.num t))).

Definition expense_account (expense : value) : result (value * value) :=
  let account := JS.get expense "account" in
  and_then
    (if JS.truthy account then
       if JS.typeof_object account
       then Ok (JS.or (JS.get account "account_name") (JStr EmptyString),
                JS.or (JS.get account "account_id") (JStr EmptyString))
       else and_then (String_trim account)
                     (fun account_name => Ok (JStr account_name, JStr EmptyString))
     else Ok (JStr EmptyString, JStr EmptyString))
    (fun '(account_name, account_id) =>
       if JS.truthy (JS.get expense "account_id") && negb (JS.truthy account_id)
       then and_then (String_trim (JS.get expense "account_id"))
                     (fun account_id => Ok (account_name, JStr account_id))
       else Ok (account_name, account_id)).

(** The callback of [expenses.map] in [getExpenses]; the conversions are
    made in the order of the source. *)
Definition normalizeExpense (expense : value) (index : nat) : M value :=
  _ <- lift (prop expense "vendor_name") ;;
  vendor_name <- lift (expense_vendor_name expense) ;;
  vendor_id <- lift (expense_vendor_id expense) ;;
  amount <- lift (expense_amount expense) ;;
  t <- now ;;
  expense_date <- lift (expense_expense_date (Date.before_T (Date.toISOString t)) expense) ;;
  status <- lift (expense_status expense) ;;
  expense_id <- expense_expense_id expense index ;;
  let reference_number := JS.or (JS.get expense "reference_number") (JStr EmptyString) in
  let customer_name := JS.or (JS.get expense "customer_name") (JStr EmptyString) in
  let paid_through := JS.or (JS.get expense "paid_through") (JStr EmptyString) in
  ' (account_name, account_id) <- lift (expense_account expense) ;;
  let currency :=
    JS.or (JS.or (JS.get expense "currency_code") (JS.get expense "currency"))
          (JStr EmptyString) in
  expense_id <- lift (to_string expense_id) ;;
  ret (JS.object
         [("expense_id", JStr expense_id);
          ("vendor_name", JS.or (JStr vendor_name) (JStr "Unknown Vendor"));
          ("vendor_id", JStr vendor_id);
          ("amount", amount);
          ("status", JStr status);
          ("expense_date", JStr expense_date);
          ("reference_number", reference_number);
          ("customer_name", customer_name);
          ("paid_through", paid_through);
          ("account_name", account_name);
          ("account_id", account_id);
          ("currency", currency)]).

(** [data?.expenses || []], emptied when it is not an array *)
Definition expenses_of (data : value) : list value :=
  match JS.or (JS.opt_get data "expenses") (JArr []) with
  | JArr expenses => expenses
  | _ => []
  end.

Definition getExpenses (userId organizationId : string) (filters : option Filters) : M value :=
  data <- zohoBooksApiCall userId organizationId (getExpenses_endpoint filters) GET JUndefined ;;
  let expenses := expenses_of data in
  normalizedExpenses <- mapM_index normalizeExpense 0 expenses ;;
  ret (JS.spread_with data "expenses" (JArr normalizedExpenses)).

Definition getExpense (userId organizationId expenseId : string) : M value :=
  zohoBooksApiCall userId organizationId ("/expenses/" ++ expenseId) GET JUndefined.

Definition updateExpense (userId organizationId expenseId : string) (expenseData : value)
  : M value :=
  zohoBooksApiCall userId organizationId ("/expenses/" ++ expenseId) PUT expenseData.

Definition deleteExpense (userId organizationId expenseId : string) : M value :=
  zohoBooksApiCall userId organizationId ("/expenses/" ++ expenseId) DELETE JUndefined.

Record Attachment : Type := {
  file_name : string;
  file_type : string;
  file_content : string
}.

Definition Attachment_value (a : Attachment) : value :=
  JObj [("file_name", JStr (file_name a)); ("file_type", JStr (file_type a));
        ("file_content", JStr (file_content a))].

(** The [expenseData] argument of [createExpense]; [None] is an absent
    optional property. *)
Record ExpenseData : Type := {
  vendor_id : option string;
  vendor_name : option string;
  reference_number : option string;
  account_id : option string;
  expense_date : string;
  total : Num.number;
  notes : option string;
  attachments : option (list Attachment)
}.

(** An optional string property as a value *)
Definition optional (o : option string) : value :=
  match o with Some s => JStr s | None => JUndefined end.

(** [if (v) payload[k] = v] *)
Definition set_if (k : string) (v : value) (payload : list (string * value))
  : list (string * value) :=
  if JS.truthy v then JS.set k v payload else payload.

Definition no_expense_account : string :=
  "No expense accounts found in your Zoho Books chart of accounts. Please create an expense account first.".

(** The [expensePayload] object [createExpense] builds for the account
    it has settled on. *)
Definition expensePayload (expenseData : ExpenseData) (accountId : value)
  : list (string * value) :=
  let expensePayload :=
    [("vendor_name", JS.or (optional (vendor_name expenseData)) (JStr "Expense"));
     ("account_id", accountId);
     ("expense_date", JStr (expense_date expenseData));
     ("amount", JNum (total expenseData))] in
  let expensePayload := set_if "vendor_id" (optional (vendor_id expenseData)) expensePayload in
  let expensePayload :=
    set_if "reference_number" (optional (reference_number expenseData)) expensePayload in
  let expensePayload := set_if "notes" (optional (notes expenseData)) expensePayload in
  match attachments expenseData with
  | Some (a :: r) =>
      JS.set "attachments" (JArr (map Attachment_value (a :: r))) expensePayload
  | _ => expensePayload
  end.

Definition createExpense (userId organizationId : string) (expenseData : ExpenseData)
  : M value :=
  try_catch
    (let accountId := optional (account_id expenseData) in
     accountId <-
       (if negb (JS.truthy accountId) then
          expenseAccounts <- getExpenseAccounts userId organizationId ;;
          match expenseAccounts with
          | [] => throw (Error no_expense_account)
          | selectedAccount :: _ =>
              let accountId := JS.get selectedAccount "account_id" in
              (* the template literal of the log line *)
              _ <- lift (to_string (JS.get selectedAccount "account_name")) ;;
              _ <- lift (to_string (JS.get selectedAccount "account_id")) ;;
              ret accountId
          end
        else ret accountId) ;;
     result <- zohoBooksApiCall userId organizationId "/expenses" POST
                                (JObj (expensePayload expenseData accountId)) ;;
     ret result)
    (fun error => throw error).

(** *** Reports *)

Definition zero : value := JNum (Num.Dec 0 0).

Definition getProfitAndLoss (userId organizationId : string) : M value :=
  try_catch
    (data <- zohoBooksApiCall userId organizationId "/reports/profitandloss" GET JUndefined ;;
     let transformedData :=
       JS.object [("total_income", zero); ("total_expenses", zero); ("net_profit", zero)] in
     if JS.truthy data then
       if JS.truthy (JS.get data "profit_and_loss") then
         let report := JS.get data "profit_and_loss" in
         let total_income := JS.or (JS.get report "total_income") zero in
         let total_expenses := JS.or (JS.get report "total_expenses") zero in
         net_profit <-
           (if JS.truthy (JS.get report "net_profit") then ret (JS.get report "net_profit")
            else
              difference <- lift (minus (JS.get report "total_income")
                                        (JS.get report "total_expenses")) ;;
              ret (JS.or difference zero)) ;;
         ret (JS.object
                [("total_income", total_income);
                 ("total_expenses", total_expenses);
                 ("net_profit", net_profit)])
       else ret data
     else ret transformedData)
    (fun error => throw error).

Definition getBalance (userId organizationId : string) : M value :=
  try_catch
    (data <- zohoBooksApiCall userId organizationId "/reports/balancesheet" GET JUndefined ;;
     let transformedData :=
       JS.object [("total_assets", zero); ("total_liabilities", zero)] in
     if JS.truthy data then
       if JS.truthy (JS.get data "balance_sheet") then
         let report := JS.get data "balance_sheet" in
         ret (JS.object
                [("total_assets", JS.or (JS.get report "total_assets") zero);
                 ("total_liabilities", JS.or (JS.get report "total_liabilities") zero)])
       else ret data
     else ret transformedData)
    (fun error => throw error).

Definition getCashFlow (userId organizationId : string) : M value :=
  try_catch
    (data <- zohoBooksApiCall userId organizationId "/reports/cashflow" GET JUndefined ;;
     ret data)
    (fun error => throw error).

Definition getExpenseReport (userId organizationId : string) : M value :=
  try_catch
    (data <- zohoBooksApiCall userId organizationId "/reports/expenses" GET JUndefined ;;
     ret data)
    (fun error => throw error).

(** *** Disconnect and connection status *)

Definition disconnectZohoBooks (userId : string) : M value :=
  t <- now ;;
  error <- update_eq {| set_is_connected := false;
                        set_access_token := None;
                        set_refresh_token := None;
                        set_disconnected_at := Some (Date.toISOString t) |} userId ;;
  if JS.truthy error then throw (Thrown error)
  else ret (JS.object [("success", JBool true)]).

Definition getZohoBooksStatus (userId : string) : M value :=
  '(data, error) <- select_single userId ;;
  if JS.truthy error then
    ret (JS.object [("is_connected", JBool false); ("organization_id", JNull);
                    ("connected_at", JNull)])
  else
    match data with
    | Some r =>
        ret (JS.object [("is_connected", JS.or (JBool (is_connected r)) (JBool false));
                        ("organization_id", column (organization_id r));
                        ("connected_at", column (connected_at r));
                        ("disconnected_at", column (disconnected_at r))])
    | None =>
        ret (JS.object [("is_connected", JBool false); ("organization_id", JUndefined);
                        ("connected_at", JUndefined); ("disconnected_at", JUndefined)])
    end.

End Zoho.

(** * Observing a run *)

Import Sys Zoho.

(** Events appended to the log between two worlds. *)
Definition new_events (before after : World) : list event :=
  skipn (List.length (log before)) (log after).

(** Request objects sent to the [zoho-api-call] edge function. *)
Fixpoint api_requests (evs : list event) : list value :=
  match evs with
  | [] => []
  | Invoke fn body _ _ :: r =>
      if String.eqb fn "zoho-api-call" then body :: api_requests r else api_requests r
  | _ :: r => api_requests r
  end.

(** The [body] property of each of these requests. *)
Definition outbound_bodies (evs : list event) : list value :=
  map (fun req => JS.get req "body") (api_requests evs).

(** Number of invocations of the refresh procedure. *)
Fixpoint refresh_calls (evs : list event) : nat :=
  match evs with
  | [] => O
  | Invoke fn _ _ _ :: r =>
      if String.eqb fn "zoho-token-refresh" then S (refresh_calls r) else refresh_calls r
  | _ :: r => refresh_calls r
  end.

(** What the dispatcher makes of the answer [data, functionError] of the
    edge function. *)
Definition dispatch_result (data functionError : value) : result value :=
  if JS.truthy functionError then
    Err (new_Error (JS.or (JS.opt_get functionError "message") (JStr "Unknown error")))
  else if negb (JS.truthy (JS.opt_get data "success")) then Err (envelope_error data)
  else Ok (JS.get data "data").

(** The world after the dispatch of one request. *)
Definition dispatched (w : World) (req : value) : World :=
  let '(data, error, rs) := edge w (log w) (rows w) "zoho-api-call" req in
  with_store w rs (Invoke "zoho-api-call" req data error).

(** The answer to the dispatch of one request. *)
Definition answer (w : World) (req : value) : value * value :=
  fst (edge w (log w) (rows w) "zoho-api-call" req).

(** What [refreshZohoBooksToken] makes of the answer [data, functionError]
    of the refresh procedure. *)
Definition refresh_result (data functionError : value) : result value :=
  if JS.truthy functionError then Err (Thrown functionError)
  else if negb (JS.truthy (JS.opt_get data "success"))
          || negb (JS.truthy (JS.opt_get data "accessToken"))
  then Err (new_Error (JS.or (JS.opt_get data "error") (JStr "Token refresh failed")))
  else Ok (JS.get data "accessToken").

(** The request sent to the refresh procedure, and its answer in [w]. *)
Definition refresh_request (userId : string) : value := JS.object [("userId", JStr userId)].

Definition refresh_answer (w : World) (userId : string) : value * value :=
  fst (edge w (log w) (rows w) "zoho-token-refresh" (refresh_request userId)).

(** The time read by [getValidAccessToken] when called in [w], and the
    world after its two reads (the record, then the clock). *)
Definition call_time (w : World) (userId : string) : Z :=
  clock w (log w ++ [Select userId])%list.

Definition after_reads (w : World) (userId : string) : World :=
  record (record w (Select userId)) (Now (call_time w userId)).

(** The time value of the expiry of a record, as the host parses it. *)
Definition expiry (w : World) (r : Integration) : option Z :=
  Date_of_column (date_parse w) (token_expires_at r).

(** Writes issued to the record store: the user addressed and the patch. *)
Fixpoint writes (evs : list event) : list (string * Patch) :=
  match evs with
  | [] => []
  | Update user patch :: r => (user, patch) :: writes r
  | _ :: r => writes r
  end.

(** The records of a user, and the records of everybody else. *)
Definition records_of (user : string) (w : World) : list Integration :=
  filter (of_user user) (rows w).

Definition records_of_others (user : string) (w : World) : list Integration :=
  filter (fun r => negb (of_user user r)) (rows w).

(** A record is disconnected: no tokens, not connected, stamped with the
    time [t]. *)
Definition is_disconnected (t : Z) (r : Integration) : Prop :=
  access_token r = None /\ refresh_token r = None /\ is_connected r = false
  /\ disconnected_at r = Some (Date.toISOString t).

(** The answer of a successful [disconnectZohoBooks]. *)
Definition success : value := JObj [("success", JBool true)].

(** [acc.account_type === 'expense'] for an account that is an object *)
Definition account_type_is_expense (acc : value) : bool :=
  match JS.get acc "account_type" with
  | JStr t => String.eqb t "expense"
  | _ => false
  end.

(** The expense-type accounts of a chart, in the order of the chart. *)
Definition expense_accounts_of (chart : list value) : list value :=
  filter account_type_is_expense chart.

(** The name and the identifier of an account convert to strings, as
    the log line of [createExpense] about the account it picked
    requires. *)
Definition account_converts (account : value) : bool :=
  JS.converts (JS.get account "account_name") && JS.converts (JS.get account "account_id").

(** Times read from the clock. *)
Fixpoint clock_reads (evs : list event) : list Z :=
  match evs with
  | [] => []
  | Now t :: r => t :: clock_reads r
  | _ :: r => clock_reads r
  end.

(** The text [String(v).trim()] yields for a value that converts. *)
Definition trimmed (v : value) : string := Str.trim (JS.display v).

(** The properties of a raw record that the normalizer may convert to a
    string ([account] is converted only when it is a primitive). *)
Definition converted_properties : list string :=
  ["vendor_name"; "vendor"; "vendor_id"; "amount"; "total"; "expense_date"; "date";
   "status"; "payment_status"; "expense_id"; "id"; "account_id"].

(** A raw record the normalizer can read: it is neither [null] nor
    [undefined], and each of these properties converts to a primitive
    (none is an object with a [toString] property of its own, or an array
    holding one). *)
Definition readable (expense : value) : bool :=
  negb (JS.nullish expense)
  && forallb (fun k => JS.converts (JS.get expense k)) converted_properties.

(** Property [k] of a raw record is absent. *)
Definition absent (expense : value) (k : string) : Prop :=
  JS.get expense k = JUndefined.

(** Property [k] of a raw record is blank: falsy, or nothing but white
    space once printed. *)
Definition blank (expense : value) (k : string) : Prop :=
  JS.truthy (JS.get expense k) = false \/ trimmed (JS.get expense k) = EmptyString.

(** The upstream identifier the normalizer settles on, if any:
    [expense.expense_id || expense.id]. *)
Definition upstream_id (expense : value) : option value :=
  if JS.truthy (JS.get expense "expense_id") then Some (JS.get expense "expense_id")
  else if JS.truthy (JS.get expense "id") then Some (JS.get expense "id")
  else None.

(** [normalized reads expense r]: [r] is a canonical record derived from
    the raw record [expense], the clock having been read at [reads]. *)
Definition normalized (reads : list Z) (expense r : value) : Prop :=
  (* amount *)
  expense_amount expense = Ok (JS.get r "amount")
  (* status *)
  /\ (exists status, JS.get r "status" = JStr status /\ Str.is_lower_case status
        /\ (absent expense "status" -> absent expense "payment_status" ->
            status = "nonbillable"))
  (* vendor name *)
  /\ (exists vendor_name, JS.get r "vendor_name" = JStr vendor_name
        /\ vendor_name <> EmptyString
        /\ (blank expense "vendor_name" -> blank expense "vendor" ->
            vendor_name = "Unknown Vendor"))
  (* date *)
  /\ (exists expense_date, JS.get r "expense_date" = JStr expense_date
        /\ (absent expense "expense_date" -> absent expense "date" ->
            exists t, In t reads /\ expense_date = Date.before_T (Date.toISOString t)))
  (* identifier *)
  /\ (exists expense_id, JS.get r "expense_id" = JStr expense_id
        /\ match upstream_id expense with
           | Some id => expense_id = JS.display id
                        /\ (JS.isArray id = false -> expense_id <> EmptyString)
           | None => expense_id <> EmptyString
           end).

(** The operations of the client that go through the dispatcher. *)
Inductive Operation : Type :=
| GetOrganizationDetails
| GetInvoices (filters : option Filters)
| GetInvoice (invoiceId : string)
| CreateInvoice (invoiceData : value)
| UpdateInvoice (invoiceId : string) (invoiceData : value)
| DeleteInvoice (invoiceId : string)
| GetCustomers (filters : option Filters)
| GetCustomer (customerId : string)
| CreateCustomer (customerData : value)
| UpdateCustomer (customerId : string) (customerData : value)
| DeleteCustomer (customerId : string)
| GetVendors (filters : option Filters)
| GetVendor (vendorId : string)
| CreateVendor (vendorData : value)
| UpdateVendor (vendorId : string) (vendorData : value)
| DeleteVendor (vendorId : string)
| GetChartOfAccounts
| GetExpenseAccounts
| GetExpenses (filters : option Filters)
| GetExpense (expenseId : string)
| UpdateExpense (expenseId : string) (expenseData : value)
| DeleteExpense (expenseId : string)
| CreateExpense (expenseData : ExpenseData)
| GetProfitAndLoss
| GetBalance
| GetCashFlow
| GetExpenseReport.

(** Running an operation for a user and an organization. *)
Definition run (u o : string) (op : Operation) : M value :=
  match op with
  | GetOrganizationDetails => getOrganizationDetails u o
  | GetInvoices filters => getInvoices u o filters
  | GetInvoice invoiceId => getInvoice u o invoiceId
  | CreateInvoice invoiceData => createInvoice u o invoiceData
  | UpdateInvoice invoiceId invoiceData => updateInvoice u o invoiceId invoiceData
  | DeleteInvoice invoiceId => deleteInvoice u o invoiceId
  | GetCustomers filters => getCustomers u o filters
  | GetCustomer customerId => getCustomer u o customerId
  | CreateCustomer customerData => createCustomer u o customerData
  | UpdateCustomer customerId customerData => updateCustomer u o customerId customerData
  | DeleteCustomer customerId => deleteCustomer u o customerId
  | GetVendors filters => getVendors u o filters
  | GetVendor vendorId => getVendor u o vendorId
  | CreateVendor vendorData => createVendor u o vendorData
  | UpdateVendor vendorId vendorData => updateVendor u o vendorId vendorData
  | DeleteVendor vendorId => deleteVendor u o vendorId
  | GetChartOfAccounts => getChartOfAccounts u o
  | GetExpenseAccounts => accounts <- getExpenseAccounts u o ;; ret (JArr accounts)
  | GetExpenses filters => getExpenses u o filters
  | GetExpense expenseId => getExpense u o expenseId
  | UpdateExpense expenseId expenseData => updateExpense u o expenseId expenseData
  | DeleteExpense expenseId => deleteExpense u o expenseId
  | CreateExpense expenseData => createExpense u o expenseData
  | GetProfitAndLoss => getProfitAndLoss u o
  | GetBalance => getBalance u o
  | GetCashFlow => getCashFlow u o
  | GetExpenseReport => getExpenseReport u o
  end.

(** The error with which a logged dispatch failed, if it failed. *)
Definition failed_dispatch (ev : event) : option exn :=
  match ev with
  | Invoke fn _ data functionError =>
      if String.eqb fn "zoho-api-call" then
        match dispatch_result data functionError with
        | Err e => Some e
        | Ok _ => None
        end
      else None
  | _ => None
  end.

(** The currency [getOrganizationDetails] falls back on. *)
Definition default_currency : value :=
  JObj [("currency_code", JStr "USD"); ("currency_symbol", JStr "$")].

(** The zero-valued reports. *)
Definition zero_profit_and_loss : value :=
  JObj [("total_income", zero); ("total_expenses", zero); ("net_profit", zero)].

Definition zero_balance : value :=
  JObj [("total_assets", zero); ("total_liabilities", zero)].

(** The one operation that answers a failed dispatch with a default. *)
Definition swallows_failures (op : Operation) : bool :=
  match op with
  | GetOrganizationDetails => true
  | _ => false
  end.

(** The four list operations, by the endpoint they dispatch. *)
Definition list_endpoints : list (option Filters -> string) :=
  [getInvoices_endpoint; getCustomers_endpoint; getVendors_endpoint; getExpenses_endpoint].

(** * Concrete worlds

    Worlds with fixed oracles, on which the client can be run. *)

Module Demo.

Definition expired_stamp : string := "2020-01-01T00:00:00.000Z".
Definition future_stamp : string := "2030-01-01T00:00:00.000Z".

(** The host's [Date.parse] on the two time stamps above. *)
Definition parse (s : string) : option Z :=
  if String.eqb s expired_stamp then Some 1577836800000
  else if String.eqb s future_stamp then Some 1893456000000
  else None.

(** 2024-01-05T00:00:00.000Z *)
Definition today : Z := 1704412800000.

(** A world whose store is reachable, whose clock stands at [today] and
    whose edge functions answer by [respond] without touching the store. *)
Definition world (rs : list Integration) (respond : string -> value -> value * value)
  : World :=
  {| rows := rs;
     log := [];
     edge := fun _ store fn body => (respond fn body, store);
     store_error := fun _ => JNull;
     clock := fun _ => today;
     date_parse := parse |}.

Definition connected (stamp : string) : Integration :=
  {| user_id := "u1";
     organization_id := Some "org1";
     access_token := Some "stored-token";
     refresh_token := Some "refresh-token";
     token_expires_at := Some stamp;
     is_connected := true;
     connected_at := Some "2019-12-31T23:00:00.000Z";
     disconnected_at := None |}.

(** The row as [disconnectZohoBooks] leaves it. *)
Definition disconnected (stamp : string) : Integration :=
  {| user_id := "u1";
     organization_id := Some "org1";
     access_token := None;
     refresh_token := None;
     token_expires_at := Some stamp;
     is_connected := false;
     connected_at := Some "2019-12-31T23:00:00.000Z";
     disconnected_at := Some "2023-06-01T12:00:00.000Z" |}.

(** The envelope [{success: true, data}] of a successful API call, and a
    fresh token for a refresh. *)
Definition succeed_with (data : value) (fn : string) (body : value) : value * value :=
  if String.eqb fn "zoho-token-refresh"
  then (JObj [("success", JBool true); ("accessToken", JStr "fresh-token")], JNull)
  else (JObj [("success", JBool true); ("data", data)], JNull).

(** The envelope [{success: false, error, status}] of a failed call. *)
Definition fail_with (error : string) (status : Z) (fn : string) (body : value)
  : value * value :=
  (JObj [("success", JBool false); ("error", JStr error); ("status", JS.num status)], JNull).

(** Answers keyed by the endpoint of the request. *)
Definition by_endpoint (table : list (string * value)) (fn : string) (body : value)
  : value * value :=
  match JS.assoc (JS.display (JS.get body "endpoint")) table with
  | Some data => (JObj [("success", JBool true); ("data", data)], JNull)
  | None => (JObj [("success", JBool false); ("error", JStr "not found"); ("status", JS.num 404)],
             JNull)
  end.

(** The world [w] with a record store that answers every request with
    an error. *)
Definition store_down (w : World) : World :=
  {| rows := rows w;
     log := log w;
     edge := edge w;
     store_error := fun _ => JObj [("message", JStr "connection refused")];
     clock := clock w;
     date_parse := date_parse w |}.

End Demo.

(** * Further notions used by the properties *)
(** The request each operation other than [createExpense] dispatches:
    endpoint, method and body. *)
Definition request_of (op : Operation) : string * Method * value :=
  match op with
  | GetOrganizationDetails => ("/organization", GET, JUndefined)
  | GetInvoices filters => (getInvoices_endpoint filters, GET, JUndefined)
  | GetInvoice invoiceId => ("/invoices/" ++ invoiceId, GET, JUndefined)
  | CreateInvoice invoiceData => ("/invoices", POST, invoiceData)
  | UpdateInvoice invoiceId invoiceData => ("/invoices/" ++ invoiceId, PUT, invoiceData)
  | DeleteInvoice invoiceId => ("/invoices/" ++ invoiceId, DELETE, JUndefined)
  | GetCustomers filters => (getCustomers_endpoint filters, GET, JUndefined)
  | GetCustomer customerId => ("/contacts/" ++ customerId, GET, JUndefined)
  | CreateCustomer customerData => ("/contacts", POST, customerData)
  | UpdateCustomer customerId customerData => ("/contacts/" ++ customerId, PUT, customerData)
  | DeleteCustomer customerId => ("/contacts/" ++ customerId, DELETE, JUndefined)
  | GetVendors filters => (getVendors_endpoint filters, GET, JUndefined)
  | GetVendor vendorId => ("/contacts/" ++ vendorId, GET, JUndefined)
  | CreateVendor vendorData =>
      ("/contacts", POST, JS.spread_with vendorData "contact_type" (JStr "vendor"))
  | UpdateVendor vendorId vendorData => ("/contacts/" ++ vendorId, PUT, vendorData)
  | DeleteVendor vendorId => ("/contacts/" ++ vendorId, DELETE, JUndefined)
  | GetChartOfAccounts => ("/chartofaccounts", GET, JUndefined)
  | GetExpenseAccounts => ("/chartofaccounts", GET, JUndefined)
  | GetExpenses filters => (getExpenses_endpoint filters, GET, JUndefined)
  | GetExpense expenseId => ("/expenses/" ++ expenseId, GET, JUndefined)
  | UpdateExpense expenseId expenseData => ("/expenses/" ++ expenseId, PUT, expenseData)
  | DeleteExpense expenseId => ("/expenses/" ++ expenseId, DELETE, JUndefined)
  | CreateExpense expenseData =>
      ("/expenses", POST, JObj (expensePayload expenseData (optional (account_id expenseData))))
  | GetProfitAndLoss => ("/reports/profitandloss", GET, JUndefined)
  | GetBalance => ("/reports/balancesheet", GET, JUndefined)
  | GetCashFlow => ("/reports/cashflow", GET, JUndefined)
  | GetExpenseReport => ("/reports/expenses", GET, JUndefined)
  end.

Definition is_createExpense (op : Operation) : bool :=
  match op with CreateExpense _ => true | _ => false end.

Definition is_getExpenses (op : Operation) : bool :=
  match op with GetExpenses _ => true | _ => false end.

(** An event is a request to the record store. *)
Definition is_store_event (ev : event) : bool :=
  match ev with Select _ | Update _ _ => true | _ => false end.

(** An event is a request to the dispatcher's edge function. *)
Definition is_dispatch (ev : event) : bool :=
  match ev with
  | Invoke fn _ _ _ => String.eqb fn "zoho-api-call"
  | _ => false
  end.

(** The four messages the dispatcher substitutes for the upstream error. *)
Definition mapped_message (n : Z) : option string :=
  if n =? 403 then Some msg_403
  else if n =? 404 then Some msg_404
  else if n =? 400 then Some msg_400
  else if n =? 401 then Some msg_401
  else None.

(** The answer of the [zoho-get-organization] procedure in [w]. *)
Definition organization_answer (w : World) (userId : string) : value * value :=
  fst (edge w (log w) (rows w) "zoho-get-organization" (JS.object [("userId", JStr userId)])).

(** No filter is set: the filters object is absent, or each of its
    properties is absent or falsy. *)
Definition filters_empty (filters : option Filters) : bool :=
  match filters with
  | None => true
  | Some f =>
      negb (JS.truthy (optional (status f)))
      && negb (match limit f with Some n => JS.truthy (JNum n) | None => false end)
      && negb (match offset f with Some n => JS.truthy (JNum n) | None => false end)
  end.

(** The canonical record the normalizer builds from the raw record
    [expense] at position [index], the clock reading [t] when the date is
    defaulted and [t'] when the identifier is synthesized, if every
    conversion goes through. *)
Definition normalized_record (expense : value) (index : nat) (t t' : Z) : value :=
  JObj [("expense_id",
         JStr (match upstream_id expense with
               | Some id => JS.display id
               | None => "expense-" ++ Str.of_nat index ++ "-" ++ JS.display (JS.num t')
               end));
        ("vendor_name",
         JS.or (JStr (value_or EmptyString (expense_vendor_name expense)))
               (JStr "Unknown Vendor"));
        ("vendor_id", JStr (value_or EmptyString (expense_vendor_id expense)));
        ("amount", value_or JUndefined (expense_amount expense));
        ("status", JStr (value_or EmptyString (expense_status expense)));
        ("expense_date",
         JStr (value_or EmptyString
                 (expense_expense_date (Date.before_T (Date.toISOString t)) expense)));
        ("reference_number", JS.or (JS.get expense "reference_number") (JStr EmptyString));
        ("customer_name", JS.or (JS.get expense "customer_name") (JStr EmptyString));
        ("paid_through", JS.or (JS.get expense "paid_through") (JStr EmptyString));
        ("account_name", fst (value_or (JUndefined, JUndefined) (expense_account expense)));
        ("account_id", snd (value_or (JUndefined, JUndefined) (expense_account expense)));
        ("currency",
         JS.or (JS.or (JS.get expense "currency_code") (JS.get expense "currency"))
               (JStr EmptyString))].

(** The property names of a canonical record, in order. *)
Definition canonical_keys : list string :=
  ["expense_id"; "vendor_name"; "vendor_id"; "amount"; "status"; "expense_date";
   "reference_number"; "customer_name"; "paid_through"; "account_name"; "account_id";
   "currency"].

(** Those that depend on the raw record alone. *)
Definition stable_keys : list string :=
  ["vendor_name"; "vendor_id"; "amount"; "status"; "reference_number"; "customer_name";
   "paid_through"; "account_name"; "account_id"; "currency"].

(** The property names of an object. *)
Definition keys (v : value) : list string :=
  match v with
  | JObj fields => map fst fields
  | _ => []
  end.

(** The raw record carries a date under one of the two spellings. *)
Definition has_date (expense : value) : bool :=
  value_or false (has_text (JS.get expense "expense_date"))
  || value_or false (has_text (JS.get expense "date")).

(** No character of [s] is a hyphen. *)
Fixpoint hyphen_free (s : string) : bool :=
  match s with
  | EmptyString => true
  | String c r => negb (Ascii.eqb c "-") && hyphen_free r
  end.

(** The patch [disconnectZohoBooks] writes at time [t]. *)
Definition disconnect_patch (t : Z) : Patch :=
  {| set_is_connected := false;
     set_access_token := None;
     set_refresh_token := None;
     set_disconnected_at := Some (Date.toISOString t) |}.

(** Occurrences of the character [c] in [s]. *)
Fixpoint occurrences (c : ascii) (s : string) : nat :=
  match s with
  | EmptyString => 0
  | String x r => (if Ascii.eqb x c then 1 else 0) + occurrences c r
  end.

(** The number of parameters a filters object sets. *)
Definition applied (filters : option Filters) : nat :=
  match filters with
  | None => 0
  | Some f =>
      (if JS.truthy (optional (status f)) then 1 else 0)
      + (match limit f with Some n => if JS.truthy (JNum n) then 1 else 0 | None => 0 end)
      + (match offset f with Some n => if JS.truthy (JNum n) then 1 else 0 | None => 0 end)
  end%nat.

(** * The authorization URL

    The module-level configuration is read from the environment once;
    here it is a record.  [Math.random().toString(36)] is taken as it is
    printed. *)

Module OAuth.

Record Env : Type := {
  VITE_ZOHO_CLIENT_ID : option string;
  VITE_ZOHO_CLIENT_SECRET : option string;
  VITE_ZOHO_REDIRECT_URI : option string;
  (** [window.location.origin] *)
  origin : string
}.

Definition ZOHO_OAUTH_AUTH_URL : string := "https://accounts.zoho.com/oauth/v2/auth".

Definition getRedirectURI (env : Env) : string :=
  match VITE_ZOHO_REDIRECT_URI env with
  | Some uri => if JS.truthy (JStr uri) then uri else origin env ++ "/books/callback"
  | None => origin env ++ "/books/callback"
  end.

(** [s.substring(2, 15)] *)
Definition substring_2_15 (s : string) : string := String.substring 2 13 s.

(** [generateState], [random1] and [random2] being the two
    [Math.random().toString(36)]. *)
Definition generateState (random1 random2 : string) : string :=
  substring_2_15 random1 ++ substring_2_15 random2.

Definition client_id_not_configured : string :=
  "Zoho Books Client ID not configured. Check VITE_ZOHO_CLIENT_ID environment variable.".

Definition getZohoBooksAuthUrl (env : Env) (random1 random2 : string) : result string :=
  match VITE_ZOHO_CLIENT_ID env with
  | Some ZOHO_CLIENT_ID =>
      if negb (JS.truthy (JStr ZOHO_CLIENT_ID)) then Err (Error client_id_not_configured)
      else
        let params : URLSearchParams.t :=
          [("client_id", ZOHO_CLIENT_ID);
           ("redirect_uri", getRedirectURI env);
           ("response_type", "code");
           ("access_type", "offline");
           ("scope", "ZohoBooks.fullaccess.ALL");
           ("state", generateState random1 random2)] in
        Ok (ZOHO_OAUTH_AUTH_URL ++ "?" ++ URLSearchParams.toString params)
  | None => Err (Error client_id_not_configured)
  end.

(** [exchangeCodeForToken]: deprecated, always rejects. *)
Definition exchangeCodeForToken (code userId : string) : M value :=
  throw (Error "Use Supabase Edge Function zoho-oauth-exchange instead").

End OAuth.


(** The operations that return something else than what the dispatcher
    gave them: the answer reshaped, defaulted or normalized, or the
    outcome of more than one dispatch. *)
Definition transforms (op : Operation) : bool :=
  match op with
  | GetOrganizationDetails | GetCustomers _ | GetVendors _ | GetExpenses _
  | GetExpenseAccounts | CreateExpense _ | GetProfitAndLoss | GetBalance => true
  | _ => false
  end.

(** The parameters the caller's filters contribute to the query of a
    contacts listing, in the order they are set: limit, offset, status,
    each one only when it is present and truthy. *)
Definition caller_params (filters : option Filters) : URLSearchParams.t :=
  match filters with
  | None => []
  | Some f =>
      ((match limit f with
       | Some n => if JS.truthy (JNum n) then [("limit", Num.toString n)] else []
       | None => []
       end)
      ++ (match offset f with
          | Some n => if JS.truthy (JNum n) then [("offset", Num.toString n)] else []
          | None => []
          end)
      ++ (match status f with
          | Some s => if JS.truthy (JStr s) then [("status", s)] else []
          | None => []
          end))%list
  end.

(** * Every operation of the module

    The asynchronous operations the module exports: those that go
    through the dispatcher, and those that go to the token procedures
    and to the record store. *)
Inductive Call : Type :=
| Dispatched (op : Operation)
| RefreshZohoBooksToken
| GetValidAccessToken
| GetOrganizationId
| DisconnectZohoBooks
| GetZohoBooksStatus
| ExchangeCodeForToken (code : string)
| ZohoBooksApiCall (endpoint : string) (method : Method) (body : value).

(** Performing a call for a user and an organization. *)
Definition perform (u o : string) (call : Call) : M value :=
  match call with
  | Dispatched op => run u o op
  | RefreshZohoBooksToken => refreshZohoBooksToken u
  | GetValidAccessToken => getValidAccessToken u
  | GetOrganizationId => getOrganizationId u
  | DisconnectZohoBooks => disconnectZohoBooks u
  | GetZohoBooksStatus => getZohoBooksStatus u
  | ExchangeCodeForToken code => OAuth.exchangeCodeForToken code u
  | ZohoBooksApiCall endpoint method body => zohoBooksApiCall u o endpoint method body
  end.

(** The request logged as [ev] failed, the log being [before] when it was
    issued: an invocation answered with an error of the boundary or
    without success (for the token and the organization procedures, or
    without the token or the identifier asked for); a read of the store
    answered with an error, or that did not find exactly one record of
    the user; a write answered with an error.  The store is read for its
    records as it is in [w]: the operations that read it do so before
    anything else. *)
Definition failed (w : World) (before : list event) (ev : event) : bool :=
  match ev with
  | Invoke fn _ data error =>
      JS.truthy error
      || negb (JS.truthy (JS.opt_get data "success"))
      || (String.eqb fn "zoho-token-refresh"
          && negb (JS.truthy (JS.opt_get data "accessToken")))
      || (String.eqb fn "zoho-get-organization"
          && negb (JS.truthy (JS.opt_get data "organizationId")))
  | Select user =>
      JS.truthy (store_error w before)
      || match filter (of_user user) (rows w) with
         | [_] => false
         | _ => true
         end
  | Update _ _ => JS.truthy (store_error w before)
  | Now _ => false
  end.

(** The requests of [evs] that failed, [before] being the log when the
    first of them was issued. *)
Fixpoint failures (w : World) (before evs : list event) : list event :=
  match evs with
  | [] => []
  | ev :: r =>
      (if failed w before ev then [ev] else []) ++ failures w (before ++ [ev]) r
  end.

(** The requests that failed between the world [w] and the world [w']
    an operation left. *)
Definition failures_of (w w' : World) : list event :=
  failures w (log w) (new_events w w').

(** * Sanity checks of the language model *)

Example toString_samples :
  map Num.toString
      [Num.Dec 125 (-1); Num.Dec (-5) 0; Num.Dec 1 21; Num.Dec 1 (-7);
       Num.Dec 1500 0; Num.Dec 123 (-5); Num.Dec 12345 20]
  = ["12.5"; "-5"; "1e+21"; "1e-7"; "1500"; "0.00123"; "1.2345e+24"].
Proof. vm_compute. reflexivity. Qed.

Example parseFloat_samples :
  map Num.parseFloat ["12.50"; "  -5px"; ".5"; "1.e3"; "abc"; "."; "1e"; "-Infinityx"; "+.e1"]
  = [Num.Dec 125 (-1); Num.Dec (-5) 0; Num.Dec 5 (-1); Num.Dec 1 3; Num.NaN; Num.NaN;
     Num.Dec 1 0; Num.Inf true; Num.NaN].
Proof. vm_compute. reflexivity. Qed.

Example rounding_samples :
  (Num.sub (Num.Dec 3 (-1)) (Num.Dec 1 (-1)),
   Num.sub (Num.Dec 1 16) (Num.Dec (-1) 0),
   Num.sub (Num.Dec 1 2) (Num.Dec 3333 (-2)),
   Num.parseFloat "0.1234567890123456789",
   Num.parseFloat "1e400",
   Num.ofString "9007199254740993")
  = (Num.Dec 19999999999999998 (-17), Num.Dec 1 16, Num.Dec 6667 (-2),
     Num.Dec 12345678901234568 (-17), Num.Inf false, Num.Dec 9007199254740992 0).
Proof. vm_compute. reflexivity. Qed.

Example ToString_samples :
  map JS.ToString
      [JObj [("toString", JS.num 1)]; JObj [("message", JStr "m")];
       JArr [JS.num 1; JNull; JStr "a"]; JArr [JObj [("toString", JNull)]]; JS.num 403]
  = [None; Some "[object Object]"; Some "1,,a"; None; Some "403"].
Proof. vm_compute. reflexivity. Qed.

Example ofString_samples :
  map Num.ofString ["12.50"; " 7 "; EmptyString; "0x1F"; "5px"; "1e2"; "0b102"; "-0x1"]
  = [Num.Dec 125 (-1); Num.Dec 7 0; Num.Dec 0 0; Num.Dec 31 0; Num.NaN; Num.Dec 1 2;
     Num.NaN; Num.NaN].
Proof. vm_compute. reflexivity. Qed.

Example JSON_parse_samples :
  map (fun s => JS.JSON_parse (Str.dq s))
      ["{'message':'Rate limit','code':57}";
       " [1, -2.50e1, true, null, 'a" ++ String Str.backslash "nb'] ";
       "Invalid request"; "{'a':{'b':[]},'a':2}"; "01"; "{'a':1,}"; "null"; "1e"]
  = [Some (JObj [("message", JStr "Rate limit"); ("code", JS.num 57)]);
     Some (JArr [JS.num 1; JS.num (-25); JBool true; JNull;
                 JStr (String "a" (String (ascii_of_nat 10) "b"))]);
     None; Some (JObj [("a", JS.num 2)]); None; None; Some JNull; None].
Proof. vm_compute. reflexivity. Qed.

Example JSON_parse_escapes :
  map JS.JSON_parse
      [Str.dq "'" ++ String Str.backslash "u00e9" ++ Str.dq "'";
       Str.dq "'" ++ String Str.backslash "ud83d" ++ String Str.backslash "ude00" ++ Str.dq "'";
       Str.dq "'" ++ String Str.backslash "u12'"]
  = [Some (JStr (String (ascii_of_nat 195) (String (ascii_of_nat 169) EmptyString)));
     Some (JStr (String (ascii_of_nat 240) (String (ascii_of_nat 159)
                   (String (ascii_of_nat 152) (String (ascii_of_nat 128) EmptyString)))));
     None].
Proof. vm_compute. reflexivity. Qed.

Example toISOString_samples :
  map Date.toISOString [0; 1704412800000; 951782400123; -1; 253402300800000]
  = ["1970-01-01T00:00:00.000Z"; "2024-01-05T00:00:00.000Z"; "2000-02-29T00:00:00.123Z";
     "1969-12-31T23:59:59.999Z"; "+010000-01-01T00:00:00.000Z"].
Proof. vm_compute. reflexivity. Qed.

Example URLSearchParams_sample :
  URLSearchParams.toString
    (URLSearchParams.set "contact_type" "vendor"
       (URLSearchParams.set "status" "a b&c"
          (URLSearchParams.set "limit" "10" URLSearchParams.empty)))
  = "limit=10&status=a+b%26c&contact_type=vendor".
Proof. vm_compute. reflexivity. Qed.

(** * Properties *)

(** ** The monad and the log *)

Lemma try_catch_rethrow {A} (m : M A) (w : World) :
  try_catch m (fun error => throw error) w = m w.
Proof.
  unfold try_catch, throw. destruct (m w) as [[a | e] w']; reflexivity.
Qed.

Lemma bind_ret_id {A} (m : M A) (w : World) : (x <- m ;; ret x) w = m w.
Proof.
  unfold bind, ret. destruct (m w) as [[a | e] w']; reflexivity.
Qed.

Lemma new_events_app (w w' : World) (evs : list event) :
  log w' = (log w ++ evs)%list -> new_events w w' = evs.
Proof.
  intros H. unfold new_events. rewrite H.
  rewrite skipn_app, skipn_all, Nat.sub_diag. reflexivity.
Qed.

Lemma zohoBooksApiCall_run (u o ep : string) (m : Method) (b : value) (w : World) :
  zohoBooksApiCall u o ep m b w =
  (dispatch_result (fst (answer w (api_request u o ep m b)))
                   (snd (answer w (api_request u o ep m b))),
   dispatched w (api_request u o ep m b)).
Proof.
  unfold zohoBooksApiCall. rewrite try_catch_rethrow.
  unfold bind, functions_invoke, dispatch_result, dispatched, answer.
  destruct (edge w (log w) (rows w) "zoho-api-call" (api_request u o ep m b))
    as [[data error] rs]; simpl.
  destruct (JS.truthy error); [reflexivity|].
  destruct (JS.truthy (JS.opt_get data "success")); reflexivity.
Qed.

Lemma dispatched_log (w : World) (req : value) :
  log (dispatched w req) =
  (log w ++ [Invoke "zoho-api-call" req (fst (answer w req)) (snd (answer w req))])%list.
Proof.
  unfold dispatched, answer.
  destruct (edge w (log w) (rows w) "zoho-api-call" req) as [[data error] rs].
  reflexivity.
Qed.

Lemma zohoBooksApiCall_events (u o ep : string) (m : Method) (b : value) (w : World) :
  new_events w (snd (zohoBooksApiCall u o ep m b w)) =
  [Invoke "zoho-api-call" (api_request u o ep m b)
          (fst (answer w (api_request u o ep m b)))
          (snd (answer w (api_request u o ep m b)))].
Proof.
  rewrite zohoBooksApiCall_run; simpl. apply new_events_app, dispatched_log.
Qed.

(** ** Objects *)

Lemma assoc_set_same (k : string) (v : value) (fields : list (string * value)) :
  JS.assoc k (JS.set k v fields) = Some v.
Proof.
  induction fields as [| [k' v'] r IH]; simpl.
  - rewrite String.eqb_refl. reflexivity.
  - destruct (String.eqb k k') eqn:E; simpl.
    + rewrite String.eqb_refl. reflexivity.
    + rewrite E. exact IH.
Qed.

Lemma assoc_set_other (k k' : string) (v : value) (fields : list (string * value)) :
  String.eqb k' k = false ->
  JS.assoc k' (JS.set k v fields) = JS.assoc k' fields.
Proof.
  intros Hne. induction fields as [| [k0 v0] r IH]; simpl.
  - rewrite Hne. reflexivity.
  - destruct (String.eqb k k0) eqn:E; simpl.
    + apply String.eqb_eq in E. subst k0. rewrite Hne. reflexivity.
    + rewrite IH. reflexivity.
Qed.

Lemma get_spread_with (d : value) (k : string) (x : value) :
  JS.get (JS.spread_with d k x) k = x.
Proof.
  unfold JS.spread_with; simpl. rewrite assoc_set_same. reflexivity.
Qed.

Lemma api_request_body (u o ep : string) (m : Method) (b : value) :
  JS.get (api_request u o ep m b) "body" = b.
Proof. reflexivity. Qed.

(** ** List filters: zero-valued limit and offset *)

Lemma set_limit_zero (st : option string) (off : option Num.number) (e : Z)
      (params : URLSearchParams.t) :
  set_limit (Some {| status := st; limit := Some (Num.Dec 0 e); offset := off |}) params
  = set_limit (Some {| status := st; limit := None; offset := off |}) params.
Proof. reflexivity. Qed.

Lemma set_offset_zero (st : option string) (lim : option Num.number) (e : Z)
      (params : URLSearchParams.t) :
  set_offset (Some {| status := st; limit := lim; offset := Some (Num.Dec 0 e) |}) params
  = set_offset (Some {| status := st; limit := lim; offset := None |}) params.
Proof. reflexivity. Qed.

(** C10. For each list operation (getInvoices, getCustomers, getVendors,
    getExpenses) a filters object whose limit is 0, or whose offset is 0,
    yields the same dispatched endpoint string as the filters object
    without that field, and the operation then runs identically: a zero
    limit or offset never reaches the query string. *)
Theorem zero_limit_offset_omitted
        (st : option string) (lim off : option Num.number) (u o : string) (w : World) :
  let zero_limit := Some {| status := st; limit := Some (Num.of_Z 0); offset := off |} in
  let no_limit := Some {| status := st; limit := None; offset := off |} in
  let zero_offset := Some {| status := st; limit := lim; offset := Some (Num.of_Z 0) |} in
  let no_offset := Some {| status := st; limit := lim; offset := None |} in
  (forall endpoint, In endpoint list_endpoints ->
     endpoint zero_limit = endpoint no_limit /\ endpoint zero_offset = endpoint no_offset)
  /\ getInvoices u o zero_limit w = getInvoices u o no_limit w
  /\ getInvoices u o zero_offset w = getInvoices u o no_offset w
  /\ getCustomers u o zero_limit w = getCustomers u o no_limit w
  /\ getCustomers u o zero_offset w = getCustomers u o no_offset w
  /\ getVendors u o zero_limit w = getVendors u o no_limit w
  /\ getVendors u o zero_offset w = getVendors u o no_offset w
  /\ getExpenses u o zero_limit w = getExpenses u o no_limit w
  /\ getExpenses u o zero_offset w = getExpenses u o no_offset w.
Proof.
  intros zero_limit no_limit zero_offset no_offset.
  assert (E : forall endpoint, In endpoint list_endpoints ->
     endpoint zero_limit = endpoint no_limit /\ endpoint zero_offset = endpoint no_offset).
  { intros endpoint Hin. simpl in Hin.
    destruct Hin as [<- | [<- | [<- | [<- | []]]]]; split;
      unfold getInvoices_endpoint, getCustomers_endpoint, getVendors_endpoint,
        getExpenses_endpoint, zero_limit, no_limit, zero_offset, no_offset;
      change (Num.of_Z 0) with (Num.Dec 0 0);
      rewrite ?set_limit_zero, ?set_offset_zero; reflexivity. }
  split; [exact E|].
  unfold getInvoices, getCustomers, getVendors, getExpenses.
  destruct (E getInvoices_endpoint) as [-> ->]; [simpl; tauto|].
  destruct (E getCustomers_endpoint) as [-> ->]; [simpl; tauto|].
  destruct (E getVendors_endpoint) as [-> ->]; [simpl; tauto|].
  destruct (E getExpenses_endpoint) as [-> ->]; [simpl; tauto|].
  repeat split; reflexivity.
Qed.

(** ** Contacts: shape of a successful response *)

Lemma contacts_of_not_array (data : value) :
  JS.isArray (JS.opt_get data "contacts") = false -> contacts_of data = JArr [].
Proof.
  intros H. unfold contacts_of, JS.or.
  destruct (JS.truthy (JS.opt_get data "contacts")).
  - rewrite H. reflexivity.
  - reflexivity.
Qed.

Lemma contacts_of_is_array (data : value) : JS.isArray (contacts_of data) = true.
Proof.
  unfold contacts_of.
  destruct (JS.isArray (JS.or (JS.opt_get data "contacts") (JArr []))) eqn:E; simpl; auto.
Qed.

(** C9. Whenever the dispatcher answers getCustomers or getVendors with
    data whose contacts property is missing or is not an array (whatever
    else the data is), the operation does not fail: it returns a result
    whose contacts property is the empty array. *)
Theorem contacts_default_to_empty_array
        (u o : string) (filters : option Filters) (w w' : World) (data : value) :
  JS.isArray (JS.opt_get data "contacts") = false ->
  (zohoBooksApiCall u o (getCustomers_endpoint filters) GET JUndefined w = (Ok data, w') ->
   exists result,
     getCustomers u o filters w = (Ok result, w') /\ JS.get result "contacts" = JArr [])
  /\
  (zohoBooksApiCall u o (getVendors_endpoint filters) GET JUndefined w = (Ok data, w') ->
   exists result,
     getVendors u o filters w = (Ok result, w') /\ JS.get result "contacts" = JArr []).
Proof.
  intros Hshape. split; intros Hcall.
  - exists (JS.spread_with data "contacts" (JArr [])). split.
    + unfold getCustomers, bind. rewrite Hcall.
      rewrite (contacts_of_not_array data Hshape). reflexivity.
    + apply get_spread_with.
  - exists (JS.spread_with data "contacts" (JArr [])). split.
    + unfold getVendors, bind. rewrite Hcall.
      rewrite (contacts_of_not_array data Hshape). reflexivity.
    + apply get_spread_with.
Qed.

(** The theorem applied to a response that carries a string where the
    contact list should be, and to one that carries no contacts at all. *)
Lemma contacts_default_to_empty_array_witness :
  let data := JObj [("code", JS.num 0); ("contacts", JStr "none")] in
  let w := Demo.world [] (Demo.succeed_with data) in
  JS.isArray (JS.opt_get data "contacts") = false
  /\ (exists result,
        getCustomers "u1" "org1" None w
        = (Ok result, snd (getCustomers "u1" "org1" None w))
        /\ JS.get result "contacts" = JArr [])
  /\ (exists result,
        getVendors "u1" "org1" None w
        = (Ok result, snd (getVendors "u1" "org1" None w))
        /\ JS.get result "contacts" = JArr []).
Proof.
  intros data w.
  split; [reflexivity|]. split.
  - apply (contacts_default_to_empty_array "u1" "org1" None w
             (snd (getCustomers "u1" "org1" None w)) data eq_refl).
    vm_compute. reflexivity.
  - apply (contacts_default_to_empty_array "u1" "org1" None w
             (snd (getVendors "u1" "org1" None w)) data eq_refl).
    vm_compute. reflexivity.
Defined.

(** ** Contacts: the discriminator of created contacts *)

Lemma createVendor_body (u o : string) (vendorData : value) (w : World) :
  outbound_bodies (new_events w (snd (createVendor u o vendorData w)))
  = [JS.spread_with vendorData "contact_type" (JStr "vendor")].
Proof.
  unfold createVendor. rewrite zohoBooksApiCall_events. reflexivity.
Qed.

Lemma createCustomer_body (u o : string) (customerData : value) (w : World) :
  outbound_bodies (new_events w (snd (createCustomer u o customerData w))) = [customerData].
Proof.
  unfold createCustomer. rewrite zohoBooksApiCall_events. reflexivity.
Qed.

(** C3. createVendor stamps [contact_type: 'vendor'] on the one body it
    sends, whatever the caller's payload; createCustomer sends the
    caller's payload as it is, so that the payload
    [{contact_name: 'Acme'}], which omits the discriminator, goes out
    without any [contact_type]. *)
Theorem createCustomer_sends_no_contact_type (u o : string) (w : World) :
  (forall vendorData,
     map (fun body => JS.get body "contact_type")
         (outbound_bodies (new_events w (snd (createVendor u o vendorData w))))
     = [JStr "vendor"])
  /\ (forall customerData,
        outbound_bodies (new_events w (snd (createCustomer u o customerData w)))
        = [customerData])
  /\ map (fun body => JS.has body "contact_type")
         (outbound_bodies
            (new_events w (snd (createCustomer u o (JObj [("contact_name", JStr "Acme")]) w))))
     = [false].
Proof.
  split; [| split].
  - intros vendorData. rewrite createVendor_body. cbn [map].
    rewrite get_spread_with. reflexivity.
  - intros customerData. apply createCustomer_body.
  - rewrite createCustomer_body. reflexivity.
Qed.

(** ** Expenses: the amount of a normalized expense *)

Lemma parsed_or_zero_not_NaN (v r : value) :
  parsed_or_zero v = Ok r -> exists x, r = JNum x /\ Num.isNaN x = false.
Proof.
  unfold parsed_or_zero, to_string.
  destruct (JS.ToString v) as [s |]; [| discriminate]. simpl.
  intros [= <-].
  destruct (Num.isNaN (Num.parseFloat s)) eqn:E.
  - exists (Num.Dec 0 0). split; reflexivity.
  - exists (Num.parseFloat s). split; [reflexivity | exact E].
Qed.

Lemma positive_number_inv (v : value) :
  positive_number v = true -> exists x, v = JNum x /\ Num.gt0 x = true.
Proof.
  destruct v; simpl; try discriminate. intros H. eauto.
Qed.

Lemma gt0_not_NaN (x : Num.number) : Num.gt0 x = true -> Num.isNaN x = false.
Proof. destruct x; simpl; [discriminate | reflexivity | reflexivity]. Qed.

Lemma gt0_not_negative (x : Num.number) : Num.gt0 x = true -> Num.lt0 x = false.
Proof.
  destruct x as [| [|] | m e]; simpl; try discriminate; try reflexivity.
  intros H. apply Z.ltb_lt in H. apply Z.ltb_ge. lia.
Qed.

(** The amount, when the conversions yield one, is a number other than
    NaN. *)
Lemma expense_amount_number (expense r : value) :
  expense_amount expense = Ok r -> exists x, r = JNum x /\ Num.isNaN x = false.
Proof.
  unfold expense_amount.
  destruct (positive_number (JS.get expense "amount")) eqn:Ea.
  { apply positive_number_inv in Ea as [x [-> Hx]]. intros [= <-]. eauto using gt0_not_NaN. }
  destruct (positive_number (JS.get expense "total")) eqn:Et.
  { apply positive_number_inv in Et as [x [-> Hx]]. intros [= <-]. eauto using gt0_not_NaN. }
  destruct (JS.truthy (JS.get expense "amount")); [apply parsed_or_zero_not_NaN|].
  destruct (JS.truthy (JS.get expense "total")); [apply parsed_or_zero_not_NaN|].
  intros [= <-]. exists (Num.Dec 0 0). split; reflexivity.
Qed.

(** C2. The amount derived for the raw record [{amount: -5}] is -5, and
    for [{total: '-12.50'}] it is -12.5: a negative number that the
    positivity tests of the two numeric branches turn away is read back,
    sign included, by the string-parsing branches, and getExpenses
    returns it in the normalized record.  (The amount is never NaN: see
    [expense_amount_number].) *)
Theorem expense_amount_can_be_negative :
  expense_amount (JObj [("amount", JS.num (-5))]) = Ok (JNum (Num.Dec (-5) 0))
  /\ Num.lt0 (Num.Dec (-5) 0) = true
  /\ expense_amount (JObj [("total", JStr "-12.50")]) = Ok (JNum (Num.Dec (-125) (-1)))
  /\ Num.lt0 (Num.Dec (-125) (-1)) = true
  /\ (exists r,
        fst (getExpenses "u1" "org1" None
               (Demo.world [] (Demo.succeed_with
                                 (JObj [("expenses", JArr [JObj [("amount", JS.num (-5))]])]))))
        = Ok (JObj [("expenses", JArr [r])])
        /\ JS.get r "amount" = JNum (Num.Dec (-5) 0)).
Proof.
  split; [vm_compute; reflexivity|].
  split; [reflexivity|].
  split; [vm_compute; reflexivity|].
  split; [reflexivity|].
  eexists. split; vm_compute; reflexivity.
Qed.

(** ** Dispatcher: the message of the error raised for a failed call *)

Lemma status_is_default (status : value) (n : Z) :
  n = 403 \/ n = 404 \/ n = 400 \/ n = 401 ->
  status_is (JS.or status (JS.num 500)) n = status_is status n.
Proof.
  intros Hn. unfold JS.or. destruct (JS.truthy status) eqn:T; [reflexivity|].
  transitivity false.
  - destruct Hn as [-> | [-> | [-> | ->]]]; vm_compute; reflexivity.
  - symmetry. destruct status as [| | b | x | s | l | f]; try reflexivity.
    destruct x as [| neg | m e]; simpl in T; try discriminate; try reflexivity.
    apply negb_false_iff in T. apply Z.eqb_eq in T. subst m.
    destruct Hn as [-> | [-> | [-> | ->]]]; reflexivity.
Qed.

Lemma parsed_message_mapped :
  parsed_message (JStr msg_403) = JStr msg_403
  /\ parsed_message (JStr msg_404) = JStr msg_404
  /\ parsed_message (JStr msg_400) = JStr msg_400
  /\ parsed_message (JStr msg_401) = JStr msg_401.
Proof. repeat split; vm_compute; reflexivity. Qed.

Lemma eqb_norm (x y : Num.number) : Num.eqb x y = true -> Num.norm x = Num.norm y.
Proof.
  unfold Num.eqb.
  destruct (Num.norm x) as [| a | m e], (Num.norm y) as [| a' | m' e']; try discriminate.
  - intros H. apply Bool.eqb_prop in H. congruence.
  - intros H. apply andb_true_iff in H as [H1 H2].
    apply Z.eqb_eq in H1. apply Z.eqb_eq in H2. congruence.
Qed.

Lemma status_is_exclusive (status : value) (n n' : Z) :
  status_is status n = true ->
  Num.eqb (Num.of_Z n) (Num.of_Z n') = false ->
  status_is status n' = false.
Proof.
  destruct status as [| | b | x | s | l | f]; try discriminate.
  simpl. intros H Hne. apply eqb_norm in H.
  unfold Num.eqb in *. rewrite H. exact Hne.
Qed.

Lemma envelope_error_mapped (data : value) :
  (status_is (JS.opt_get data "status") 403 = true -> envelope_error data = Error msg_403)
  /\ (status_is (JS.opt_get data "status") 404 = true -> envelope_error data = Error msg_404)
  /\ (status_is (JS.opt_get data "status") 401 = true -> envelope_error data = Error msg_401).
Proof.
  destruct parsed_message_mapped as (P3 & P4 & P0 & P1).
  unfold envelope_error.
  rewrite !status_is_default by tauto.
  repeat split; intros H.
  - rewrite H, P3. reflexivity.
  - rewrite (status_is_exclusive _ 404 403 H eq_refl), H, P4. reflexivity.
  - rewrite (status_is_exclusive _ 401 403 H eq_refl),
      (status_is_exclusive _ 401 404 H eq_refl),
      (status_is_exclusive _ 401 400 H eq_refl), H, P1.
    reflexivity.
Qed.

Lemma envelope_error_unmapped (data : value) (raw : string) :
  status_is (JS.opt_get data "status") 403 = false ->
  status_is (JS.opt_get data "status") 404 = false ->
  status_is (JS.opt_get data "status") 400 = false ->
  status_is (JS.opt_get data "status") 401 = false ->
  JS.opt_get data "error" = JStr raw -> raw <> EmptyString ->
  envelope_error data = new_Error (parsed_message (JStr raw)).
Proof.
  intros H3 H4 H0 H1 He Hraw. unfold envelope_error.
  rewrite !status_is_default by tauto. rewrite H3, H4, H0, H1, He.
  unfold JS.or. simpl. destruct raw; [congruence | reflexivity].
Qed.

(** Stripping trailing zeros keeps the value of a decimal. *)
Lemma strip_value (fuel : nat) (m e : Z) :
  0 <= e ->
  0 <= snd (Num.strip fuel m e)
  /\ fst (Num.strip fuel m e) * 10 ^ snd (Num.strip fuel m e) = m * 10 ^ e.
Proof.
  revert m e. induction fuel as [| f IH]; intros m e He; simpl.
  - split; [exact He | reflexivity].
  - destruct (m mod 10 =? 0) eqn:E.
    + apply Z.eqb_eq in E.
      destruct (IH (m / 10) (e + 1) ltac:(lia)) as [Hle Hval].
      split; [exact Hle|]. rewrite Hval.
      rewrite Z.pow_add_r by lia. change (10 ^ 1) with 10.
      pose proof (Z.div_mod m 10 ltac:(lia)) as Hm. rewrite E in Hm.
      rewrite Hm at 2. ring.
    + split; [exact He | reflexivity].
Qed.

Lemma norm_value (m e : Z) :
  0 <= e ->
  exists m' e', Num.norm (Num.Dec m e) = Num.Dec m' e'
                /\ 0 <= e' /\ m' * 10 ^ e' = m * 10 ^ e.
Proof.
  intros He. unfold Num.norm. destruct (m =? 0) eqn:E.
  - apply Z.eqb_eq in E. subst. exists 0, 0. repeat split; lia.
  - destruct (strip_value (Z.to_nat (Z.log2 (Z.abs m)) + 1) m e He) as [Hle Hval].
    destruct (Num.strip (Z.to_nat (Z.log2 (Z.abs m)) + 1) m e) as [m' e'].
    exists m', e'. simpl in *. auto.
Qed.

(** Two integers are equal as numbers only when they are the same. *)
Lemma of_Z_eqb (n k : Z) : Num.eqb (Num.of_Z n) (Num.of_Z k) = true -> n = k.
Proof.
  unfold Num.eqb, Num.of_Z.
  destruct (norm_value n 0 (Z.le_refl 0)) as (m1 & e1 & -> & He1 & V1).
  destruct (norm_value k 0 (Z.le_refl 0)) as (m2 & e2 & -> & He2 & V2).
  destruct (norm_value m1 e1 He1) as (a & ea & -> & _ & Va).
  destruct (norm_value m2 e2 He2) as (c & ec & -> & _ & Vc).
  intros H. apply andb_true_iff in H as [Hm He].
  apply Z.eqb_eq in Hm. apply Z.eqb_eq in He. subst. lia.
Qed.

(** The status of an envelope: the integer [n], or none at all. *)
Lemma status_is_integer (status : option Z) (k : Z) :
  k = 403 \/ k = 404 \/ k = 400 \/ k = 401 ->
  status <> Some k ->
  status_is (match status with Some n => JS.num n | None => JUndefined end) k = false.
Proof.
  intros Hk Hne. destruct status as [n |]; [| reflexivity].
  unfold JS.num. cbn [status_is].
  destruct (Num.eqb (Num.of_Z n) (Num.of_Z k)) eqn:E; [| reflexivity].
  apply of_Z_eqb in E. congruence.
Qed.

(** C6 (amended). For an envelope whose [success] is falsy and whose
    status is the integer 403, 404 or 401, the dispatcher raises an error
    whose message contains 'active transactions', 'already been deleted'
    and 'reconnect' respectively.  For a status the dispatcher does not
    map (an integer other than 400, 401, 403, 404, or none at all) and a
    non-empty error string [raw] of the envelope, it raises an error
    whose message is [raw] itself when [raw] does not parse as JSON, or
    parses to something without a truthy message; when [raw] parses as
    JSON and carries a truthy message, the message raised is the embedded
    one, converted to a string when it is not one; an embedded message
    that does not convert makes the conversion's TypeError the error
    raised. *)
Theorem dispatcher_error_mapping
        (u o ep : string) (m : Method) (b : value) (w : World) (data functionError : value)
        (status : option Z) :
  answer w (api_request u o ep m b) = (data, functionError) ->
  JS.truthy functionError = false ->
  JS.truthy (JS.opt_get data "success") = false ->
  JS.opt_get data "status" = match status with Some n => JS.num n | None => JUndefined end ->
  (status = Some 403 ->
   exists message, fst (zohoBooksApiCall u o ep m b w) = Err (Error message)
                   /\ Str.includes message "active transactions" = true)
  /\ (status = Some 404 ->
      exists message, fst (zohoBooksApiCall u o ep m b w) = Err (Error message)
                      /\ Str.includes message "already been deleted" = true)
  /\ (status = Some 401 ->
      exists message, fst (zohoBooksApiCall u o ep m b w) = Err (Error message)
                      /\ Str.includes message "reconnect" = true)
  /\ (status <> Some 403 -> status <> Some 404 -> status <> Some 400 -> status <> Some 401 ->
      forall raw,
        JS.opt_get data "error" = JStr raw -> raw <> EmptyString ->
        fst (zohoBooksApiCall u o ep m b w)
        = Err (match JS.JSON_parse raw with
               | None => Error raw
               | Some parsed =>
                   if JS.nullish parsed then Error raw
                   else if JS.truthy (JS.get parsed "message")
                        then match JS.ToString (JS.get parsed "message") with
                             | Some embedded => Error embedded
                             | None => cannot_convert
                             end
                        else Error raw
               end)).
Proof.
  intros Hans Herr Hfail Hstatus.
  rewrite zohoBooksApiCall_run, Hans. unfold dispatch_result; simpl fst; simpl snd.
  rewrite Herr, Hfail. simpl negb. cbv iota.
  destruct (envelope_error_mapped data) as (M3 & M4 & M1).
  split; [| split; [| split; [| ]]].
  - intros ->. exists msg_403. rewrite M3 by (rewrite Hstatus; reflexivity).
    split; [reflexivity | vm_compute; reflexivity].
  - intros ->. exists msg_404. rewrite M4 by (rewrite Hstatus; reflexivity).
    split; [reflexivity | vm_compute; reflexivity].
  - intros ->. exists msg_401. rewrite M1 by (rewrite Hstatus; reflexivity).
    split; [reflexivity | vm_compute; reflexivity].
  - intros N3 N4 N0 N1 raw He Hraw.
    rewrite (envelope_error_unmapped data raw) by
        (try assumption; rewrite Hstatus; apply status_is_integer; tauto).
    f_equal. unfold parsed_message.
    change (JS.ToString (JStr raw)) with (Some raw). cbv iota beta.
    destruct (JS.JSON_parse raw) as [parsed |].
    + unfold prop. destruct (JS.nullish parsed).
      * reflexivity.
      * destruct (JS.truthy (JS.get parsed "message")); reflexivity.
    + reflexivity.
Qed.

(** The theorem applied to calls answered with status 403, 404 and 401,
    and to a call answered with status 429 and a serialized structured
    error. *)
Lemma dispatcher_error_mapping_witness :
  (exists message,
      fst (zohoBooksApiCall "u1" "org1" "/invoices/7" DELETE JUndefined
                            (Demo.world [] (Demo.fail_with "Forbidden" 403)))
      = Err (Error message)
      /\ Str.includes message "active transactions" = true)
  /\ (exists message,
         fst (zohoBooksApiCall "u1" "org1" "/invoices/7" DELETE JUndefined
                               (Demo.world [] (Demo.fail_with "Not Found" 404)))
         = Err (Error message)
         /\ Str.includes message "already been deleted" = true)
  /\ (exists message,
         fst (zohoBooksApiCall "u1" "org1" "/invoices/7" DELETE JUndefined
                               (Demo.world [] (Demo.fail_with "Unauthorized" 401)))
         = Err (Error message)
         /\ Str.includes message "reconnect" = true)
  /\ fst (zohoBooksApiCall "u1" "org1" "/invoices" GET JUndefined
            (Demo.world [] (Demo.fail_with
                              (Str.dq "{'code':45,'message':'Rate limit exceeded'}") 429)))
     = Err (Error "Rate limit exceeded").
Proof.
  split; [| split; [| split]].
  - exact (proj1 (dispatcher_error_mapping "u1" "org1" "/invoices/7" DELETE JUndefined
                    (Demo.world [] (Demo.fail_with "Forbidden" 403))
                    (JObj [("success", JBool false); ("error", JStr "Forbidden");
                           ("status", JS.num 403)])
                    JNull (Some 403) eq_refl eq_refl eq_refl eq_refl) eq_refl).
  - exact (proj1 (proj2 (dispatcher_error_mapping "u1" "org1" "/invoices/7" DELETE JUndefined
                    (Demo.world [] (Demo.fail_with "Not Found" 404))
                    (JObj [("success", JBool false); ("error", JStr "Not Found");
                           ("status", JS.num 404)])
                    JNull (Some 404) eq_refl eq_refl eq_refl eq_refl)) eq_refl).
  - exact (proj1 (proj2 (proj2 (dispatcher_error_mapping "u1" "org1" "/invoices/7" DELETE
                    JUndefined
                    (Demo.world [] (Demo.fail_with "Unauthorized" 401))
                    (JObj [("success", JBool false); ("error", JStr "Unauthorized");
                           ("status", JS.num 401)])
                    JNull (Some 401) eq_refl eq_refl eq_refl eq_refl))) eq_refl).
  - pose proof (proj2 (proj2 (proj2 (dispatcher_error_mapping "u1" "org1" "/invoices" GET
                    JUndefined
                    (Demo.world [] (Demo.fail_with
                       (Str.dq "{'code':45,'message':'Rate limit exceeded'}") 429))
                    (JObj [("success", JBool false);
                           ("error",
                            JStr (Str.dq "{'code':45,'message':'Rate limit exceeded'}"));
                           ("status", JS.num 429)])
                    JNull (Some 429) eq_refl eq_refl eq_refl eq_refl)))) as H.
    assert (Hne : Str.dq "{'code':45,'message':'Rate limit exceeded'}" <> EmptyString)
      by (vm_compute; discriminate).
    specialize (H ltac:(discriminate) ltac:(discriminate) ltac:(discriminate)
                  ltac:(discriminate) _ eq_refl Hne).
    rewrite H. vm_compute. reflexivity.
Defined.

(** C6, as stated, fails on two raw error strings that come with an
    unmapped status (500) and parse as JSON with an embedded message
    field.  When the embedded message is an object that does not convert
    to a string, the dispatcher raises the TypeError of the conversion,
    not an error that carries the message.  When the embedded message is
    the empty string, the error raised carries the raw string, not the
    embedded message. *)
Lemma dispatcher_embedded_message_exceptions :
  let unconvertible := Str.dq "{'message':{'toString':1}}" in
  let empty := Str.dq "{'message':''}" in
  JS.JSON_parse unconvertible = Some (JObj [("message", JObj [("toString", JS.num 1)])])
  /\ fst (zohoBooksApiCall "u1" "org1" "/invoices" GET JUndefined
             (Demo.world [] (Demo.fail_with unconvertible 500)))
     = Err (TypeError "Cannot convert object to primitive value")
  /\ JS.JSON_parse empty = Some (JObj [("message", JStr EmptyString)])
  /\ fst (zohoBooksApiCall "u1" "org1" "/invoices" GET JUndefined
             (Demo.world [] (Demo.fail_with empty 500)))
     = Err (Error empty).
Proof.
  repeat split; vm_compute; reflexivity.
Qed.

(** ** Token freshness *)

Lemma refreshZohoBooksToken_run (u : string) (w : World) :
  fst (refreshZohoBooksToken u w)
  = refresh_result (fst (refresh_answer w u)) (snd (refresh_answer w u))
  /\ log (snd (refreshZohoBooksToken u w))
     = (log w ++ [Invoke "zoho-token-refresh" (refresh_request u)
                         (fst (refresh_answer w u)) (snd (refresh_answer w u))])%list.
Proof.
  unfold refreshZohoBooksToken. rewrite try_catch_rethrow.
  unfold bind, functions_invoke, refresh_result, refresh_answer.
  fold (refresh_request u).
  destruct (edge w (log w) (rows w) "zoho-token-refresh" (refresh_request u))
    as [[data error] rs]; simpl.
  destruct (JS.truthy error); [split; reflexivity|].
  destruct (negb (JS.truthy (JS.opt_get data "success"))
            || negb (JS.truthy (JS.opt_get data "accessToken")));
    split; reflexivity.
Qed.

Lemma getValidAccessToken_run (u : string) (w : World) (r : Integration) (token : string) :
  JS.truthy (store_error w (log w)) = false ->
  filter (of_user u) (rows w) = [r] ->
  access_token r = Some token -> token <> EmptyString ->
  getValidAccessToken u w =
  if Date.lt (expiry w r) (call_time w u)
  then refreshZohoBooksToken u (after_reads w u)
  else (Ok (JStr token), after_reads w u).
Proof.
  intros Hstore Hrow Htok Hne.
  unfold getValidAccessToken, bind, select_single. rewrite Hstore, Hrow, Htok.
  simpl column. simpl JS.truthy.
  destruct token as [| c token']; [congruence|]. simpl.
  unfold get_date_parse, now. simpl.
  fold (call_time w u). fold (expiry w r).
  change (record (record w (Select u)) (Now (call_time w u))) with (after_reads w u).
  destruct (Date.lt (expiry w r) (call_time w u)); reflexivity.
Qed.

Lemma after_reads_log (w : World) (u : string) :
  log (after_reads w u) = (log w ++ [Select u; Now (call_time w u)])%list.
Proof.
  unfold after_reads, record, with_store; simpl. rewrite <- app_assoc. reflexivity.
Qed.

Lemma refresh_calls_app (a b : list event) :
  refresh_calls (a ++ b) = (refresh_calls a + refresh_calls b)%nat.
Proof.
  induction a as [| ev a IH]; simpl; [reflexivity|].
  destruct ev; auto. destruct (String.eqb fn "zoho-token-refresh"); simpl; auto.
Qed.

(** C1 (amended). For every Integration Record that the store returns
    for the user and that holds a non-empty access_token: when its
    token_expires_at is strictly in the past at call time,
    getValidAccessToken invokes the refresh procedure exactly once and
    returns what the refresh yields (the token of the answer, or its
    rejection), not the stored token; when its token_expires_at is in the
    future, it returns the stored access_token and invokes no refresh. *)
Theorem getValidAccessToken_freshness
        (u : string) (w : World) (r : Integration) (token : string) (x : Z) :
  JS.truthy (store_error w (log w)) = false ->
  filter (of_user u) (rows w) = [r] ->
  access_token r = Some token -> token <> EmptyString ->
  expiry w r = Some x ->
  (x < call_time w u ->
     fst (getValidAccessToken u w)
     = refresh_result (fst (refresh_answer (after_reads w u) u))
                      (snd (refresh_answer (after_reads w u) u))
     /\ refresh_calls (new_events w (snd (getValidAccessToken u w))) = 1%nat)
  /\ (call_time w u < x ->
      fst (getValidAccessToken u w) = Ok (JStr token)
      /\ refresh_calls (new_events w (snd (getValidAccessToken u w))) = 0%nat).
Proof.
  intros Hstore Hrow Htok Hne Hx.
  rewrite (getValidAccessToken_run u w r token Hstore Hrow Htok Hne), Hx.
  unfold Date.lt. split; intros Hcmp.
  - apply Z.ltb_lt in Hcmp. rewrite Hcmp.
    destruct (refreshZohoBooksToken_run u (after_reads w u)) as [Hres Hlog].
    split; [exact Hres|].
    rewrite (new_events_app w _ ([Select u; Now (call_time w u)]
               ++ [Invoke "zoho-token-refresh" (refresh_request u)
                          (fst (refresh_answer (after_reads w u) u))
                          (snd (refresh_answer (after_reads w u) u))])).
    + reflexivity.
    + rewrite Hlog, after_reads_log, <- app_assoc. reflexivity.
  - assert (Hge : (x <? call_time w u) = false) by (apply Z.ltb_ge; lia).
    rewrite Hge. simpl. split; [reflexivity|].
    rewrite (new_events_app w _ [Select u; Now (call_time w u)]); [reflexivity|].
    apply after_reads_log.
Qed.

(** The theorem applied to a connected record that expired in 2020 and
    to one that expires in 2030, the clock standing in 2024. *)
Lemma getValidAccessToken_freshness_witness :
  let stale := Demo.world [Demo.connected Demo.expired_stamp] (Demo.succeed_with JNull) in
  let fresh := Demo.world [Demo.connected Demo.future_stamp] (Demo.succeed_with JNull) in
  (fst (getValidAccessToken "u1" stale) = Ok (JStr "fresh-token")
   /\ refresh_calls (new_events stale (snd (getValidAccessToken "u1" stale))) = 1%nat)
  /\ (fst (getValidAccessToken "u1" fresh) = Ok (JStr "stored-token")
      /\ refresh_calls (new_events fresh (snd (getValidAccessToken "u1" fresh))) = 0%nat).
Proof.
  intros stale fresh. split.
  - assert (Hne : "stored-token" <> EmptyString) by discriminate.
    assert (Hpast : 1577836800000 < call_time stale "u1") by (vm_compute; reflexivity).
    exact (proj1 (getValidAccessToken_freshness "u1" stale (Demo.connected Demo.expired_stamp)
                    "stored-token" 1577836800000 eq_refl eq_refl eq_refl Hne eq_refl) Hpast).
  - assert (Hne : "stored-token" <> EmptyString) by discriminate.
    assert (Hfut : call_time fresh "u1" < 1893456000000) by (vm_compute; reflexivity).
    exact (proj2 (getValidAccessToken_freshness "u1" fresh (Demo.connected Demo.future_stamp)
                    "stored-token" 1893456000000 eq_refl eq_refl eq_refl Hne eq_refl) Hfut).
Defined.

(** C1, as stated, fails on a record whose tokens disconnect has cleared:
    its token_expires_at is strictly in the past (respectively in the
    future), yet getValidAccessToken rejects the call without invoking the
    refresh procedure (respectively without returning a stored token). *)
Lemma getValidAccessToken_without_token :
  let stale := Demo.world [Demo.disconnected Demo.expired_stamp] (Demo.succeed_with JNull) in
  let fresh := Demo.world [Demo.disconnected Demo.future_stamp] (Demo.succeed_with JNull) in
  (filter (of_user "u1") (rows stale) = [Demo.disconnected Demo.expired_stamp]
   /\ expiry stale (Demo.disconnected Demo.expired_stamp) = Some 1577836800000
   /\ 1577836800000 < call_time stale "u1"
   /\ fst (getValidAccessToken "u1" stale) = Err (Error "No Zoho Books integration found")
   /\ refresh_calls (log (snd (getValidAccessToken "u1" stale))) = 0%nat)
  /\ (filter (of_user "u1") (rows fresh) = [Demo.disconnected Demo.future_stamp]
      /\ expiry fresh (Demo.disconnected Demo.future_stamp) = Some 1893456000000
      /\ call_time fresh "u1" < 1893456000000
      /\ fst (getValidAccessToken "u1" fresh) = Err (Error "No Zoho Books integration found")).
Proof.
  repeat split; vm_compute; reflexivity.
Qed.

(** ** Disconnect *)

(** The patch [disconnectZohoBooks] writes when the clock reads [t]. *)
Lemma disconnectZohoBooks_run (u : string) (w : World) :
  let t := clock w (log w) in
  let patch := {| set_is_connected := false; set_access_token := None;
                  set_refresh_token := None;
                  set_disconnected_at := Some (Date.toISOString t) |} in
  JS.truthy (store_error w (log w ++ [Now t])%list) = false ->
  disconnectZohoBooks u w =
  (Ok success,
   with_store (record w (Now t))
              (map (fun r => if of_user u r then apply_patch patch r else r) (rows w))
              (Update u patch)).
Proof.
  intros t patch Hstore.
  unfold disconnectZohoBooks, bind, now, update_eq. simpl.
  fold t. rewrite Hstore. reflexivity.
Qed.

Lemma of_user_apply_patch (u : string) (p : Patch) (r : Integration) :
  of_user u (apply_patch p r) = of_user u r.
Proof. reflexivity. Qed.

Lemma filter_patched (u : string) (p : Patch) (rs : list Integration) :
  filter (of_user u) (map (fun r => if of_user u r then apply_patch p r else r) rs)
  = map (apply_patch p) (filter (of_user u) rs).
Proof.
  induction rs as [| r rs IH]; simpl; [reflexivity|].
  destruct (of_user u r) eqn:E.
  - rewrite of_user_apply_patch, E. simpl. rewrite IH. reflexivity.
  - rewrite E. exact IH.
Qed.

Lemma filter_others_patched (u : string) (p : Patch) (rs : list Integration) :
  filter (fun r => negb (of_user u r))
         (map (fun r => if of_user u r then apply_patch p r else r) rs)
  = filter (fun r => negb (of_user u r)) rs.
Proof.
  induction rs as [| r rs IH]; simpl; [reflexivity|].
  destruct (of_user u r) eqn:E.
  - rewrite of_user_apply_patch, E. simpl. exact IH.
  - rewrite E. simpl. rewrite IH. reflexivity.
Qed.

Lemma map_length_patched (u : string) (p : Patch) (rs : list Integration) :
  List.length (map (fun r => if of_user u r then apply_patch p r else r) rs) = List.length rs.
Proof. apply length_map. Qed.

(** One call of disconnect on a user that has exactly one record, the
    store being reachable. *)
Lemma disconnect_once (u : string) (w : World) (r : Integration) :
  (forall evs, JS.truthy (store_error w evs) = false) ->
  records_of u w = [r] ->
  exists r' t,
    fst (disconnectZohoBooks u w) = Ok success
    /\ clock_reads (new_events w (snd (disconnectZohoBooks u w))) = [t]
    /\ (exists patch, writes (new_events w (snd (disconnectZohoBooks u w))) = [(u, patch)]
                      /\ r' = apply_patch patch r)
    /\ records_of u (snd (disconnectZohoBooks u w)) = [r']
    /\ is_disconnected t r'
    /\ records_of_others u (snd (disconnectZohoBooks u w)) = records_of_others u w
    /\ List.length (rows (snd (disconnectZohoBooks u w))) = List.length (rows w)
    /\ store_error (snd (disconnectZohoBooks u w)) = store_error w.
Proof.
  intros Hstore Hrow.
  rewrite (disconnectZohoBooks_run u w (Hstore _)).
  set (patch := {| set_is_connected := false; set_access_token := None;
                   set_refresh_token := None;
                   set_disconnected_at := Some (Date.toISOString (clock w (log w))) |}).
  exists (apply_patch patch r), (clock w (log w)). simpl fst. simpl snd.
  assert (Hev : new_events w (with_store (record w (Now (clock w (log w))))
                                (map (fun r0 => if of_user u r0 then apply_patch patch r0 else r0)
                                     (rows w))
                                (Update u patch))
                = [Now (clock w (log w)); Update u patch]).
  { apply new_events_app. unfold with_store, record; simpl.
    rewrite <- app_assoc. reflexivity. }
  split; [reflexivity|]. split; [rewrite Hev; reflexivity|]. split.
  { exists patch. split; [rewrite Hev; reflexivity | reflexivity]. }
  split.
  { unfold records_of in *. simpl rows. rewrite filter_patched, Hrow. reflexivity. }
  split.
  { unfold is_disconnected; simpl. repeat split. }
  split.
  { unfold records_of_others. simpl rows. apply filter_others_patched. }
  split; [simpl rows; apply map_length_patched | reflexivity].
Qed.

(** C8. On a user that has one integration record, the store being
    reachable, disconnect succeeds and issues a single write, addressed
    to that user, which touches that one record and no other: the record
    comes out with access_token and refresh_token cleared,
    is_connected=false and disconnected_at stamped with the time of the
    call.  Called again on the account so disconnected, it succeeds
    again, in the same way, and the record is still disconnected with
    is_connected=false. *)
Theorem disconnect_idempotent (u : string) (w : World) (r : Integration) :
  (forall evs, JS.truthy (store_error w evs) = false) ->
  records_of u w = [r] ->
  let w1 := snd (disconnectZohoBooks u w) in
  let w2 := snd (disconnectZohoBooks u w1) in
  exists r1 t1 r2 t2,
    (* first call *)
    fst (disconnectZohoBooks u w) = Ok success
    /\ clock_reads (new_events w w1) = [t1]
    /\ (exists patch, writes (new_events w w1) = [(u, patch)] /\ r1 = apply_patch patch r)
    /\ records_of u w1 = [r1] /\ is_disconnected t1 r1
    /\ records_of_others u w1 = records_of_others u w
    /\ List.length (rows w1) = List.length (rows w)
    (* second call *)
    /\ fst (disconnectZohoBooks u w1) = Ok success
    /\ clock_reads (new_events w1 w2) = [t2]
    /\ (exists patch, writes (new_events w1 w2) = [(u, patch)] /\ r2 = apply_patch patch r1)
    /\ records_of u w2 = [r2] /\ is_disconnected t2 r2
    /\ records_of_others u w2 = records_of_others u w
    /\ List.length (rows w2) = List.length (rows w)
    (* same connection state after one call and after two *)
    /\ is_connected r2 = is_connected r1
    /\ access_token r2 = access_token r1
    /\ refresh_token r2 = refresh_token r1.
Proof.
  intros Hstore Hrow w1 w2.
  destruct (disconnect_once u w r Hstore Hrow)
    as (r1 & t1 & Hok1 & Ht1 & Hw1 & Hr1 & Hd1 & Ho1 & Hl1 & Hs1).
  fold w1 in Ht1, Hw1, Hr1, Ho1, Hl1, Hs1.
  assert (Hstore1 : forall evs, JS.truthy (store_error w1 evs) = false).
  { intros evs. rewrite Hs1. apply Hstore. }
  destruct (disconnect_once u w1 r1 Hstore1 Hr1)
    as (r2 & t2 & Hok2 & Ht2 & Hw2 & Hr2 & Hd2 & Ho2 & Hl2 & _).
  fold w2 in Ht2, Hw2, Hr2, Ho2, Hl2.
  exists r1, t1, r2, t2.
  pose proof Hd1 as (A1 & B1 & C1 & D1). pose proof Hd2 as (A2 & B2 & C2 & D2).
  repeat split; try assumption; try congruence.
Qed.

(** The theorem applied to a connected account next to another user's
    record: both calls succeed, the account's record ends up cleared and
    the other user's record is as it was. *)
Lemma disconnect_idempotent_witness :
  let other := {| user_id := "u2"; organization_id := None; access_token := Some "t2";
                  refresh_token := Some "r2"; token_expires_at := None;
                  is_connected := true; connected_at := None; disconnected_at := None |} in
  let w := Demo.world [other; Demo.connected Demo.future_stamp] (Demo.succeed_with JNull) in
  let w1 := snd (disconnectZohoBooks "u1" w) in
  let w2 := snd (disconnectZohoBooks "u1" w1) in
  fst (disconnectZohoBooks "u1" w) = Ok success
  /\ fst (disconnectZohoBooks "u1" w1) = Ok success
  /\ map is_connected (rows w1) = [true; false]
  /\ map is_connected (rows w2) = [true; false]
  /\ records_of_others "u1" w2 = [other].
Proof.
  intros other w w1 w2.
  assert (Hstore : forall evs, JS.truthy (store_error w evs) = false) by reflexivity.
  destruct (disconnect_idempotent "u1" w (Demo.connected Demo.future_stamp) Hstore eq_refl)
    as (r1 & t1 & r2 & t2 & Hok1 & _ & _ & _ & _ & _ & _ & Hok2 & _ & _ & _ & _ & Ho2 & _).
  split; [exact Hok1|]. split; [exact Hok2|].
  split; [vm_compute; reflexivity|]. split; [vm_compute; reflexivity|].
  exact Ho2.
Defined.

(** ** Creating an expense *)

Lemma filterM_is_expense_account (chart : list value) :
  Forall (fun acc => JS.nullish acc = false) chart ->
  filterM is_expense_account chart = Ok (expense_accounts_of chart).
Proof.
  induction 1 as [| acc chart Hacc _ IH]; [reflexivity|].
  cbn [filterM]. rewrite IH.
  unfold expense_accounts_of. cbn [filter].
  unfold is_expense_account, prop, account_type_is_expense. rewrite Hacc.
  destruct (JS.get acc "account_type") as [| | b | x | t | l | f]; reflexivity.
Qed.

Lemma getExpenseAccounts_run (u o : string) (w w1 : World) (data : value) (chart : list value) :
  zohoBooksApiCall u o "/chartofaccounts" GET JUndefined w = (Ok data, w1) ->
  JS.opt_get data "chartofaccounts" = JArr chart ->
  Forall (fun acc => JS.nullish acc = false) chart ->
  getExpenseAccounts u o w = (Ok (map account_summary (expense_accounts_of chart)), w1).
Proof.
  intros Hcall Hchart Hobj. unfold getExpenseAccounts. rewrite try_catch_rethrow.
  unfold bind. rewrite Hcall, Hchart. unfold lift.
  rewrite (filterM_is_expense_account chart Hobj). reflexivity.
Qed.

Lemma getExpenseAccounts_no_chart (u o : string) (w w1 : World) (data : value) :
  zohoBooksApiCall u o "/chartofaccounts" GET JUndefined w = (Ok data, w1) ->
  JS.isArray (JS.opt_get data "chartofaccounts") = false ->
  getExpenseAccounts u o w = (Ok [], w1).
Proof.
  intros Hcall Hchart. unfold getExpenseAccounts. rewrite try_catch_rethrow.
  unfold bind. rewrite Hcall.
  destruct (JS.opt_get data "chartofaccounts"); try reflexivity. discriminate.
Qed.

Lemma getExpenseAccounts_failure (u o : string) (w w1 : World) (e : exn) :
  zohoBooksApiCall u o "/chartofaccounts" GET JUndefined w = (Err e, w1) ->
  getExpenseAccounts u o w = (Err e, w1).
Proof.
  intros Hcall. unfold getExpenseAccounts. rewrite try_catch_rethrow.
  unfold bind. rewrite Hcall. reflexivity.
Qed.

Lemma assoc_set_if_other (k k' : string) (v : value) (payload : list (string * value)) :
  String.eqb k' k = false ->
  JS.assoc k' (set_if k v payload) = JS.assoc k' payload.
Proof.
  intros Hne. unfold set_if. destruct (JS.truthy v); [|reflexivity].
  apply assoc_set_other. exact Hne.
Qed.

(** The payload carries the chosen account under [account_id] and the
    caller's total under [amount]; it has no [total] property. *)
Lemma expensePayload_fields (d : ExpenseData) (accountId : value) :
  JS.assoc "account_id" (expensePayload d accountId) = Some accountId
  /\ JS.assoc "amount" (expensePayload d accountId) = Some (JNum (total d))
  /\ JS.assoc "total" (expensePayload d accountId) = None.
Proof.
  unfold expensePayload.
  destruct (attachments d) as [[| a r] |];
    rewrite ?assoc_set_other by reflexivity;
    rewrite !assoc_set_if_other by reflexivity;
    repeat split; reflexivity.
Qed.

Lemma createExpense_with_accounts (u o : string) (d : ExpenseData) (w w1 : World)
      (accounts : list value) :
  JS.truthy (optional (account_id d)) = false ->
  getExpenseAccounts u o w = (Ok accounts, w1) ->
  createExpense u o d w =
  match accounts with
  | [] => (Err (Error no_expense_account), w1)
  | selectedAccount :: _ =>
      if account_converts selectedAccount
      then zohoBooksApiCall u o "/expenses" POST
             (JObj (expensePayload d (JS.get selectedAccount "account_id"))) w1
      else (Err cannot_convert, w1)
  end.
Proof.
  intros Hno Hacc. unfold createExpense. rewrite try_catch_rethrow.
  cbv zeta. rewrite Hno. simpl negb. cbv iota.
  unfold bind at 1. unfold bind at 1. rewrite Hacc.
  destruct accounts as [| selectedAccount rest].
  - reflexivity.
  - unfold account_converts, bind at 1, bind at 1, lift, to_string, JS.ToString.
    destruct (JS.converts (JS.get selectedAccount "account_name")); [| reflexivity].
    unfold bind at 1.
    destruct (JS.converts (JS.get selectedAccount "account_id")); [| reflexivity].
    simpl andb. cbv iota. unfold ret at 1. apply bind_ret_id.
Qed.

Lemma getExpenseAccounts_world (u o : string) (w : World) :
  snd (getExpenseAccounts u o w)
  = dispatched w (api_request u o "/chartofaccounts" GET JUndefined).
Proof.
  unfold getExpenseAccounts. rewrite try_catch_rethrow.
  unfold bind. rewrite zohoBooksApiCall_run.
  destruct (dispatch_result _ _) as [data | e]; [|reflexivity].
  destruct (JS.opt_get data "chartofaccounts"); try reflexivity.
  unfold lift. destruct (filterM is_expense_account items); reflexivity.
Qed.

Lemma createExpense_with_account (u o : string) (d : ExpenseData) (w : World) :
  JS.truthy (optional (account_id d)) = true ->
  createExpense u o d w =
  zohoBooksApiCall u o "/expenses" POST
    (JObj (expensePayload d (optional (account_id d)))) w.
Proof.
  intros Hyes. unfold createExpense. rewrite try_catch_rethrow.
  cbv zeta. rewrite Hyes. simpl negb. cbv iota.
  unfold bind at 1. unfold ret at 1. apply bind_ret_id.
Qed.

Lemma createExpense_accounts_failure (u o : string) (d : ExpenseData) (w w1 : World) (e : exn) :
  JS.truthy (optional (account_id d)) = false ->
  getExpenseAccounts u o w = (Err e, w1) ->
  createExpense u o d w = (Err e, w1).
Proof.
  intros Hno Hacc. unfold createExpense. rewrite try_catch_rethrow.
  cbv zeta. rewrite Hno. simpl negb. cbv iota.
  unfold bind at 1. unfold bind at 1. rewrite Hacc. reflexivity.
Qed.

Lemma api_requests_app (a b : list event) :
  api_requests (a ++ b) = (api_requests a ++ api_requests b)%list.
Proof.
  induction a as [| ev a IH]; simpl; [reflexivity|].
  destruct ev; auto. destruct (String.eqb fn "zoho-api-call"); simpl; congruence.
Qed.

(** The requests createExpense dispatches: at most the fetch of the chart
    of accounts, then at most one creation carrying [expensePayload]. *)
Lemma createExpense_requests (u o : string) (d : ExpenseData) (w : World) (req : value) :
  In req (api_requests (new_events w (snd (createExpense u o d w)))) ->
  req = api_request u o "/chartofaccounts" GET JUndefined
  \/ exists accountId,
       req = api_request u o "/expenses" POST (JObj (expensePayload d accountId)).
Proof.
  destruct (JS.truthy (optional (account_id d))) eqn:Hacc.
  - rewrite (createExpense_with_account u o d w Hacc), zohoBooksApiCall_events.
    simpl. intros [<- | []]. right. eauto.
  - pose proof (getExpenseAccounts_world u o w) as Hw.
    destruct (getExpenseAccounts u o w) as [[accounts | e] w1] eqn:Hget; simpl in Hw.
    + rewrite (createExpense_with_accounts u o d w w1 accounts Hacc Hget).
      destruct accounts as [| selectedAccount rest];
        [| destruct (account_converts selectedAccount)].
      * simpl snd. rewrite Hw.
        rewrite (new_events_app w _ _ (dispatched_log w _)).
        simpl. intros [<- | []]. left. reflexivity.
      * rewrite zohoBooksApiCall_run. simpl snd.
        rewrite (new_events_app w _
                   ([Invoke "zoho-api-call" (api_request u o "/chartofaccounts" GET JUndefined)
                       (fst (answer w (api_request u o "/chartofaccounts" GET JUndefined)))
                       (snd (answer w (api_request u o "/chartofaccounts" GET JUndefined)))]
                    ++ [Invoke "zoho-api-call"
                          (api_request u o "/expenses" POST
                             (JObj (expensePayload d (JS.get selectedAccount "account_id"))))
                          (fst (answer w1 (api_request u o "/expenses" POST
                             (JObj (expensePayload d (JS.get selectedAccount "account_id"))))))
                          (snd (answer w1 (api_request u o "/expenses" POST
                             (JObj (expensePayload d (JS.get selectedAccount "account_id"))))))])).
        -- simpl. intros [<- | [<- | []]]; [left; reflexivity | right; eauto].
        -- rewrite dispatched_log, Hw, dispatched_log, <- app_assoc. reflexivity.
      * simpl snd. rewrite Hw.
        rewrite (new_events_app w _ _ (dispatched_log w _)).
        simpl. intros [<- | []]. left. reflexivity.
    + rewrite (createExpense_accounts_failure u o d w w1 e Hacc Hget).
      simpl snd. rewrite Hw.
      rewrite (new_events_app w _ _ (dispatched_log w _)).
      simpl. intros [<- | []]. left. reflexivity.
Qed.

(** C5. Called without account_id, createExpense fetches the chart of
    accounts; from a chart (an array of accounts) it keeps the accounts
    whose account_type is 'expense', in the order of the chart; when none
    is left (or the answer holds no chart) it fails with the
    NoExpenseAccount message and dispatches nothing more; otherwise it
    picks the first of them and, its name and identifier converting to
    strings for the log line, creates the expense on its account_id (a
    name or an identifier that does not convert ends the call with the
    conversion's TypeError, nothing more being dispatched).  Every
    creation request createExpense dispatches, with or without
    account_id, carries the caller's total under the key 'amount', and
    has no 'total'. *)
Theorem createExpense_account_policy
        (u o : string) (d : ExpenseData) (w w1 : World) (data : value) :
  JS.truthy (optional (account_id d)) = false ->
  zohoBooksApiCall u o "/chartofaccounts" GET JUndefined w = (Ok data, w1) ->
  (forall chart,
     JS.opt_get data "chartofaccounts" = JArr chart ->
     Forall (fun acc => JS.nullish acc = false) chart ->
     match expense_accounts_of chart with
     | [] => createExpense u o d w = (Err (Error no_expense_account), w1)
     | first :: _ =>
         (account_converts first = true ->
          createExpense u o d w =
          zohoBooksApiCall u o "/expenses" POST
            (JObj (expensePayload d (JS.get first "account_id"))) w1
          /\ JS.assoc "account_id" (expensePayload d (JS.get first "account_id"))
             = Some (JS.get first "account_id"))
         /\ (account_converts first = false ->
             createExpense u o d w = (Err cannot_convert, w1))
     end)
  /\ (JS.isArray (JS.opt_get data "chartofaccounts") = false ->
      createExpense u o d w = (Err (Error no_expense_account), w1))
  /\ (forall d' w' req,
        In req (api_requests (new_events w' (snd (createExpense u o d' w')))) ->
        JS.get req "endpoint" = JStr "/expenses" ->
        JS.get (JS.get req "body") "amount" = JNum (total d')
        /\ JS.has (JS.get req "body") "total" = false).
Proof.
  intros Hno Hcall. split; [| split].
  - intros chart Hchart Hobj.
    pose proof (getExpenseAccounts_run u o w w1 data chart Hcall Hchart Hobj) as Hget.
    rewrite (createExpense_with_accounts u o d w w1 _ Hno Hget).
    destruct (expense_accounts_of chart) as [| first rest]; [reflexivity|].
    cbn [map].
    change (account_converts (account_summary first)) with (account_converts first).
    change (JS.get (account_summary first) "account_id") with (JS.get first "account_id").
    split.
    + intros ->. split; [reflexivity | apply expensePayload_fields].
    + intros ->. reflexivity.
  - intros Hchart.
    pose proof (getExpenseAccounts_no_chart u o w w1 data Hcall Hchart) as Hget.
    rewrite (createExpense_with_accounts u o d w w1 _ Hno Hget). reflexivity.
  - intros d' w' req Hin Hep.
    destruct (createExpense_requests u o d' w' req Hin) as [-> | [accountId ->]].
    + discriminate Hep.
    + rewrite api_request_body.
      destruct (expensePayload_fields d' accountId) as (_ & Hamount & Htotal).
      simpl. rewrite Hamount, Htotal. split; reflexivity.
Qed.

(** The theorem applied to a chart of three accounts, the second and
    third of expense type. *)
Lemma createExpense_account_policy_witness :
  let chart :=
    [JObj [("account_id", JStr "a1"); ("account_name", JStr "Sales"); ("account_type", JStr "income")];
     JObj [("account_id", JStr "a2"); ("account_name", JStr "Travel"); ("account_type", JStr "expense")];
     JObj [("account_id", JStr "a3"); ("account_name", JStr "Rent"); ("account_type", JStr "expense")]] in
  let w := Demo.world []
             (Demo.by_endpoint [("/chartofaccounts", JObj [("chartofaccounts", JArr chart)]);
                                ("/expenses", JObj [("expense_id", JStr "e1")])]) in
  let d := {| vendor_id := None; vendor_name := Some "Acme"; reference_number := None;
              account_id := None; expense_date := "2024-01-05"; total := Num.Dec 4250 (-2);
              notes := None; attachments := None |} in
  createExpense "u1" "org1" d w
  = zohoBooksApiCall "u1" "org1" "/expenses" POST (JObj (expensePayload d (JStr "a2")))
      (dispatched w (api_request "u1" "org1" "/chartofaccounts" GET JUndefined))
  /\ JS.assoc "account_id" (expensePayload d (JStr "a2")) = Some (JStr "a2").
Proof.
  intros chart w d.
  assert (Hobj : Forall (fun acc => JS.nullish acc = false) chart)
    by (repeat constructor).
  assert (Hcall : zohoBooksApiCall "u1" "org1" "/chartofaccounts" GET JUndefined w
                  = (Ok (JObj [("chartofaccounts", JArr chart)]),
                     dispatched w (api_request "u1" "org1" "/chartofaccounts" GET JUndefined)))
    by (rewrite zohoBooksApiCall_run; reflexivity).
  exact (proj1 (proj1 (createExpense_account_policy "u1" "org1" d w _ _ eq_refl Hcall)
                      chart eq_refl Hobj) eq_refl).
Defined.

(** ** Strings and numbers printed by the normalizer *)

Lemma lower_char_idem (c : ascii) : Str.lower_char (Str.lower_char c) = Str.lower_char c.
Proof. destruct c as [[] [] [] [] [] [] [] []]; reflexivity. Qed.

Lemma is_ws_lower_char (c : ascii) : Str.is_ws (Str.lower_char c) = Str.is_ws c.
Proof. destruct c as [[] [] [] [] [] [] [] []]; reflexivity. Qed.

Lemma toLowerCase_idem (s : string) : Str.toLowerCase (Str.toLowerCase s) = Str.toLowerCase s.
Proof.
  induction s as [| c r IH]; simpl; [reflexivity|].
  rewrite lower_char_idem, IH. reflexivity.
Qed.

Lemma trimStart_toLowerCase (s : string) :
  Str.trimStart (Str.toLowerCase s) = Str.toLowerCase (Str.trimStart s).
Proof.
  induction s as [| c r IH]; simpl; [reflexivity|].
  rewrite is_ws_lower_char. destruct (Str.is_ws c); [exact IH | reflexivity].
Qed.

Lemma trimEnd_toLowerCase (s : string) :
  Str.trimEnd (Str.toLowerCase s) = Str.toLowerCase (Str.trimEnd s).
Proof.
  induction s as [| c r IH]; simpl; [reflexivity|].
  rewrite IH, is_ws_lower_char.
  destruct (Str.trimEnd r) as [| c' r']; simpl.
  - destruct (Str.is_ws c); reflexivity.
  - reflexivity.
Qed.

Lemma trim_toLowerCase_lower (s : string) :
  Str.is_lower_case (Str.trim (Str.toLowerCase s)).
Proof.
  unfold Str.is_lower_case, Str.trim.
  rewrite trimStart_toLowerCase, trimEnd_toLowerCase. apply toLowerCase_idem.
Qed.

Lemma append_nonempty_r (a b : string) : b <> EmptyString -> (a ++ b)%string <> EmptyString.
Proof. destruct a; simpl; [auto | discriminate]. Qed.

Lemma append_nonempty_l (a b : string) : a <> EmptyString -> (a ++ b)%string <> EmptyString.
Proof. destruct a; simpl; [congruence | discriminate]. Qed.

Lemma of_N_nonempty (n : N) : Str.of_N n <> EmptyString.
Proof.
  unfold Str.of_N, NilZero.string_of_uint.
  destruct (N.to_uint n); simpl; discriminate.
Qed.

Lemma digits_toString_nonempty (s : string) (k n : Z) :
  s <> EmptyString -> Num.digits_toString s k n <> EmptyString.
Proof.
  intros Hs. unfold Num.digits_toString.
  destruct ((k <=? n) && (n <=? 21)); [apply append_nonempty_l; exact Hs|].
  destruct ((0 <? n) && (n <=? 21)).
  { apply append_nonempty_r. discriminate. }
  destruct ((-6 <? n) && (n <=? 0)); [discriminate|].
  destruct (k =? 1).
  - apply append_nonempty_l; exact Hs.
  - apply append_nonempty_r. discriminate.
Qed.

Lemma Num_toString_nonempty (x : Num.number) : Num.toString x <> EmptyString.
Proof.
  unfold Num.toString. destruct (Num.norm x) as [| [|] | m e]; try discriminate.
  destruct (m =? 0); [discriminate|].
  apply append_nonempty_r, digits_toString_nonempty, of_N_nonempty.
Qed.

(** A truthy value that is not an array prints as a non-empty string. *)
Lemma display_truthy_nonempty (v : value) :
  JS.truthy v = true -> JS.isArray v = false -> JS.display v <> EmptyString.
Proof.
  destruct v as [| | [|] | x | s | l | f]; simpl; try discriminate.
  - intros _ _. apply Num_toString_nonempty.
  - intros Hs _. destruct s; [discriminate Hs | discriminate].
Qed.

(** ** The expense normalizer *)

Lemma to_string_Ok (v : value) (s : string) :
  to_string v = Ok s -> JS.converts v = true /\ s = JS.display v.
Proof.
  unfold to_string, JS.ToString. destruct (JS.converts v); [| discriminate].
  intros [= <-]. split; reflexivity.
Qed.

Lemma to_string_converts (v : value) :
  JS.converts v = true -> to_string v = Ok (JS.display v).
Proof. unfold to_string, JS.ToString. intros ->. reflexivity. Qed.

Lemma String_trim_Ok (v : value) (s : string) :
  String_trim v = Ok s -> JS.converts v = true /\ s = trimmed v.
Proof.
  unfold String_trim, and_then. destruct (to_string v) as [text |] eqn:E; [| discriminate].
  apply to_string_Ok in E as [Hc ->]. intros [= <-]. split; [exact Hc | reflexivity].
Qed.

Lemma String_trim_converts (v : value) :
  JS.converts v = true -> String_trim v = Ok (trimmed v).
Proof. intros H. unfold String_trim. rewrite (to_string_converts v H). reflexivity. Qed.

Lemma expense_status_spec (expense : value) (status : string) :
  expense_status expense = Ok status ->
  Str.is_lower_case status
  /\ (absent expense "status" -> absent expense "payment_status" ->
      status = "nonbillable").
Proof.
  unfold expense_status, and_then.
  destruct (to_string _) as [text |] eqn:E; [| discriminate].
  intros [= <-]. split.
  - apply trim_toLowerCase_lower.
  - unfold absent. intros Ha Hb. rewrite Ha, Hb in E.
    vm_compute in E. injection E as <-. reflexivity.
Qed.

Lemma expense_vendor_name_spec (expense : value) (name : string) :
  expense_vendor_name expense = Ok name ->
  exists vendor_name,
    JS.or (JStr name) (JStr "Unknown Vendor") = JStr vendor_name
    /\ vendor_name <> EmptyString
    /\ (blank expense "vendor_name" -> blank expense "vendor" ->
        vendor_name = "Unknown Vendor").
Proof.
  intros Hname. unfold JS.or. simpl JS.truthy.
  destruct name as [| c s]; simpl.
  - exists "Unknown Vendor". repeat split. discriminate.
  - exists (String c s). split; [reflexivity|]. split; [discriminate|].
    intros Hvn Hv. exfalso. unfold expense_vendor_name, blank in *.
    destruct (JS.truthy (JS.get expense "vendor_name")).
    + apply String_trim_Ok in Hname as [_ Hname].
      destruct Hvn as [Hvn | Hvn]; congruence.
    + destruct (JS.truthy (JS.get expense "vendor")).
      * apply String_trim_Ok in Hname as [_ Hname].
        destruct Hv as [Hv | Hv]; congruence.
      * discriminate.
Qed.

Lemma expense_expense_date_spec (today : string) (expense : value) :
  absent expense "expense_date" -> absent expense "date" ->
  expense_expense_date today expense = Ok today.
Proof.
  unfold absent, expense_expense_date. intros -> ->. reflexivity.
Qed.

Lemma expense_expense_id_run (expense : value) (index : nat) (w : World) :
  match upstream_id expense with
  | Some id => expense_expense_id expense index w = (Ok id, w)
  | None =>
      expense_expense_id expense index w
      = (Ok (JStr ("expense-" ++ Str.of_nat index ++ "-"
                   ++ JS.display (JS.num (clock w (log w))))),
         record w (Now (clock w (log w))))
  end.
Proof.
  unfold upstream_id, expense_expense_id.
  destruct (JS.truthy (JS.get expense "expense_id")); [reflexivity|].
  destruct (JS.truthy (JS.get expense "id")); reflexivity.
Qed.

Lemma upstream_id_truthy (expense id : value) :
  upstream_id expense = Some id -> JS.truthy id = true.
Proof.
  unfold upstream_id.
  destruct (JS.truthy (JS.get expense "expense_id")) eqn:E1; [congruence|].
  destruct (JS.truthy (JS.get expense "id")) eqn:E2; congruence.
Qed.

(** What a run of the callback that goes through has done: every
    conversion went through, the record is [normalized_record], and the
    clock was read once, or twice when the identifier is synthesized. *)
Lemma normalizeExpense_Ok (expense : value) (index : nat) (w w' : World) (r : value) :
  normalizeExpense expense index w = (Ok r, w') ->
  let t := clock w (log w) in
  let t' := clock w (log w ++ [Now t])%list in
  JS.nullish expense = false
  /\ r = normalized_record expense index t t'
  /\ w' = match upstream_id expense with
          | Some _ => record w (Now t)
          | None => record (record w (Now t)) (Now t')
          end
  /\ (exists name, expense_vendor_name expense = Ok name)
  /\ (exists amount, expense_amount expense = Ok amount)
  /\ (exists date,
        expense_expense_date (Date.before_T (Date.toISOString t)) expense = Ok date)
  /\ (exists status, expense_status expense = Ok status)
  /\ (exists account, expense_account expense = Ok account)
  /\ (forall id, upstream_id expense = Some id -> JS.converts id = true).
Proof.
  intros Hrun t t'.
  pose proof (expense_expense_id_run expense index (record w (Now t))) as Hid.
  unfold normalizeExpense, lift, prop in Hrun.
  destruct (JS.nullish expense); [discriminate Hrun|].
  unfold bind at 1 in Hrun. cbv iota beta in Hrun.
  unfold bind at 1 in Hrun. unfold normalized_record.
  destruct (expense_vendor_name expense) as [name | e]; [| discriminate Hrun].
  unfold bind at 1 in Hrun.
  destruct (expense_vendor_id expense) as [vendor_id | e]; [| discriminate Hrun].
  unfold bind at 1 in Hrun.
  destruct (expense_amount expense) as [amount | e]; [| discriminate Hrun].
  unfold bind at 1 in Hrun. unfold now at 1 in Hrun. cbv iota beta zeta in Hrun.
  fold t in Hrun.
  unfold bind at 1 in Hrun.
  destruct (expense_expense_date (Date.before_T (Date.toISOString t)) expense)
    as [date | e]; [| discriminate Hrun].
  unfold bind at 1 in Hrun.
  destruct (expense_status expense) as [status | e]; [| discriminate Hrun].
  unfold bind at 1 in Hrun.
  destruct (upstream_id expense) as [id |]; rewrite Hid in Hrun; cbv iota beta in Hrun;
    unfold bind at 1 in Hrun;
    (destruct (expense_account expense) as [[account_name account_id] | e];
     [| discriminate Hrun]);
    unfold bind at 1 in Hrun; unfold to_string, JS.ToString in Hrun.
  - destruct (JS.converts id) eqn:Hc; [| discriminate Hrun].
    injection Hrun as <- <-.
    split; [reflexivity|]. split; [reflexivity|]. split; [reflexivity|].
    repeat (split; [eexists; reflexivity|]).
    intros id' [= <-]. exact Hc.
  - simpl JS.converts in Hrun. cbv iota in Hrun.
    injection Hrun as <- <-.
    split; [reflexivity|]. split; [reflexivity|]. split; [reflexivity|].
    repeat (split; [eexists; reflexivity|]).
    intros id' [=].
Qed.

(** The canonical record of a raw record satisfies [normalized]. *)
Lemma normalizeExpense_normalized (expense : value) (index : nat) (w w' : World) (r : value) :
  normalizeExpense expense index w = (Ok r, w') ->
  exists reads,
    log w' = (log w ++ map Now reads)%list
    /\ normalized reads expense r.
Proof.
  intros Hrun.
  destruct (normalizeExpense_Ok expense index w w' r Hrun)
    as (Hnn & -> & -> & (name & Hname) & (amount & Hamount) & (date & Hdate)
        & (status & Hstatus) & _ & Hid).
  set (t := clock w (log w)) in *.
  set (t' := clock w (log w ++ [Now t])%list) in *.
  destruct (expense_status_spec expense status Hstatus) as [Hlower Hdefault].
  destruct (expense_vendor_name_spec expense name Hname) as (vn & Hvn & Hvn_ne & Hvn_default).
  assert (Hnorm : forall reads, In t reads ->
            normalized reads expense (normalized_record expense index t t')).
  { intros reads Hin. unfold normalized, normalized_record.
    rewrite Hname, Hamount, Hdate, Hstatus. cbn [value_or].
    split; [reflexivity|].
    split; [exists status; repeat split; assumption|].
    split; [exists vn; split; [exact Hvn | split; assumption]|].
    split.
    { exists date. split; [reflexivity|]. intros Ha Hb. exists t. split; [exact Hin|].
      rewrite (expense_expense_date_spec _ expense Ha Hb) in Hdate. congruence. }
    eexists. split; [reflexivity|].
    destruct (upstream_id expense) as [id |] eqn:Eup.
    - split; [reflexivity|].
      intros Harr. apply display_truthy_nonempty; [| exact Harr].
      eapply upstream_id_truthy; exact Eup.
    - discriminate. }
  destruct (upstream_id expense) as [id |] eqn:Eup.
  - exists [t]. split; [reflexivity|]. apply Hnorm. left. reflexivity.
  - exists [t; t']. split.
    + unfold record, with_store; simpl. rewrite <- app_assoc. reflexivity.
    + apply Hnorm. left. reflexivity.
Qed.

Lemma readable_converts (expense : value) (k : string) :
  readable expense = true -> In k converted_properties ->
  JS.converts (JS.get expense k) = true.
Proof.
  unfold readable. intros H Hin. apply andb_true_iff in H as [_ H].
  rewrite forallb_forall in H. exact (H k Hin).
Qed.

Lemma readable_not_nullish (expense : value) :
  readable expense = true -> JS.nullish expense = false.
Proof.
  unfold readable. intros H. apply andb_true_iff in H as [H _].
  apply negb_true_iff in H. exact H.
Qed.

Lemma or_converts (a b : value) :
  JS.converts a = true -> JS.converts b = true -> JS.converts (JS.or a b) = true.
Proof. unfold JS.or. destruct (JS.truthy a); auto. Qed.

Lemma primitive_converts (v : value) : JS.typeof_object v = false -> JS.converts v = true.
Proof. destruct v; simpl; try reflexivity; discriminate. Qed.

(** On a readable record every conversion of the callback goes through. *)
Lemma readable_conversions (expense : value) :
  readable expense = true ->
  (exists name, expense_vendor_name expense = Ok name)
  /\ (exists vendor_id, expense_vendor_id expense = Ok vendor_id)
  /\ (exists amount, expense_amount expense = Ok amount)
  /\ (forall today, exists date, expense_expense_date today expense = Ok date)
  /\ (exists status, expense_status expense = Ok status)
  /\ (exists account, expense_account expense = Ok account)
  /\ (forall id, upstream_id expense = Some id -> JS.converts id = true).
Proof.
  intros Hr.
  assert (C : forall k, In k converted_properties -> JS.converts (JS.get expense k) = true)
    by (intros k; apply readable_converts; exact Hr).
  assert (T : forall k, In k converted_properties ->
                        String_trim (JS.get expense k) = Ok (trimmed (JS.get expense k)))
    by (intros k Hk; apply String_trim_converts, C, Hk).
  split; [| split; [| split; [| split; [| split; [| split]]]]].
  - unfold expense_vendor_name.
    destruct (JS.truthy (JS.get expense "vendor_name"));
      [rewrite T by (simpl; tauto); eauto|].
    destruct (JS.truthy (JS.get expense "vendor")); [rewrite T by (simpl; tauto)|]; eauto.
  - unfold expense_vendor_id.
    destruct (JS.truthy (JS.get expense "vendor_id")); [rewrite T by (simpl; tauto)|]; eauto.
  - unfold expense_amount, parsed_or_zero.
    destruct (positive_number (JS.get expense "amount")); [eauto|].
    destruct (positive_number (JS.get expense "total")); [eauto|].
    destruct (JS.truthy (JS.get expense "amount")).
    { rewrite to_string_converts by (apply C; simpl; tauto). simpl. eauto. }
    destruct (JS.truthy (JS.get expense "total")).
    { rewrite to_string_converts by (apply C; simpl; tauto). simpl. eauto. }
    eauto.
  - intros today. unfold expense_expense_date, has_text.
    destruct (JS.truthy (JS.get expense "expense_date")).
    + rewrite T by (simpl; tauto). cbn [and_then].
      destruct (JS.truthy (JStr (trimmed (JS.get expense "expense_date")))); [eauto|].
      destruct (JS.truthy (JS.get expense "date")).
      * rewrite T by (simpl; tauto). cbn [and_then].
        destruct (JS.truthy (JStr (trimmed (JS.get expense "date")))); eauto.
      * cbn [and_then]. eauto.
    + cbn [and_then].
      destruct (JS.truthy (JS.get expense "date")).
      * rewrite T by (simpl; tauto). cbn [and_then].
        destruct (JS.truthy (JStr (trimmed (JS.get expense "date")))); eauto.
      * cbn [and_then]. eauto.
  - unfold expense_status.
    rewrite to_string_converts; [cbn [and_then]; eauto|].
    apply or_converts; [apply or_converts; apply C; simpl; tauto | reflexivity].
  - unfold expense_account.
    assert (A : exists first,
               (if JS.truthy (JS.get expense "account") then
                  if JS.typeof_object (JS.get expense "account")
                  then Ok (JS.or (JS.get (JS.get expense "account") "account_name")
                                 (JStr EmptyString),
                           JS.or (JS.get (JS.get expense "account") "account_id")
                                 (JStr EmptyString))
                  else and_then (String_trim (JS.get expense "account"))
                                (fun account_name => Ok (JStr account_name, JStr EmptyString))
                else Ok (JStr EmptyString, JStr EmptyString)) = Ok first).
    { destruct (JS.truthy (JS.get expense "account")); [| eauto].
      destruct (JS.typeof_object (JS.get expense "account")) eqn:Ho; [eauto|].
      rewrite String_trim_converts by (apply primitive_converts; exact Ho).
      cbn [and_then]. eauto. }
    destruct A as [[account_name account_id] ->]. cbn [and_then].
    destruct (JS.truthy (JS.get expense "account_id") && negb (JS.truthy account_id));
      [rewrite T by (simpl; tauto); cbn [and_then]|]; eauto.
  - intros id. unfold upstream_id.
    destruct (JS.truthy (JS.get expense "expense_id")).
    + intros [= <-]. apply C. simpl. tauto.
    + destruct (JS.truthy (JS.get expense "id")); [| discriminate].
      intros [= <-]. apply C. simpl. tauto.
Qed.

(** One application of the callback to a readable record goes through. *)
Lemma normalizeExpense_readable (expense : value) (index : nat) (w : World) :
  readable expense = true ->
  exists r w', normalizeExpense expense index w = (Ok r, w').
Proof.
  intros Hr.
  destruct (readable_conversions expense Hr)
    as ((name & Hname) & (vendor_id & Hvid) & (amount & Hamount) & Hdate
        & (status & Hstatus) & ([account_name account_id] & Hacc) & Hid).
  destruct (Hdate (Date.before_T (Date.toISOString (clock w (log w))))) as [date Hd].
  pose proof (expense_expense_id_run expense index (record w (Now (clock w (log w)))))
    as Hrun.
  unfold normalizeExpense, lift, prop. rewrite (readable_not_nullish expense Hr).
  unfold bind at 1. cbv iota beta.
  unfold bind at 1. rewrite Hname.
  unfold bind at 1. rewrite Hvid.
  unfold bind at 1. rewrite Hamount.
  unfold bind at 1. unfold now at 1. cbv iota beta zeta.
  unfold bind at 1. rewrite Hd.
  unfold bind at 1. rewrite Hstatus.
  unfold bind at 1.
  destruct (upstream_id expense) as [id |] eqn:Eup; rewrite Hrun; cbv iota beta;
    unfold bind at 1; rewrite Hacc; unfold bind at 1.
  - rewrite (to_string_converts id (Hid id eq_refl)). eexists _, _. reflexivity.
  - rewrite to_string_converts by reflexivity. eexists _, _. reflexivity.
Qed.

Lemma normalizeExpense_run (expense : value) (index : nat) (w : World) :
  readable expense = true ->
  exists r w' reads,
    normalizeExpense expense index w = (Ok r, w')
    /\ log w' = (log w ++ map Now reads)%list
    /\ normalized reads expense r.
Proof.
  intros Hr.
  destruct (normalizeExpense_readable expense index w Hr) as (r & w' & Hrun).
  destruct (normalizeExpense_normalized expense index w w' r Hrun) as (reads & Hlog & Hn).
  exists r, w', reads. auto.
Qed.

Lemma normalized_more_reads (before after : list Z) (expense r : value) (reads : list Z) :
  normalized reads expense r -> normalized (before ++ reads ++ after) expense r.
Proof.
  unfold normalized. intros (Ha & Hs & Hv & (d & Hd & Hdate) & Hi).
  repeat (split; [assumption|]). split; [|assumption].
  exists d. split; [assumption|]. intros A B.
  destruct (Hdate A B) as (t & Hin & Ht). exists t. split; [|assumption].
  apply in_or_app. right. apply in_or_app. left. assumption.
Qed.

Lemma clock_reads_Now (ts : list Z) : clock_reads (map Now ts) = ts.
Proof. induction ts as [| t ts IH]; simpl; congruence. Qed.

(** The map over an array of readable records: it succeeds, and its
    output matches its input element by element. *)
Lemma mapM_normalizeExpense (expenses : list value) :
  Forall (fun expense => readable expense = true) expenses ->
  forall (start : nat) (w : World),
  exists out w' reads,
    mapM_index normalizeExpense start expenses w = (Ok out, w')
    /\ log w' = (log w ++ map Now reads)%list
    /\ Forall2 (normalized reads) expenses out.
Proof.
  induction 1 as [| expense expenses Hnn _ IH]; intros start w.
  - exists [], w, []. simpl. rewrite app_nil_r. repeat split. constructor.
  - destruct (normalizeExpense_run expense start w Hnn) as (r & w1 & reads1 & Hrun & Hlog1 & Hr).
    destruct (IH (S start) w1) as (out & w' & reads2 & Hmap & Hlog2 & Hout).
    exists (r :: out), w', (reads1 ++ reads2)%list.
    split; [| split].
    + cbn [mapM_index]. unfold bind at 1. rewrite Hrun.
      unfold bind at 1. rewrite Hmap. reflexivity.
    + rewrite Hlog2, Hlog1, map_app, app_assoc. reflexivity.
    + constructor.
      * pose proof (normalized_more_reads [] reads2 expense r reads1 Hr) as H'.
        exact H'.
      * eapply Forall2_impl; [|exact Hout].
        intros e r' He.
        pose proof (normalized_more_reads reads1 [] e r' reads2 He) as H'.
        rewrite app_nil_r in H'. exact H'.
Qed.

(** C7 (amended). On every input array of readable records (records that
    are neither null nor undefined, and whose properties that the
    normalizer converts to a string do convert), the normalizer of
    getExpenses does not fail and returns an array matching its input
    element by element (same length, same order).  Each output record
    has the amount derived from its input record, a lower-cased status
    that is 'nonbillable' when both status spellings are absent, a
    non-empty vendor_name that is 'Unknown Vendor' when both vendor
    spellings are blank, an expense_date that is the date of a clock
    reading of the call when both date spellings are absent, and an
    identifier that is the upstream one printed as a string, or else a
    synthesized one; the identifier is non-empty unless the upstream one
    is an array. *)
Theorem getExpenses_normalizes
        (u o : string) (filters : option Filters) (w w1 : World) (data : value) :
  zohoBooksApiCall u o (getExpenses_endpoint filters) GET JUndefined w = (Ok data, w1) ->
  Forall (fun expense => readable expense = true) (expenses_of data) ->
  exists out w',
    getExpenses u o filters w = (Ok (JS.spread_with data "expenses" (JArr out)), w')
    /\ JS.get (JS.spread_with data "expenses" (JArr out)) "expenses" = JArr out
    /\ List.length out = List.length (expenses_of data)
    /\ Forall2 (normalized (clock_reads (new_events w1 w'))) (expenses_of data) out.
Proof.
  intros Hcall Hnn.
  destruct (mapM_normalizeExpense (expenses_of data) Hnn 0%nat w1)
    as (out & w' & reads & Hmap & Hlog & Hout).
  exists out, w'. split; [| split; [| split]].
  - unfold getExpenses. unfold bind at 1. rewrite Hcall.
    unfold bind at 1. rewrite Hmap. reflexivity.
  - apply get_spread_with.
  - symmetry. eapply Forall2_length. exact Hout.
  - rewrite (new_events_app w1 w' _ Hlog), clock_reads_Now. exact Hout.
Qed.

(** The theorem applied to the raw array
    [[{amount: '12.50', vendor: 'Acme', date: '2024-01-05'}]]. *)
Lemma getExpenses_normalizes_witness :
  let raw := JObj [("amount", JStr "12.50"); ("vendor", JStr "Acme");
                   ("date", JStr "2024-01-05")] in
  let data := JObj [("expenses", JArr [raw])] in
  let w := Demo.world [] (Demo.succeed_with data) in
  let w1 := dispatched w (api_request "u1" "org1" "/expenses" GET JUndefined) in
  exists out w',
    getExpenses "u1" "org1" None w = (Ok (JS.spread_with data "expenses" (JArr out)), w')
    /\ JS.get (JS.spread_with data "expenses" (JArr out)) "expenses" = JArr out
    /\ List.length out = 1%nat
    /\ Forall2 (normalized (clock_reads (new_events w1 w'))) [raw] out.
Proof.
  intros raw data w w1.
  assert (Hcall : zohoBooksApiCall "u1" "org1" (getExpenses_endpoint None) GET JUndefined w
                  = (Ok data, w1))
    by (rewrite zohoBooksApiCall_run; reflexivity).
  assert (Hnn : Forall (fun expense => readable expense = true) (expenses_of data))
    by (repeat constructor).
  exact (getExpenses_normalizes "u1" "org1" None w w1 data Hcall Hnn).
Defined.

(** C7, as stated, fails on three inputs: on the array [[null]] the
    normalizer throws a TypeError instead of producing an output array;
    so it does on the array [[{vendor_name: {toString: 1}}]], whose
    vendor_name does not convert to a string; and on the array
    [[{expense_id: []}]] the identifier of the output record is the
    empty string. *)
Lemma getExpenses_not_total :
  (exists message,
      fst (getExpenses "u1" "org1" None
             (Demo.world [] (Demo.succeed_with (JObj [("expenses", JArr [JNull])]))))
      = Err (TypeError message))
  /\ (exists out,
        fst (getExpenses "u1" "org1" None
               (Demo.world [] (Demo.succeed_with
                                 (JObj [("expenses", JArr [JObj [("expense_id", JArr [])]])]))))
        = Ok (JObj [("expenses", JArr [out])])
        /\ JS.get out "expense_id" = JStr EmptyString)
  /\ (exists message,
         fst (getExpenses "u1" "org1" None
                (Demo.world [] (Demo.succeed_with
                   (JObj [("expenses",
                           JArr [JObj [("vendor_name",
                                        JObj [("toString", JS.num 1)])]])]))))
         = Err (TypeError message)).
Proof.
  split; [| split].
  - eexists. vm_compute. reflexivity.
  - eexists. split; vm_compute; reflexivity.
  - eexists. vm_compute. reflexivity.
Qed.

(** ** Propagation of dispatcher failures *)

Section Propagation.

(** The user and the organization the operations run for. *)
Variables (u o : string).

Lemma failed_dispatch_dispatched (req data functionError : value) :
  failed_dispatch (Invoke "zoho-api-call" req data functionError)
  = match dispatch_result data functionError with
    | Err e => Some e
    | Ok _ => None
    end.
Proof. reflexivity. Qed.

(** A dispatch followed by steps that dispatch nothing: a failed dispatch
    in the log is the failure of the whole. *)
Lemma dispatch_then_quiet (ep : string) (m : Method) (b : value)
      (k : value -> M value) (w : World) (ev : event) (e : exn) :
  (forall a w', exists evs, log (snd (k a w')) = (log w' ++ evs)%list
                            /\ forall ev', In ev' evs -> failed_dispatch ev' = None) ->
  In ev (new_events w (snd ((x <- zohoBooksApiCall u o ep m b ;; k x) w))) ->
  failed_dispatch ev = Some e ->
  fst ((x <- zohoBooksApiCall u o ep m b ;; k x) w) = Err e.
Proof.
  intros Hquiet. unfold bind. rewrite zohoBooksApiCall_run.
  set (req := api_request u o ep m b).
  pose proof (failed_dispatch_dispatched req (fst (answer w req)) (snd (answer w req))) as Hf.
  destruct (dispatch_result (fst (answer w req)) (snd (answer w req))) as [a | e0].
  - destruct (Hquiet a (dispatched w req)) as (evs & Hlog & Hevs).
    rewrite (new_events_app w _ ([Invoke "zoho-api-call" req (fst (answer w req))
                                          (snd (answer w req))] ++ evs)).
    + intros [<- | Hin] Hfail; [congruence|].
      rewrite (Hevs ev Hin) in Hfail. discriminate.
    + rewrite Hlog, dispatched_log, <- app_assoc. reflexivity.
  - simpl snd. rewrite (new_events_app w _ _ (dispatched_log w req)).
    intros [<- | []] Hfail. simpl. congruence.
Qed.

Lemma quiet_pure (k : value -> M value) :
  (forall a w', snd (k a w') = w') ->
  forall a w', exists evs, log (snd (k a w')) = (log w' ++ evs)%list
                           /\ forall ev', In ev' evs -> failed_dispatch ev' = None.
Proof.
  intros Hpure a w'. exists []. rewrite Hpure, app_nil_r. split; [reflexivity|].
  intros ev' [].
Qed.

Lemma dispatch_alone (ep : string) (m : Method) (b : value)
      (w : World) (ev : event) (e : exn) :
  In ev (new_events w (snd (zohoBooksApiCall u o ep m b w))) ->
  failed_dispatch ev = Some e ->
  fst (zohoBooksApiCall u o ep m b w) = Err e.
Proof.
  rewrite <- (bind_ret_id (zohoBooksApiCall u o ep m b) w).
  apply dispatch_then_quiet. apply quiet_pure. reflexivity.
Qed.

(** The normalizer only reads the clock, whether it fails or not. *)
Lemma normalizeExpense_quiet (expense : value) (index : nat) (w : World) :
  exists reads, log (snd (normalizeExpense expense index w)) = (log w ++ map Now reads)%list.
Proof.
  pose proof (expense_expense_id_run expense index (record w (Now (clock w (log w))))) as Hid.
  unfold normalizeExpense, lift, prop.
  destruct (JS.nullish expense).
  { exists []. unfold bind. simpl. rewrite app_nil_r. reflexivity. }
  unfold bind at 1. cbv iota beta. unfold bind at 1.
  destruct (expense_vendor_name expense) as [name | e];
    [| exists []; simpl; rewrite app_nil_r; reflexivity].
  unfold bind at 1.
  destruct (expense_vendor_id expense) as [vendor_id | e];
    [| exists []; simpl; rewrite app_nil_r; reflexivity].
  unfold bind at 1.
  destruct (expense_amount expense) as [amount | e];
    [| exists []; simpl; rewrite app_nil_r; reflexivity].
  unfold bind at 1. unfold now at 1. cbv iota beta zeta.
  set (t := clock w (log w)) in *.
  unfold bind at 1.
  destruct (expense_expense_date (Date.before_T (Date.toISOString t)) expense)
    as [date | e]; [| exists [t]; reflexivity].
  unfold bind at 1.
  destruct (expense_status expense) as [status | e]; [| exists [t]; reflexivity].
  unfold bind at 1.
  destruct (upstream_id expense) as [id |]; rewrite Hid; cbv iota beta;
    unfold bind at 1;
    (destruct (expense_account expense) as [[account_name account_id] | e];
     [unfold bind at 1; destruct (to_string _) as [text | e] |]).
  - exists [t]. reflexivity.
  - exists [t]. reflexivity.
  - exists [t]. reflexivity.
  - exists [t; clock w (log w ++ [Now t])%list].
    unfold record, with_store; simpl. rewrite <- app_assoc. reflexivity.
  - exists [t; clock w (log w ++ [Now t])%list].
    unfold record, with_store; simpl. rewrite <- app_assoc. reflexivity.
  - exists [t; clock w (log w ++ [Now t])%list].
    unfold record, with_store; simpl. rewrite <- app_assoc. reflexivity.
Qed.

Lemma mapM_normalizeExpense_quiet (expenses : list value) (start : nat) (w : World) :
  exists reads,
    log (snd (mapM_index normalizeExpense start expenses w)) = (log w ++ map Now reads)%list.
Proof.
  revert start w. induction expenses as [| expense expenses IH]; intros start w.
  - exists []. simpl. rewrite app_nil_r. reflexivity.
  - cbn [mapM_index]. unfold bind at 1.
    destruct (normalizeExpense_quiet expense start w) as (reads1 & Hlog1).
    destruct (normalizeExpense expense start w) as [[r | e] w1]; simpl in Hlog1.
    + unfold bind at 1.
      destruct (IH (S start) w1) as (reads2 & Hlog2).
      destruct (mapM_index normalizeExpense (S start) expenses w1) as [[out | e] w2];
        simpl in Hlog2; exists (reads1 ++ reads2)%list; simpl;
        rewrite Hlog2, Hlog1, map_app, app_assoc; reflexivity.
    + exists reads1. exact Hlog1.
Qed.

Lemma failed_dispatch_Now (reads : list Z) (ev : event) :
  In ev (map Now reads) -> failed_dispatch ev = None.
Proof.
  intros Hin. apply in_map_iff in Hin as (t & <- & _). reflexivity.
Qed.

Lemma getExpenses_propagates (filters : option Filters)
      (w : World) (ev : event) (e : exn) :
  In ev (new_events w (snd (getExpenses u o filters w))) ->
  failed_dispatch ev = Some e ->
  fst (getExpenses u o filters w) = Err e.
Proof.
  unfold getExpenses. apply dispatch_then_quiet. intros data w'.
  destruct (mapM_normalizeExpense_quiet (expenses_of data) 0 w') as (reads & Hlog).
  exists (map Now reads). split; [| apply failed_dispatch_Now].
  unfold bind. destruct (mapM_index normalizeExpense 0 (expenses_of data) w') as [[out | e'] w2];
    exact Hlog.
Qed.

Lemma getExpenseAccounts_propagates (w : World) (ev : event) (e : exn) :
  In ev (new_events w (snd (getExpenseAccounts u o w))) ->
  failed_dispatch ev = Some e ->
  fst (getExpenseAccounts u o w) = Err e.
Proof.
  rewrite getExpenseAccounts_world, (new_events_app w _ _ (dispatched_log w _)).
  intros [<- | []] Hfail. rewrite failed_dispatch_dispatched in Hfail.
  unfold getExpenseAccounts. rewrite try_catch_rethrow.
  unfold bind. rewrite zohoBooksApiCall_run.
  destruct (dispatch_result _ _) as [data | e0]; [discriminate | simpl; congruence].
Qed.

Lemma createExpense_propagates (d : ExpenseData)
      (w : World) (ev : event) (e : exn) :
  In ev (new_events w (snd (createExpense u o d w))) ->
  failed_dispatch ev = Some e ->
  fst (createExpense u o d w) = Err e.
Proof.
  destruct (JS.truthy (optional (account_id d))) eqn:Hacc.
  - rewrite (createExpense_with_account u o d w Hacc). apply dispatch_alone.
  - pose proof (getExpenseAccounts_world u o w) as Hw.
    pose proof (getExpenseAccounts_propagates w) as Hprop.
    destruct (getExpenseAccounts u o w) as [[accounts | e0] w1] eqn:Hget;
      simpl in Hw, Hprop.
    + rewrite (createExpense_with_accounts u o d w w1 accounts Hacc Hget).
      assert (Hchart : forall ev', In ev' (new_events w w1) -> failed_dispatch ev' = None).
      { intros ev' Hin. destruct (failed_dispatch ev') as [e' |] eqn:E; [|reflexivity].
        specialize (Hprop ev' e' Hin E). discriminate. }
      destruct accounts as [| selectedAccount rest];
        [| destruct (account_converts selectedAccount);
           [| simpl; intros Hin Hfail; rewrite (Hchart ev Hin) in Hfail; discriminate]].
      * simpl. intros Hin Hfail. rewrite (Hchart ev Hin) in Hfail. discriminate.
      * set (req := api_request u o "/expenses" POST
                      (JObj (expensePayload d (JS.get selectedAccount "account_id")))).
        rewrite zohoBooksApiCall_run. simpl fst. simpl snd.
        rewrite (new_events_app w _
                   (new_events w w1
                    ++ [Invoke "zoho-api-call" req (fst (answer w1 req)) (snd (answer w1 req))])).
        -- intros Hin Hfail. apply in_app_or in Hin as [Hin | [<- | []]].
           ++ rewrite (Hchart ev Hin) in Hfail. discriminate.
           ++ rewrite failed_dispatch_dispatched in Hfail.
              destruct (dispatch_result _ _); congruence.
        -- rewrite dispatched_log. rewrite Hw at 1.
           rewrite dispatched_log, <- app_assoc.
           rewrite (new_events_app w w1 _ (eq_trans (f_equal log Hw) (dispatched_log w _))).
           reflexivity.
    + rewrite (createExpense_accounts_failure u o d w w1 e0 Hacc Hget).
      simpl. intros Hin Hfail. specialize (Hprop ev e Hin Hfail). congruence.
Qed.

Lemma getOrganizationDetails_swallows (w : World) (ev : event) (e : exn) :
  In ev (new_events w (snd (getOrganizationDetails u o w))) ->
  failed_dispatch ev = Some e ->
  fst (getOrganizationDetails u o w) = Ok default_currency.
Proof.
  unfold getOrganizationDetails, try_catch, bind. rewrite zohoBooksApiCall_run.
  set (req := api_request u o "/organization" GET JUndefined).
  pose proof (failed_dispatch_dispatched req (fst (answer w req)) (snd (answer w req))) as Hf.
  destruct (dispatch_result (fst (answer w req)) (snd (answer w req))) as [a | e0]; simpl.
  - rewrite (new_events_app w _ _ (dispatched_log w req)).
    intros [<- | []] Hfail. congruence.
  - reflexivity.
Qed.

(** Steps after the dispatch that leave the world alone. *)
Ltac quiet_after_dispatch :=
  rewrite ?try_catch_rethrow;
  first
    [ apply dispatch_alone
    | apply dispatch_then_quiet; apply quiet_pure; intros a w';
      repeat match goal with
             | |- context [if ?c then _ else _] => destruct c
             end;
      unfold bind, lift, ret;
      try match goal with
          | |- context [minus ?a ?b] => destruct (minus a b)
          end;
      reflexivity ].

Lemma run_propagates (op : Operation) (w : World) (ev : event) (e : exn) :
  op <> GetOrganizationDetails ->
  In ev (new_events w (snd (run u o op w))) ->
  failed_dispatch ev = Some e ->
  fst (run u o op w) = Err e.
Proof.
  intros Hop.
  destruct op; try congruence; cbn [run];
    try apply getExpenses_propagates; try apply createExpense_propagates;
    try (unfold getInvoices, getInvoice, createInvoice, updateInvoice, deleteInvoice,
           getCustomers, getCustomer, createCustomer, updateCustomer, deleteCustomer,
           getVendors, getVendor, createVendor, updateVendor, deleteVendor,
           getChartOfAccounts, getExpense, updateExpense, deleteExpense,
           getProfitAndLoss, getBalance, getCashFlow, getExpenseReport;
         quiet_after_dispatch).
  (* getExpenseAccounts *)
  intros Hin Hfail.
  assert (Hw : snd ((accounts <- getExpenseAccounts u o ;; ret (JArr accounts)) w)
               = snd (getExpenseAccounts u o w)).
  { unfold bind. destruct (getExpenseAccounts u o w) as [[a | e0] w1]; reflexivity. }
  rewrite Hw in Hin.
  pose proof (getExpenseAccounts_propagates w ev e Hin Hfail) as Hp.
  unfold bind. destruct (getExpenseAccounts u o w) as [[a | e0] w1]; simpl in *; congruence.
Qed.

Lemma report_default (ep : string) (w w1 : World) (data : value)
      (k : value -> M value) (fallback : value) :
  zohoBooksApiCall u o ep GET JUndefined w = (Ok data, w1) ->
  JS.truthy data = false ->
  (forall d w', JS.truthy d = false -> k d w' = (Ok fallback, w')) ->
  try_catch (d <- zohoBooksApiCall u o ep GET JUndefined ;; k d) (fun error => throw error) w
  = (Ok fallback, w1).
Proof.
  intros Hcall Hfalsy Hk. rewrite try_catch_rethrow. unfold bind. rewrite Hcall.
  apply Hk. exact Hfalsy.
Qed.

End Propagation.

(** * Scenarios *)

(** The raw array [[{amount: '12.50', vendor: 'Acme', date: '2024-01-05'}]]
    comes out as one canonical record; having no upstream identifier, it
    gets a synthesized one. *)
Example getExpenses_scenario :
  let raw := JObj [("amount", JStr "12.50"); ("vendor", JStr "Acme");
                   ("date", JStr "2024-01-05")] in
  fst (getExpenses "u1" "org1" None
         (Demo.world [] (Demo.succeed_with (JObj [("expenses", JArr [raw])]))))
  = Ok (JObj [("expenses",
               JArr [JObj [("expense_id", JStr "expense-0-1704412800000");
                           ("vendor_name", JStr "Acme");
                           ("vendor_id", JStr EmptyString);
                           ("amount", JNum (Num.Dec 125 (-1)));
                           ("status", JStr "nonbillable");
                           ("expense_date", JStr "2024-01-05");
                           ("reference_number", JStr EmptyString);
                           ("customer_name", JStr EmptyString);
                           ("paid_through", JStr EmptyString);
                           ("account_name", JStr EmptyString);
                           ("account_id", JStr EmptyString);
                           ("currency", JStr EmptyString)]])]).
Proof. vm_compute. reflexivity. Qed.

(** A record missing every optional property. *)
Example getExpenses_empty_record :
  fst (getExpenses "u1" "org1" None
         (Demo.world [] (Demo.succeed_with (JObj [("expenses", JArr [JObj []; JObj []])]))))
  = Ok (JObj [("expenses",
               JArr (map (fun id =>
                            JObj [("expense_id", JStr id);
                                  ("vendor_name", JStr "Unknown Vendor");
                                  ("vendor_id", JStr EmptyString);
                                  ("amount", JNum (Num.Dec 0 0));
                                  ("status", JStr "nonbillable");
                                  ("expense_date", JStr "2024-01-05");
                                  ("reference_number", JStr EmptyString);
                                  ("customer_name", JStr EmptyString);
                                  ("paid_through", JStr EmptyString);
                                  ("account_name", JStr EmptyString);
                                  ("account_id", JStr EmptyString);
                                  ("currency", JStr EmptyString)])
                         ["expense-0-1704412800000"; "expense-1-1704412800000"]))]).
Proof. vm_compute. reflexivity. Qed.

(** createExpense without account_id, the chart of accounts holding no
    expense account: the call is rejected and no expense is posted. *)
Example createExpense_no_expense_account :
  let chart := [JObj [("account_id", JStr "a1"); ("account_type", JStr "income")]] in
  let w := Demo.world []
             (Demo.by_endpoint [("/chartofaccounts", JObj [("chartofaccounts", JArr chart)]);
                                ("/expenses", JObj [])]) in
  let d := {| vendor_id := None; vendor_name := None; reference_number := None;
              account_id := None; expense_date := "2024-01-05"; total := Num.Dec 10 0;
              notes := None; attachments := None |} in
  fst (createExpense "u1" "org1" d w) = Err (Error no_expense_account)
  /\ map (fun req => JS.get req "endpoint")
         (api_requests (log (snd (createExpense "u1" "org1" d w))))
     = [JStr "/chartofaccounts"].
Proof. split; vm_compute; reflexivity. Qed.

(** The statuses the dispatcher maps, and one it does not. *)
Example zohoBooksApiCall_statuses :
  map (fun status =>
         fst (zohoBooksApiCall "u1" "org1" "/invoices/7" DELETE JUndefined
                (Demo.world [] (Demo.fail_with "upstream says no" status))))
      [403; 404; 400; 401; 500]
  = [Err (Error msg_403); Err (Error msg_404); Err (Error msg_400); Err (Error msg_401);
     Err (Error "upstream says no")].
Proof. vm_compute. reflexivity. Qed.

(** * Further properties of the client *)

(** ** Tokens *)

Lemma opt_get_truthy (v : value) (k : string) :
  JS.truthy (JS.opt_get v k) = true -> JS.opt_get v k = JS.get v k.
Proof.
  unfold JS.opt_get. destruct (JS.nullish v); [discriminate | reflexivity].
Qed.

Lemma refresh_result_Ok (data functionError v : value) :
  refresh_result data functionError = Ok v ->
  JS.truthy functionError = false
  /\ JS.truthy (JS.opt_get data "success") = true
  /\ v = JS.get data "accessToken"
  /\ JS.truthy v = true.
Proof.
  unfold refresh_result.
  destruct (JS.truthy functionError); [discriminate|].
  destruct (JS.truthy (JS.opt_get data "success")) eqn:Hs; [|discriminate].
  destruct (JS.truthy (JS.opt_get data "accessToken")) eqn:Ht; [|discriminate].
  simpl. intros [= <-]. rewrite <- (opt_get_truthy _ _ Ht). auto.
Qed.

(** X1. refreshZohoBooksToken invokes the refresh procedure exactly once,
    with the body [{userId}], and issues no other request.  A value it
    returns is the accessToken of the answer and is truthy.  An answer
    that comes with an error of the boundary is rejected with that error,
    rethrown as it is.  An answer that reports success without a token,
    or a token without success, is rejected with an Error whose message
    is the answer's error converted to a string, or 'Token refresh
    failed' when it has none; when that error does not convert to a
    string (an object with a toString property of its own), the call is
    rejected with the TypeError of the conversion. *)
Theorem refreshZohoBooksToken_contract (u : string) (w : World) :
  let data := fst (refresh_answer w u) in
  let functionError := snd (refresh_answer w u) in
  new_events w (snd (refreshZohoBooksToken u w))
  = [Invoke "zoho-token-refresh" (JS.object [("userId", JStr u)]) data functionError]
  /\ (forall v, fst (refreshZohoBooksToken u w) = Ok v ->
        v = JS.get data "accessToken" /\ JS.truthy v = true
        /\ JS.truthy functionError = false
        /\ JS.truthy (JS.opt_get data "success") = true)
  /\ (JS.truthy functionError = true ->
      fst (refreshZohoBooksToken u w) = Err (Thrown functionError))
  /\ (JS.truthy functionError = false ->
      JS.truthy (JS.opt_get data "success") = false
      \/ JS.truthy (JS.opt_get data "accessToken") = false ->
      fst (refreshZohoBooksToken u w)
      = Err (match JS.ToString (JS.or (JS.opt_get data "error")
                                      (JStr "Token refresh failed")) with
             | Some text => Error text
             | None => cannot_convert
             end)).
Proof.
  intros data functionError.
  destruct (refreshZohoBooksToken_run u w) as [Hres Hlog].
  fold data functionError in Hres, Hlog.
  split; [apply new_events_app; exact Hlog|].
  rewrite Hres. split; [| split].
  - intros v Hv. apply refresh_result_Ok in Hv. tauto.
  - intros He. unfold refresh_result. rewrite He. reflexivity.
  - intros He Hbad. unfold refresh_result. rewrite He.
    destruct Hbad as [-> | ->]; simpl; rewrite ?orb_true_r; reflexivity.
Qed.

(** Every way [getValidAccessToken] can go. *)
Lemma getValidAccessToken_cases (u : string) (w : World) :
  getValidAccessToken u w = (Err (Error "No Zoho Books integration found"), record w (Select u))
  /\ (JS.truthy (store_error w (log w)) = true
      \/ (forall r, records_of u w <> [r])
      \/ exists r, records_of u w = [r] /\ JS.truthy (column (access_token r)) = false)
  \/ exists r token,
       JS.truthy (store_error w (log w)) = false
       /\ records_of u w = [r] /\ access_token r = Some token /\ token <> EmptyString
       /\ getValidAccessToken u w =
          if Date.lt (expiry w r) (call_time w u)
          then refreshZohoBooksToken u (after_reads w u)
          else (Ok (JStr token), after_reads w u).
Proof.
  destruct (JS.truthy (store_error w (log w))) eqn:Hstore.
  { left. split; [|auto].
    unfold getValidAccessToken, bind, select_single. rewrite Hstore. simpl.
    rewrite Hstore. reflexivity. }
  unfold records_of.
  destruct (filter (of_user u) (rows w)) as [| r [| r' rest]] eqn:Hrows.
  - left. split; [| right; left; intros r; discriminate].
    unfold getValidAccessToken, bind, select_single. rewrite Hstore, Hrows. reflexivity.
  - destruct (access_token r) as [[| c token] |] eqn:Htok.
    + left. split; [| right; right; exists r; rewrite Htok; auto].
      unfold getValidAccessToken, bind, select_single. rewrite Hstore, Hrows, Htok.
      reflexivity.
    + right. exists r, (String c token).
      repeat (split; [assumption || discriminate || reflexivity|]).
      apply (getValidAccessToken_run u w r (String c token) Hstore Hrows Htok).
      discriminate.
    + left. split; [| right; right; exists r; rewrite Htok; auto].
      unfold getValidAccessToken, bind, select_single. rewrite Hstore, Hrows, Htok.
      reflexivity.
  - left. split; [| right; left; intros r0; discriminate].
    unfold getValidAccessToken, bind, select_single. rewrite Hstore, Hrows. reflexivity.
Qed.

(** X2. Whatever the store, the clock and the refresh procedure do, a
    token returned by getValidAccessToken is truthy: never null,
    undefined or the empty string. *)
Theorem getValidAccessToken_never_empty (u : string) (w : World) (v : value) :
  fst (getValidAccessToken u w) = Ok v -> JS.truthy v = true.
Proof.
  destruct (getValidAccessToken_cases u w) as [[-> _] | (r & token & _ & _ & _ & Hne & ->)].
  - discriminate.
  - destruct (Date.lt (expiry w r) (call_time w u)).
    + intros Hv. destruct (refreshZohoBooksToken_run u (after_reads w u)) as [Hres _].
      rewrite Hres in Hv. apply refresh_result_Ok in Hv. tauto.
    + simpl. intros [= <-]. destruct token; [congruence | reflexivity].
Qed.

Lemma getValidAccessToken_never_empty_witness :
  JS.truthy (JStr "fresh-token") = true.
Proof.
  apply (getValidAccessToken_never_empty "u1"
           (Demo.world [Demo.connected Demo.expired_stamp] (Demo.succeed_with JNull))).
  vm_compute. reflexivity.
Defined.

(** X3. When the store reports an error, or holds no record or several
    records for the user, or the record holds no access_token,
    getValidAccessToken rejects the call with 'No Zoho Books integration
    found' after its one read of the store: it neither reads the clock
    nor invokes the refresh procedure, and the store is as it was. *)
Theorem getValidAccessToken_rejects (u : string) (w : World) :
  JS.truthy (store_error w (log w)) = true
  \/ (forall r, records_of u w <> [r])
  \/ (exists r, records_of u w = [r] /\ JS.truthy (column (access_token r)) = false) ->
  fst (getValidAccessToken u w) = Err (Error "No Zoho Books integration found")
  /\ new_events w (snd (getValidAccessToken u w)) = [Select u]
  /\ rows (snd (getValidAccessToken u w)) = rows w.
Proof.
  intros Hbad.
  destruct (getValidAccessToken_cases u w)
    as [[-> _] | (r & token & Hstore & Hrow & Htok & Hne & _)].
  - split; [reflexivity|]. split; [|reflexivity].
    apply new_events_app. reflexivity.
  - exfalso. destruct Hbad as [H | [H | (r' & Hr' & H)]].
    + congruence.
    + exact (H r Hrow).
    + rewrite Hrow in Hr'. injection Hr' as <-. rewrite Htok in H.
      destruct token; [congruence | discriminate].
Qed.

Lemma getValidAccessToken_rejects_witness :
  let two := Demo.world [Demo.connected Demo.future_stamp; Demo.connected Demo.expired_stamp]
                        (Demo.succeed_with JNull) in
  fst (getValidAccessToken "u1" two) = Err (Error "No Zoho Books integration found")
  /\ new_events two (snd (getValidAccessToken "u1" two)) = [Select "u1"]
  /\ rows (snd (getValidAccessToken "u1" two)) = rows two.
Proof.
  intros two. apply (getValidAccessToken_rejects "u1" two).
  right. left. intros r. vm_compute. discriminate.
Defined.

(** X4. The expiry test at its edges, for a record with a token: a NULL
    token_expires_at counts as the epoch, so the token is refreshed as
    soon as the clock is past it; a token_expires_at the host cannot
    parse, or one equal to the current time, never triggers a refresh:
    the stored token is returned. *)
Theorem getValidAccessToken_expiry_edges
        (u : string) (w : World) (r : Integration) (token : string) :
  JS.truthy (store_error w (log w)) = false ->
  records_of u w = [r] ->
  access_token r = Some token -> token <> EmptyString ->
  (token_expires_at r = None -> 0 < call_time w u ->
     getValidAccessToken u w = refreshZohoBooksToken u (after_reads w u))
  /\ (expiry w r = None \/ expiry w r = Some (call_time w u) ->
      getValidAccessToken u w = (Ok (JStr token), after_reads w u)
      /\ refresh_calls (new_events w (after_reads w u)) = 0%nat).
Proof.
  intros Hstore Hrow Htok Hne.
  rewrite (getValidAccessToken_run u w r token Hstore Hrow Htok Hne).
  split.
  - intros Hnull Hpos. unfold expiry. rewrite Hnull. simpl.
    apply Z.ltb_lt in Hpos. rewrite Hpos. reflexivity.
  - intros Hedge. split.
    + destruct Hedge as [-> | ->]; simpl; [reflexivity|].
      rewrite Z.ltb_irrefl. reflexivity.
    + rewrite (new_events_app w _ _ (after_reads_log w u)). reflexivity.
Qed.

Lemma getValidAccessToken_expiry_edges_witness :
  let garbled := Demo.world [Demo.connected "next tuesday"] (Demo.succeed_with JNull) in
  getValidAccessToken "u1" garbled = (Ok (JStr "stored-token"), after_reads garbled "u1")
  /\ refresh_calls (new_events garbled (after_reads garbled "u1")) = 0%nat.
Proof.
  intros garbled.
  assert (Hne : "stored-token" <> EmptyString) by discriminate.
  apply (getValidAccessToken_expiry_edges "u1" garbled (Demo.connected "next tuesday")
           "stored-token" eq_refl eq_refl eq_refl Hne).
  left. reflexivity.
Defined.

(** ** The dispatcher *)

(** X5. zohoBooksApiCall resolves exactly when the boundary reports no
    error and the envelope's success is truthy, and then with the
    envelope's data as it is (undefined when the envelope has none).  An
    error of the boundary wins over whatever the envelope says: an Error
    is raised anew with the boundary's message converted to a string, or
    'Unknown error' when it has none; a message that does not convert to
    a string makes the TypeError of the conversion the error raised.
    Either way the call issues exactly one request. *)
Theorem zohoBooksApiCall_contract
        (u o ep : string) (m : Method) (b : value) (w : World) :
  let data := fst (answer w (api_request u o ep m b)) in
  let functionError := snd (answer w (api_request u o ep m b)) in
  new_events w (snd (zohoBooksApiCall u o ep m b w))
  = [Invoke "zoho-api-call" (api_request u o ep m b) data functionError]
  /\ (forall v, fst (zohoBooksApiCall u o ep m b w) = Ok v <->
                JS.truthy functionError = false
                /\ JS.truthy (JS.opt_get data "success") = true
                /\ v = JS.get data "data")
  /\ (JS.truthy functionError = true ->
      fst (zohoBooksApiCall u o ep m b w)
      = Err (match JS.ToString (JS.or (JS.opt_get functionError "message")
                                      (JStr "Unknown error")) with
             | Some text => Error text
             | None => cannot_convert
             end)).
Proof.
  intros data functionError.
  split; [apply zohoBooksApiCall_events|].
  rewrite zohoBooksApiCall_run. fold data functionError. simpl fst.
  unfold dispatch_result. split.
  - intros v. destruct (JS.truthy functionError).
    + split; [discriminate | intros [H _]; discriminate].
    + destruct (JS.truthy (JS.opt_get data "success")); simpl.
      * split; [intros [= <-]; auto | intros (_ & _ & ->); reflexivity].
      * split; [discriminate | intros (_ & H & _); discriminate].
  - intros ->. reflexivity.
Qed.

(** X6. For an unsuccessful envelope, the message of the error depends
    on the status alone when the status is 400, 401, 403 or 404: it is
    the dispatcher's fixed text for that status, whatever error the
    envelope carries, be it a serialized structured error with a message
    of its own.  When the status is none of these and the envelope's
    error is missing or empty, the message is 'API call failed'. *)
Theorem envelope_error_fixed_messages (data : value) :
  (forall n text,
     mapped_message n = Some text ->
     status_is (JS.opt_get data "status") n = true ->
     envelope_error data = Error text)
  /\ (status_is (JS.opt_get data "status") 403 = false ->
      status_is (JS.opt_get data "status") 404 = false ->
      status_is (JS.opt_get data "status") 400 = false ->
      status_is (JS.opt_get data "status") 401 = false ->
      JS.truthy (JS.opt_get data "error") = false ->
      envelope_error data = Error "API call failed").
Proof.
  split.
  - intros n text Hn Hst.
    destruct (envelope_error_mapped data) as (M3 & M4 & M1).
    unfold mapped_message in Hn.
    destruct (n =? 403) eqn:E3; [apply Z.eqb_eq in E3; subst; injection Hn as <-; auto|].
    destruct (n =? 404) eqn:E4; [apply Z.eqb_eq in E4; subst; injection Hn as <-; auto|].
    destruct (n =? 400) eqn:E0.
    + apply Z.eqb_eq in E0. subst. injection Hn as <-.
      destruct parsed_message_mapped as (_ & _ & P0 & _).
      unfold envelope_error. rewrite !status_is_default by tauto.
      rewrite (status_is_exclusive _ 400 403 Hst eq_refl),
        (status_is_exclusive _ 400 404 Hst eq_refl), Hst, P0.
      reflexivity.
    + destruct (n =? 401) eqn:E1; [|discriminate].
      apply Z.eqb_eq in E1. subst. injection Hn as <-. auto.
  - intros H3 H4 H0 H1 He. unfold envelope_error.
    rewrite !status_is_default by tauto. rewrite H3, H4, H0, H1.
    unfold JS.or. rewrite He. vm_compute. reflexivity.
Qed.

Lemma envelope_error_fixed_messages_witness :
  envelope_error (JObj [("success", JBool false);
                        ("error", JStr (Str.dq "{'message':'Quota exceeded'}"));
                        ("status", JS.num 400)])
  = Error msg_400.
Proof.
  apply (proj1 (envelope_error_fixed_messages _) 400 msg_400 eq_refl).
  vm_compute. reflexivity.
Defined.

(** ** One dispatch per operation *)

Section Traces.

Variables (u o : string).

Lemma events_dispatch_pure {A} (ep : string) (m : Method) (b : value)
      (k : value -> M A) (w : World) :
  (forall a w', snd (k a w') = w') ->
  new_events w (snd ((x <- zohoBooksApiCall u o ep m b ;; k x) w))
  = [Invoke "zoho-api-call" (api_request u o ep m b)
            (fst (answer w (api_request u o ep m b)))
            (snd (answer w (api_request u o ep m b)))].
Proof.
  intros Hpure. unfold bind. rewrite zohoBooksApiCall_run.
  destruct (dispatch_result _ _) as [a | e]; simpl snd; rewrite ?Hpure;
    apply new_events_app, dispatched_log.
Qed.

Lemma try_catch_world {A} (m : M A) (h : exn -> M A) (w : World) :
  (forall e w', snd (h e w') = w') -> snd (try_catch m h w) = snd (m w).
Proof.
  intros Hh. unfold try_catch. destruct (m w) as [[a | e] w']; simpl; auto.
Qed.

Lemma getExpenses_events (filters : option Filters) (w : World) :
  exists reads,
    new_events w (snd (getExpenses u o filters w))
    = (Invoke "zoho-api-call" (api_request u o (getExpenses_endpoint filters) GET JUndefined)
              (fst (answer w (api_request u o (getExpenses_endpoint filters) GET JUndefined)))
              (snd (answer w (api_request u o (getExpenses_endpoint filters) GET JUndefined)))
       :: map Now reads)%list.
Proof.
  unfold getExpenses. unfold bind at 1. rewrite zohoBooksApiCall_run.
  set (req := api_request u o (getExpenses_endpoint filters) GET JUndefined).
  destruct (dispatch_result _ _) as [data | e].
  - destruct (mapM_normalizeExpense_quiet (expenses_of data) 0 (dispatched w req))
      as (reads & Hlog).
    exists reads. apply new_events_app.
    unfold bind.
    destruct (mapM_index normalizeExpense 0 (expenses_of data) (dispatched w req))
      as [[out | e'] w2]; simpl in *; rewrite Hlog, dispatched_log, <- app_assoc; reflexivity.
  - exists []. apply new_events_app, dispatched_log.
Qed.

(** The events of an operation other than [createExpense]: its one
    dispatch, then the clock reads of the normalizer if any. *)
Lemma run_events (op : Operation) (w : World) :
  is_createExpense op = false ->
  exists reads,
    new_events w (snd (run u o op w))
    = (let '(ep, m, b) := request_of op in
       Invoke "zoho-api-call" (api_request u o ep m b)
              (fst (answer w (api_request u o ep m b)))
              (snd (answer w (api_request u o ep m b)))
       :: map Now reads)%list
    /\ (is_getExpenses op = false -> reads = []).
Proof.
  intros Hop.
  destruct op; try discriminate Hop; cbn [run request_of is_getExpenses];
    try (destruct (getExpenses_events filters w) as (reads & Hev);
         exists reads; split; [exact Hev | discriminate]);
    exists []; (split; [| reflexivity]); cbn [map];
    unfold getOrganizationDetails, getInvoices, getInvoice, createInvoice, updateInvoice,
      deleteInvoice, getCustomers, getCustomer, createCustomer, updateCustomer,
      deleteCustomer, getVendors, getVendor, createVendor, updateVendor, deleteVendor,
      getChartOfAccounts, getExpense, updateExpense, deleteExpense,
      getProfitAndLoss, getBalance, getCashFlow, getExpenseReport;
    rewrite ?try_catch_rethrow;
    try apply zohoBooksApiCall_events;
    try (apply events_dispatch_pure; intros a w';
         repeat match goal with
                | |- context [if ?c then _ else _] => destruct c
                end;
         unfold bind, lift, ret;
         try match goal with
             | |- context [minus ?x ?y] => destruct (minus x y)
             end;
         reflexivity).
  - (* getOrganizationDetails *)
    rewrite try_catch_world by reflexivity.
    apply events_dispatch_pure. reflexivity.
  - (* getExpenseAccounts *)
    assert (Hw : snd ((accounts <- getExpenseAccounts u o ;; ret (JArr accounts)) w)
                 = snd (getExpenseAccounts u o w)).
    { unfold bind. destruct (getExpenseAccounts u o w) as [[a | e0] w1]; reflexivity. }
    rewrite Hw, getExpenseAccounts_world. apply new_events_app, dispatched_log.
Qed.

(** The events of [createExpense]. *)
Lemma createExpense_events (d : ExpenseData) (w : World) :
  let post accountId w' :=
    Invoke "zoho-api-call"
           (api_request u o "/expenses" POST (JObj (expensePayload d accountId)))
           (fst (answer w' (api_request u o "/expenses" POST (JObj (expensePayload d accountId)))))
           (snd (answer w' (api_request u o "/expenses" POST (JObj (expensePayload d accountId))))) in
  let chart :=
    Invoke "zoho-api-call" (api_request u o "/chartofaccounts" GET JUndefined)
           (fst (answer w (api_request u o "/chartofaccounts" GET JUndefined)))
           (snd (answer w (api_request u o "/chartofaccounts" GET JUndefined))) in
  if JS.truthy (optional (account_id d))
  then new_events w (snd (createExpense u o d w)) = [post (optional (account_id d)) w]
  else new_events w (snd (createExpense u o d w)) = [chart]
       \/ exists accountId w1,
            new_events w (snd (createExpense u o d w)) = [chart; post accountId w1].
Proof.
  intros post chart.
  destruct (JS.truthy (optional (account_id d))) eqn:Hacc.
  - rewrite (createExpense_with_account u o d w Hacc). apply zohoBooksApiCall_events.
  - pose proof (getExpenseAccounts_world u o w) as Hw.
    destruct (getExpenseAccounts u o w) as [[accounts | e0] w1] eqn:Hget; simpl in Hw.
    + rewrite (createExpense_with_accounts u o d w w1 accounts Hacc Hget).
      destruct accounts as [| selectedAccount rest];
        [| destruct (account_converts selectedAccount);
           [| left; simpl snd; rewrite Hw; apply new_events_app, dispatched_log]].
      * left. simpl snd. rewrite Hw. apply new_events_app, dispatched_log.
      * right. exists (JS.get selectedAccount "account_id"), w1.
        rewrite zohoBooksApiCall_run. simpl snd. apply new_events_app.
        rewrite dispatched_log. rewrite Hw at 1. rewrite dispatched_log, <- app_assoc.
        reflexivity.
    + left. rewrite (createExpense_accounts_failure u o d w w1 e0 Hacc Hget).
      simpl snd. rewrite Hw. apply new_events_app, dispatched_log.
Qed.

Lemma api_requests_Now (reads : list Z) : api_requests (map Now reads) = [].
Proof. induction reads; simpl; auto. Qed.

(** X7. No retry, no fan-out: every operation of the client other than
    createExpense dispatches exactly one request, whether the call
    succeeds or fails, and that request is the one of the routing table
    [request_of], issued for the caller's user and organization. *)
Theorem run_dispatches_once (op : Operation) (w : World) :
  is_createExpense op = false ->
  api_requests (new_events w (snd (run u o op w)))
  = [let '(ep, m, b) := request_of op in api_request u o ep m b].
Proof.
  intros Hop. destruct (run_events op w Hop) as (reads & Hev & _).
  rewrite Hev. destruct (request_of op) as [[ep m] b].
  cbn [api_requests]. simpl String.eqb. cbv iota. rewrite api_requests_Now. reflexivity.
Qed.

(** X8. createExpense with an account_id dispatches one request, the
    creation, and never fetches the chart of accounts.  Without one, its
    first request is the fetch of the chart; at most one more follows,
    and it is a creation on the account picked from the chart. *)
Theorem createExpense_dispatches (d : ExpenseData) (w : World) :
  (JS.truthy (optional (account_id d)) = true ->
     api_requests (new_events w (snd (createExpense u o d w)))
     = [api_request u o "/expenses" POST
          (JObj (expensePayload d (optional (account_id d))))])
  /\ (JS.truthy (optional (account_id d)) = false ->
      api_requests (new_events w (snd (createExpense u o d w)))
      = [api_request u o "/chartofaccounts" GET JUndefined]
      \/ exists accountId,
           api_requests (new_events w (snd (createExpense u o d w)))
           = [api_request u o "/chartofaccounts" GET JUndefined;
              api_request u o "/expenses" POST (JObj (expensePayload d accountId))]).
Proof.
  pose proof (createExpense_events d w) as H. cbv zeta in H.
  split; intros Hacc; rewrite Hacc in H.
  - rewrite H. reflexivity.
  - destruct H as [-> | (accountId & w1 & ->)]; [left; reflexivity|].
    right. exists accountId. reflexivity.
Qed.

(** X9. The resource operations leave the record store to the boundary:
    none of them reads or writes the table of integrations, and none but
    getExpenses (whose normalizer needs the date) reads the clock. *)
Theorem run_leaves_store_alone (op : Operation) (w : World) (ev : event) :
  In ev (new_events w (snd (run u o op w))) ->
  is_store_event ev = false
  /\ (is_getExpenses op = false -> is_dispatch ev = true).
Proof.
  destruct (is_createExpense op) eqn:Hop.
  - destruct op; try discriminate Hop. cbn [run is_getExpenses].
    pose proof (createExpense_events expenseData w) as H. cbv zeta in H.
    destruct (JS.truthy (optional (account_id expenseData))).
    + rewrite H. intros [<- | []]. split; reflexivity.
    + destruct H as [-> | (accountId & w1 & ->)].
      * intros [<- | []]. split; reflexivity.
      * intros [<- | [<- | []]]; split; reflexivity.
  - destruct (run_events op w Hop) as (reads & Hev & Hreads).
    rewrite Hev. destruct (request_of op) as [[ep m] b].
    intros [<- | Hin].
    + split; reflexivity.
    + split.
      * apply in_map_iff in Hin as (t & <- & _). reflexivity.
      * intros Hge. rewrite (Hreads Hge) in Hin. destruct Hin.
Qed.

End Traces.

Lemma run_dispatches_once_witness :
  api_requests
    (new_events (Demo.world [] (Demo.fail_with "gone" 404))
       (snd (run "u1" "org1" (DeleteInvoice "inv-7")
                 (Demo.world [] (Demo.fail_with "gone" 404)))))
  = [api_request "u1" "org1" "/invoices/inv-7" DELETE JUndefined].
Proof.
  exact (run_dispatches_once "u1" "org1" (DeleteInvoice "inv-7")
           (Demo.world [] (Demo.fail_with "gone" 404)) eq_refl).
Defined.

Lemma run_leaves_store_alone_witness :
  let w := Demo.world [Demo.connected Demo.future_stamp]
                      (Demo.succeed_with (JObj [("expenses", JArr [JObj []])])) in
  is_store_event (Now Demo.today) = false
  /\ (is_getExpenses (GetExpenses None) = false -> is_dispatch (Now Demo.today) = true).
Proof.
  intros w.
  apply (run_leaves_store_alone "u1" "org1" (GetExpenses None) w (Now Demo.today)).
  vm_compute. right. left. reflexivity.
Defined.

(** ** Organization *)

Lemma or_truthy (a b : value) : JS.truthy b = true -> JS.truthy (JS.or a b) = true.
Proof. unfold JS.or. destruct (JS.truthy a) eqn:E; auto. Qed.

(** X10. getOrganizationDetails never fails: whatever the boundary
    answers, it returns an object with exactly the properties
    currency_code and currency_symbol, both truthy.  After a successful
    call each is the organization's own value when that is truthy, and
    'USD' (respectively '$') otherwise, the two being defaulted
    independently; after a failed call they are 'USD' and '$'. *)
Theorem getOrganizationDetails_total (u o : string) (w : World) :
  exists code symbol,
    fst (getOrganizationDetails u o w)
    = Ok (JObj [("currency_code", code); ("currency_symbol", symbol)])
    /\ JS.truthy code = true /\ JS.truthy symbol = true
    /\ (forall data w1,
          zohoBooksApiCall u o "/organization" GET JUndefined w = (Ok data, w1) ->
          code = JS.or (JS.opt_get (JS.opt_get data "organization") "currency_code") (JStr "USD")
          /\ symbol = JS.or (JS.opt_get (JS.opt_get data "organization") "currency_symbol")
                            (JStr "$"))
    /\ (forall e w1,
          zohoBooksApiCall u o "/organization" GET JUndefined w = (Err e, w1) ->
          code = JStr "USD" /\ symbol = JStr "$").
Proof.
  unfold getOrganizationDetails, try_catch, bind.
  destruct (zohoBooksApiCall u o "/organization" GET JUndefined w) as [[data | e] w1].
  - eexists _, _. split; [reflexivity|].
    split; [apply or_truthy; reflexivity|].
    split; [apply or_truthy; reflexivity|].
    split; [intros d' w' [= <- <-]; split; reflexivity | intros e w' [=]].
  - exists (JStr "USD"), (JStr "$"). split; [reflexivity|].
    repeat split; try reflexivity; discriminate.
Qed.

(** X11. getOrganizationId invokes the zoho-get-organization procedure
    exactly once.  A value it returns is the organizationId of the answer
    and is truthy; an error of the boundary is rethrown as it is, and an
    answer without success or without organizationId is rejected with an
    Error whose message is the answer's error converted to a string, or
    'Failed to fetch organization' when it has none; when that error
    does not convert to a string, the call is rejected with the
    TypeError of the conversion. *)
Theorem getOrganizationId_contract (u : string) (w : World) :
  let data := fst (organization_answer w u) in
  let functionError := snd (organization_answer w u) in
  new_events w (snd (getOrganizationId u w))
  = [Invoke "zoho-get-organization" (JS.object [("userId", JStr u)]) data functionError]
  /\ (forall v, fst (getOrganizationId u w) = Ok v ->
        v = JS.get data "organizationId" /\ JS.truthy v = true)
  /\ (JS.truthy functionError = true ->
      fst (getOrganizationId u w) = Err (Thrown functionError))
  /\ (JS.truthy functionError = false ->
      JS.truthy (JS.opt_get data "success") = false
      \/ JS.truthy (JS.opt_get data "organizationId") = false ->
      fst (getOrganizationId u w)
      = Err (match JS.ToString (JS.or (JS.opt_get data "error")
                                      (JStr "Failed to fetch organization")) with
             | Some text => Error text
             | None => cannot_convert
             end)).
Proof.
  intros data functionError. unfold data, functionError, organization_answer.
  unfold getOrganizationId. rewrite try_catch_rethrow.
  unfold bind, functions_invoke.
  destruct (edge w (log w) (rows w) "zoho-get-organization" (JS.object [("userId", JStr u)]))
    as [[d e] rs]; simpl fst; simpl snd.
  destruct (JS.truthy e) eqn:He.
  { split; [apply new_events_app; reflexivity|].
    split; [discriminate|]. split; [reflexivity | discriminate]. }
  destruct (JS.truthy (JS.opt_get d "success")) eqn:Hs;
    destruct (JS.truthy (JS.opt_get d "organizationId")) eqn:Ho; simpl;
    (split; [apply new_events_app; reflexivity|]);
    (split; [| split; [discriminate|]]);
    try discriminate; try (intros _ _; reflexivity).
  - intros v [= <-]. rewrite <- (opt_get_truthy _ _ Ho). auto.
  - intros _ [H | H]; discriminate.
Qed.

(** ** Query strings *)

(** X12. Absent filters are omitted from the query string entirely: when
    no filter is set, getInvoices and getExpenses dispatch the bare
    endpoints '/invoices' and '/expenses', without a question mark, and
    getCustomers and getVendors dispatch '/contacts' with the
    contact_type discriminator as the only parameter. *)
Theorem endpoints_without_filters (filters : option Filters) :
  filters_empty filters = true ->
  getInvoices_endpoint filters = "/invoices"
  /\ getExpenses_endpoint filters = "/expenses"
  /\ getCustomers_endpoint filters = "/contacts?contact_type=customer"
  /\ getVendors_endpoint filters = "/contacts?contact_type=vendor".
Proof.
  destruct filters as [[st lim off] |]; [| repeat split].
  unfold filters_empty. cbn [status limit offset].
  intros H. apply andb_true_iff in H as [H Hoff]. apply andb_true_iff in H as [Hst Hlim].
  apply negb_true_iff in Hst, Hlim, Hoff.
  unfold getInvoices_endpoint, getExpenses_endpoint, getCustomers_endpoint,
    getVendors_endpoint, set_status, set_limit, set_offset.
  destruct st as [s |]; destruct lim as [n |]; destruct off as [k |];
    cbn [optional] in Hst; rewrite ?Hst, ?Hlim, ?Hoff; repeat split.
Qed.

Lemma endpoints_without_filters_witness :
  let filters := Some {| status := Some EmptyString; limit := Some (Num.Dec 0 0);
                         offset := Some Num.NaN |} in
  getInvoices_endpoint filters = "/invoices"
  /\ getExpenses_endpoint filters = "/expenses"
  /\ getCustomers_endpoint filters = "/contacts?contact_type=customer"
  /\ getVendors_endpoint filters = "/contacts?contact_type=vendor".
Proof.
  intros filters. apply (endpoints_without_filters filters). reflexivity.
Defined.

Lemma set_fresh (k v : string) (p : URLSearchParams.t) :
  Forall (fun kv => String.eqb k (fst kv) = false) p ->
  URLSearchParams.set k v p = (p ++ [(k, v)])%list.
Proof.
  induction 1 as [| [k' v'] r Hk _ IH]; simpl; [reflexivity|].
  simpl in Hk. rewrite Hk, IH. reflexivity.
Qed.

Lemma set_keys (k v : string) (p : URLSearchParams.t) (P : string -> Prop) :
  P k -> Forall (fun kv => P (fst kv)) p ->
  Forall (fun kv => P (fst kv)) (URLSearchParams.set k v p).
Proof.
  intros Hk. induction 1 as [| [k' v'] r Hk' Hr IH]; simpl.
  - constructor; auto.
  - destruct (String.eqb k k').
    + constructor; [exact Hk|].
      apply Forall_forall. intros kv Hin. apply filter_In in Hin as [Hin _].
      revert kv Hin. apply Forall_forall. exact Hr.
    + constructor; auto.
Qed.

Lemma filter_keys (filters : option Filters) :
  let P := fun k => String.eqb "contact_type" k = false in
  Forall (fun kv => P (fst kv))
         (set_status filters (set_offset filters (set_limit filters URLSearchParams.empty))).
Proof.
  intros P.
  assert (H0 : Forall (fun kv : string * string => P (fst kv)) URLSearchParams.empty)
    by constructor.
  assert (H1 : Forall (fun kv => P (fst kv)) (set_limit filters URLSearchParams.empty)).
  { unfold set_limit. destruct filters as [[st [n|] off] |]; auto.
    destruct (JS.truthy (JNum n)); auto. apply set_keys; [reflexivity | exact H0]. }
  assert (H2 : Forall (fun kv => P (fst kv))
                      (set_offset filters (set_limit filters URLSearchParams.empty))).
  { unfold set_offset at 1. destruct filters as [[st lim [n|]] |]; auto.
    destruct (JS.truthy (JNum n)); auto. apply set_keys; [reflexivity | exact H1]. }
  unfold set_status at 1. destruct filters as [[[s|] lim off] |]; auto.
  destruct (JS.truthy (JStr s)); auto. apply set_keys; [reflexivity | exact H2].
Qed.

Lemma string_app_assoc (a b c : string) : ((a ++ b) ++ c)%string = (a ++ b ++ c)%string.
Proof. induction a as [| x a IH]; simpl; [reflexivity | rewrite IH; reflexivity]. Qed.

Lemma join_snoc (sep : string) (l : list string) (x : string) :
  Str.join sep (l ++ [x])
  = ((match l with [] => EmptyString | _ => Str.join sep l ++ sep end) ++ x)%string.
Proof.
  induction l as [| a r IH]; [reflexivity|].
  destruct r as [| b r'].
  - simpl. rewrite string_app_assoc. reflexivity.
  - change (Str.join sep ((a :: b :: r') ++ [x]))
      with ((a ++ sep ++ Str.join sep ((b :: r') ++ [x]))%string).
    rewrite IH.
    change (Str.join sep (a :: b :: r')) with ((a ++ sep ++ Str.join sep (b :: r'))%string).
    rewrite !string_app_assoc. reflexivity.
Qed.

Lemma contact_params (filters : option Filters) :
  set_status filters (set_offset filters (set_limit filters URLSearchParams.empty))
  = caller_params filters.
Proof.
  destruct filters as [[st lim off] |]; [| reflexivity].
  unfold set_status, set_offset, set_limit, caller_params. cbn [status limit offset].
  destruct lim as [n |]; [destruct (JS.truthy (JNum n)) |];
    (destruct off as [k |]; [destruct (JS.truthy (JNum k)) |]);
    (destruct st as [s |]; [destruct (JS.truthy (JStr s)) |]);
    reflexivity.
Qed.

Lemma caller_keys (filters : option Filters) :
  Forall (fun kv => fst kv = "limit" \/ fst kv = "offset" \/ fst kv = "status")
         (caller_params filters).
Proof.
  destruct filters as [[st lim off] |]; [| constructor].
  unfold caller_params. cbn [status limit offset].
  repeat (apply Forall_app; split);
    [destruct lim as [n |]; [destruct (JS.truthy (JNum n)) |]
    | destruct off as [k |]; [destruct (JS.truthy (JNum k)) |]
    | destruct st as [s |]; [destruct (JS.truthy (JStr s)) |]];
    try apply Forall_nil; (apply Forall_cons; [simpl; auto | apply Forall_nil]).
Qed.

Lemma toString_snoc_truthy (p : URLSearchParams.t) (k v : string) :
  k <> EmptyString ->
  Forall (fun kv => fst kv = "limit" \/ fst kv = "offset" \/ fst kv = "status") p ->
  JS.truthy (JStr (URLSearchParams.toString (p ++ [(k, v)])%list)) = true.
Proof.
  intros Hk Hp. unfold URLSearchParams.toString.
  destruct Hp as [| [k' v'] r Hkey _].
  - destruct k as [| c k]; [congruence|]. cbn [app map fst snd Str.join URLSearchParams.encode].
    destruct (URLSearchParams.is_unreserved c); [reflexivity|].
    destruct (Ascii.eqb c " "); reflexivity.
  - cbn [app map fst snd]. simpl in Hkey.
    destruct (map _ (r ++ [(k, v)])%list) eqn:Hm.
    + destruct r; discriminate Hm.
    + destruct Hkey as [-> | [-> | ->]]; reflexivity.
Qed.

(** X13. Whatever filters the caller passes, the endpoint of getCustomers
    is '/contacts?' followed by the serialized query of the caller's
    parameters (limit, offset and status, in this order, each only when
    it is present and truthy) and, last, of the pair contact_type =
    customer; the endpoint of getVendors is the same with contact_type =
    vendor.  The discriminator is sent whatever the filters are, as the
    last parameter, and nothing else is sent. *)
Theorem contacts_endpoints_discriminate (filters : option Filters) :
  getCustomers_endpoint filters
  = "/contacts?"
    ++ URLSearchParams.toString (caller_params filters ++ [("contact_type", "customer")])%list
  /\ getVendors_endpoint filters
     = "/contacts?"
       ++ URLSearchParams.toString (caller_params filters ++ [("contact_type", "vendor")])%list.
Proof.
  unfold getCustomers_endpoint, getVendors_endpoint. cbv zeta.
  rewrite (contact_params filters).
  assert (Hfresh : Forall (fun kv => String.eqb "contact_type" (fst kv) = false)
                          (caller_params filters)).
  { eapply Forall_impl; [| apply caller_keys].
    intros [k v] [H | [H | H]]; simpl in H; subst k; reflexivity. }
  rewrite !(set_fresh _ _ _ Hfresh). unfold with_query.
  assert (Hk : "contact_type" <> EmptyString) by discriminate.
  rewrite !(toString_snoc_truthy _ _ _ Hk (caller_keys filters)).
  split; reflexivity.
Qed.

(** ** Expenses *)

(** X14. When the dispatcher answers getExpenses with data whose expenses
    property is missing or is not an array, getExpenses returns the data
    with an empty expenses array: it does not fail, and the normalizer
    does not run (the clock is not read). *)
Theorem getExpenses_without_array
        (u o : string) (filters : option Filters) (w w1 : World) (data : value) :
  zohoBooksApiCall u o (getExpenses_endpoint filters) GET JUndefined w = (Ok data, w1) ->
  JS.isArray (JS.opt_get data "expenses") = false ->
  getExpenses u o filters w = (Ok (JS.spread_with data "expenses" (JArr [])), w1)
  /\ JS.get (JS.spread_with data "expenses" (JArr [])) "expenses" = JArr [].
Proof.
  intros Hcall Hshape. split; [| apply get_spread_with].
  unfold getExpenses, bind. rewrite Hcall.
  assert (He : expenses_of data = []).
  { unfold expenses_of, JS.or.
    destruct (JS.truthy (JS.opt_get data "expenses")); [| reflexivity].
    destruct (JS.opt_get data "expenses"); try reflexivity. discriminate. }
  rewrite He. reflexivity.
Qed.

Lemma getExpenses_without_array_witness :
  let data := JObj [("expenses", JObj [("message", JStr "none")]); ("code", JS.num 0)] in
  let w := Demo.world [] (Demo.succeed_with data) in
  getExpenses "u1" "org1" None w
  = (Ok (JS.spread_with data "expenses" (JArr [])),
     dispatched w (api_request "u1" "org1" "/expenses" GET JUndefined))
  /\ JS.get (JS.spread_with data "expenses" (JArr [])) "expenses" = JArr [].
Proof.
  intros data w.
  apply (getExpenses_without_array "u1" "org1" None w); [| reflexivity].
  rewrite zohoBooksApiCall_run. reflexivity.
Defined.

(** ** The canonical expense record *)

Lemma or_string_not_nullish (a : value) (s : string) : JS.nullish (JS.or a (JStr s)) = false.
Proof.
  unfold JS.or. destruct (JS.truthy a) eqn:E; [| reflexivity].
  destruct a; try reflexivity; discriminate.
Qed.

Lemma expense_account_not_nullish (expense account_name account_id : value) :
  expense_account expense = Ok (account_name, account_id) ->
  JS.nullish account_name = false /\ JS.nullish account_id = false.
Proof.
  unfold expense_account.
  assert (A : forall first : result (value * value),
             (forall n i, first = Ok (n, i) -> JS.nullish n = false /\ JS.nullish i = false) ->
             and_then first
               (fun '(account_name, account_id) =>
                  if JS.truthy (JS.get expense "account_id") && negb (JS.truthy account_id)
                  then and_then (String_trim (JS.get expense "account_id"))
                                (fun account_id => Ok (account_name, JStr account_id))
                  else Ok (account_name, account_id))
             = Ok (account_name, account_id) ->
             JS.nullish account_name = false /\ JS.nullish account_id = false).
  { intros [[n i] | e] Hfirst; [| discriminate]. cbn [and_then].
    destruct (Hfirst n i eq_refl) as [Hn Hi].
    destruct (JS.truthy (JS.get expense "account_id") && negb (JS.truthy i)).
    - destruct (String_trim (JS.get expense "account_id")); [| discriminate].
      cbn [and_then]. intros [= <- <-]. split; [exact Hn | reflexivity].
    - intros [= <- <-]. split; assumption. }
  apply A. intros n i.
  destruct (JS.truthy (JS.get expense "account")).
  - destruct (JS.typeof_object (JS.get expense "account")).
    + intros [= <- <-]. split; apply or_string_not_nullish.
    + destruct (String_trim (JS.get expense "account")); [| discriminate].
      cbn [and_then]. intros [= <- <-]. split; reflexivity.
  - intros [= <- <-]. split; reflexivity.
Qed.

(** X15. One canonical shape, whatever the raw record holds: for a
    readable raw record (neither null nor undefined, the properties the
    normalizer converts to a string converting) the normalizer returns an
    object with exactly the twelve properties of [canonical_keys], in
    that order; expense_id, vendor_name, vendor_id, status and
    expense_date are strings, amount is a number other than NaN, and no
    property is null or undefined. *)
Theorem normalizeExpense_shape (expense : value) (index : nat) (w : World) :
  readable expense = true ->
  exists r,
    fst (normalizeExpense expense index w) = Ok r
    /\ keys r = canonical_keys
    /\ (forall k, In k ["expense_id"; "vendor_name"; "vendor_id"; "status"; "expense_date"] ->
                  exists s, JS.get r k = JStr s)
    /\ (exists x, JS.get r "amount" = JNum x /\ Num.isNaN x = false)
    /\ (forall k, In k canonical_keys -> JS.nullish (JS.get r k) = false).
Proof.
  intros Hr.
  destruct (normalizeExpense_readable expense index w Hr) as (r & w' & Hrun).
  destruct (normalizeExpense_Ok expense index w w' r Hrun)
    as (_ & -> & _ & (name & Hname) & (amount & Hamount) & _ & _
        & ([account_name account_id] & Hacc) & _).
  eexists. split; [rewrite Hrun; reflexivity|]. split; [reflexivity|].
  destruct (expense_vendor_name_spec expense name Hname) as (vn & Hvn & _).
  destruct (expense_amount_number expense amount Hamount) as (x & -> & Hnan).
  destruct (expense_account_not_nullish expense _ _ Hacc) as [Han Hai].
  assert (Hstr : forall k, In k ["expense_id"; "vendor_name"; "vendor_id"; "status";
                                  "expense_date"] ->
                 exists s, JS.get (normalized_record expense index (clock w (log w))
                                     (clock w (log w ++ [Now (clock w (log w))])%list)) k
                           = JStr s).
  { intros k Hk. simpl in Hk.
    destruct Hk as [<- | [<- | [<- | [<- | [<- | []]]]]];
      try (eexists; reflexivity).
    exists vn. unfold normalized_record. rewrite Hname. exact Hvn. }
  split; [exact Hstr|].
  split; [exists x; unfold normalized_record; rewrite Hamount; split; [reflexivity | exact Hnan]|].
  intros k Hk. simpl in Hk.
  destruct Hk as [<- | [<- | [<- | [<- | [<- | [<- | [<- | [<- | [<- | [<- | [<- | [<- | []]]]]]]]]]]]];
    try (destruct (Hstr _ ltac:(simpl; tauto)) as [s ->]; reflexivity);
    try (apply or_string_not_nullish);
    unfold normalized_record; rewrite ?Hamount, ?Hacc; try assumption; reflexivity.
Qed.

Lemma normalizeExpense_shape_witness :
  exists r,
    fst (normalizeExpense (JObj [("vendor", JS.num 7); ("account", JStr " Travel ")]) 3
                          (Demo.world [] (Demo.succeed_with JNull)))
    = Ok r
    /\ keys r = canonical_keys
    /\ (forall k, In k ["expense_id"; "vendor_name"; "vendor_id"; "status"; "expense_date"] ->
                  exists s, JS.get r k = JStr s)
    /\ (exists x, JS.get r "amount" = JNum x /\ Num.isNaN x = false)
    /\ (forall k, In k canonical_keys -> JS.nullish (JS.get r k) = false).
Proof.
  apply (normalizeExpense_shape (JObj [("vendor", JS.num 7); ("account", JStr " Travel ")]) 3
           (Demo.world [] (Demo.succeed_with JNull))).
  reflexivity.
Defined.

(** X16. The instability of the normalizer is confined to its two
    fallbacks.  Normalizing the same raw record at another position, in
    another world, at another time gives a record that agrees on the ten
    properties of [stable_keys]; it agrees on expense_id too when the raw
    record has an upstream identifier, and on expense_date when the raw
    record carries a date. *)
Theorem normalizeExpense_stable
        (expense : value) (i j : nat) (w w' : World) (r r' : value) :
  JS.nullish expense = false ->
  fst (normalizeExpense expense i w) = Ok r ->
  fst (normalizeExpense expense j w') = Ok r' ->
  (forall k, In k stable_keys -> JS.get r k = JS.get r' k)
  /\ (upstream_id expense <> None -> JS.get r "expense_id" = JS.get r' "expense_id")
  /\ (has_date expense = true -> JS.get r "expense_date" = JS.get r' "expense_date").
Proof.
  intros Hnn Hr Hr'.
  destruct (normalizeExpense expense i w) as [res wi] eqn:Ei.
  destruct (normalizeExpense expense j w') as [res' wj] eqn:Ej.
  cbn [fst] in Hr, Hr'. subst res res'.
  destruct (normalizeExpense_Ok expense i w wi r Ei)
    as (_ & -> & _ & _ & _ & (date & Hdate) & _).
  destruct (normalizeExpense_Ok expense j w' wj r' Ej)
    as (_ & -> & _ & _ & _ & (date' & Hdate') & _).
  split; [| split].
  - intros k Hk. simpl in Hk.
    destruct Hk as [<- | [<- | [<- | [<- | [<- | [<- | [<- | [<- | [<- | [<- | []]]]]]]]]]];
      reflexivity.
  - intros Hid. unfold normalized_record.
    destruct (upstream_id expense); [reflexivity | congruence].
  - intros Hd. unfold normalized_record. cbn [JS.get JS.assoc String.eqb Ascii.eqb Bool.eqb].
    rewrite Hdate, Hdate'. cbn [value_or]. f_equal.
    unfold has_date in Hd. unfold expense_expense_date in Hdate, Hdate'.
    destruct (has_text (JS.get expense "expense_date")) as [[|] | e];
      cbn [and_then] in Hdate, Hdate'; try discriminate; try congruence.
    destruct (has_text (JS.get expense "date")) as [[|] | e];
      cbn [and_then] in Hdate, Hdate'; try discriminate; try congruence.
Qed.

Lemma normalizeExpense_stable_witness :
  (forall k, In k stable_keys ->
             JS.get (normalized_record (JObj [("id", JS.num 42); ("amount", JStr "3.5")])
                                       0 Demo.today Demo.today) k
             = JS.get (normalized_record (JObj [("id", JS.num 42); ("amount", JStr "3.5")])
                                         9 Demo.today Demo.today) k)
  /\ (upstream_id (JObj [("id", JS.num 42); ("amount", JStr "3.5")]) <> None ->
      JS.get (normalized_record (JObj [("id", JS.num 42); ("amount", JStr "3.5")])
                                0 Demo.today Demo.today) "expense_id"
      = JS.get (normalized_record (JObj [("id", JS.num 42); ("amount", JStr "3.5")])
                                  9 Demo.today Demo.today) "expense_id")
  /\ (has_date (JObj [("id", JS.num 42); ("amount", JStr "3.5")]) = true ->
      JS.get (normalized_record (JObj [("id", JS.num 42); ("amount", JStr "3.5")])
                                0 Demo.today Demo.today) "expense_date"
      = JS.get (normalized_record (JObj [("id", JS.num 42); ("amount", JStr "3.5")])
                                  9 Demo.today Demo.today) "expense_date").
Proof.
  apply (normalizeExpense_stable (JObj [("id", JS.num 42); ("amount", JStr "3.5")]) 0 9
           (Demo.world [] (Demo.succeed_with JNull))
           (Demo.world [Demo.connected Demo.future_stamp] (Demo.fail_with "down" 500))).
  - reflexivity.
  - vm_compute. reflexivity.
  - vm_compute. reflexivity.
Defined.

(** ** Synthesized identifiers *)

Lemma string_of_uint_hyphen_free (d : Decimal.uint) :
  hyphen_free (NilEmpty.string_of_uint d) = true.
Proof. induction d; simpl; auto. Qed.

Lemma of_nat_hyphen_free (n : nat) : hyphen_free (Str.of_nat n) = true.
Proof.
  unfold Str.of_nat, Str.of_N, NilZero.string_of_uint.
  destruct (N.to_uint (N.of_nat n)) eqn:E; try reflexivity;
    rewrite <- E; apply string_of_uint_hyphen_free.
Qed.

Lemma to_uint_not_Nil (n : N) : N.to_uint n <> Decimal.Nil.
Proof. destruct n; [discriminate | apply DecimalPos.Unsigned.to_uint_nonnil]. Qed.

Lemma of_nat_inj (n m : nat) : Str.of_nat n = Str.of_nat m -> n = m.
Proof.
  unfold Str.of_nat, Str.of_N. intros H.
  apply Nat2Z.inj. rewrite <- !nat_N_Z. f_equal. apply DecimalN.Unsigned.to_uint_inj.
  pose proof (NilZero.usu _ (to_uint_not_Nil (N.of_nat n))) as Hn.
  pose proof (NilZero.usu _ (to_uint_not_Nil (N.of_nat m))) as Hm.
  rewrite H in Hn. rewrite Hn in Hm. injection Hm as E. exact E.
Qed.

(** Two texts that agree up to their first hyphen agree before it. *)
Lemma hyphen_split (a b x y : string) :
  hyphen_free a = true -> hyphen_free b = true ->
  (a ++ String "-" x)%string = (b ++ String "-" y)%string -> a = b.
Proof.
  revert b. induction a as [| c a IH]; intros [| d b] Ha Hb H; simpl in *.
  - reflexivity.
  - injection H as Hc _. subst d. simpl in Hb. discriminate.
  - injection H as Hc _. subst c. simpl in Ha. discriminate.
  - injection H as -> H.
    apply andb_true_iff in Ha as [_ Ha]. apply andb_true_iff in Hb as [_ Hb].
    f_equal. apply IH; assumption.
Qed.

(** The records of the map, position by position. *)
Lemma mapM_normalizeExpense_records (expenses : list value) :
  Forall (fun expense => readable expense = true) expenses ->
  forall (start : nat) (w : World),
  exists out w',
    mapM_index normalizeExpense start expenses w = (Ok out, w')
    /\ List.length out = List.length expenses
    /\ forall n expense,
         nth_error expenses n = Some expense ->
         exists t t', nth_error out n = Some (normalized_record expense (start + n) t t').
Proof.
  induction 1 as [| expense expenses Hnn _ IH]; intros start w.
  - exists [], w. split; [reflexivity|]. split; [reflexivity|].
    intros [| n] e; discriminate.
  - destruct (normalizeExpense_readable expense start w Hnn) as (r & w1 & Hrun).
    destruct (normalizeExpense_Ok expense start w w1 r Hrun) as (_ & Hr & _).
    destruct (IH (S start) w1) as (out & w' & Hmap & Hlen & Hout).
    exists (r :: out), w'. split; [| split].
    + cbn [mapM_index]. unfold bind at 1. rewrite Hrun.
      unfold bind at 1. rewrite Hmap. reflexivity.
    + simpl. rewrite Hlen. reflexivity.
    + intros [| n] e He; simpl in He.
      * injection He as <-. rewrite Nat.add_0_r. eexists _, _. simpl. rewrite Hr. reflexivity.
      * destruct (Hout n e He) as (t & t' & Hn). exists t, t'.
        rewrite Nat.add_succ_r. exact Hn.
Qed.

(** X17. Within one call of getExpenses the synthesized identifiers are
    pairwise distinct: when the array holds readable records only
    (neither null nor undefined, the properties the normalizer converts
    to a string converting), the call goes through and two output records
    at different positions whose raw records have no upstream identifier
    (neither expense_id nor id truthy) never carry the same expense_id,
    whatever the clock returns. *)
Theorem getExpenses_synthesized_ids_distinct
        (u o : string) (filters : option Filters) (w w1 : World) (data : value) :
  zohoBooksApiCall u o (getExpenses_endpoint filters) GET JUndefined w = (Ok data, w1) ->
  Forall (fun expense => readable expense = true) (expenses_of data) ->
  exists out,
    fst (getExpenses u o filters w) = Ok (JS.spread_with data "expenses" (JArr out))
    /\ List.length out = List.length (expenses_of data)
    /\ forall n m e1 e2 r1 r2,
         n <> m ->
         nth_error (expenses_of data) n = Some e1 ->
         nth_error (expenses_of data) m = Some e2 ->
         upstream_id e1 = None -> upstream_id e2 = None ->
         nth_error out n = Some r1 -> nth_error out m = Some r2 ->
         JS.get r1 "expense_id" <> JS.get r2 "expense_id".
Proof.
  intros Hcall Hnn.
  destruct (mapM_normalizeExpense_records _ Hnn 0%nat w1) as (out & w' & Hmap & Hlen & Hout).
  exists out. split; [| split].
  - unfold getExpenses. unfold bind at 1. rewrite Hcall.
    cbv zeta. unfold bind at 1. rewrite Hmap. reflexivity.
  - exact Hlen.
  - intros n m e1 e2 r1 r2 Hneq He1 He2 Hu1 Hu2 Hr1 Hr2.
    destruct (Hout n e1 He1) as (t1 & t1' & Hn).
    destruct (Hout m e2 He2) as (t2 & t2' & Hm).
    rewrite Hn in Hr1. rewrite Hm in Hr2. injection Hr1 as <-. injection Hr2 as <-.
    unfold normalized_record. rewrite Hu1, Hu2. simpl Nat.add.
    cbn [JS.get JS.assoc String.eqb Ascii.eqb Bool.eqb].
    intros Heq. apply Hneq.
    assert (Hs : (Str.of_nat n ++ String "-" (JS.display (JS.num t1')))%string
                 = (Str.of_nat m ++ String "-" (JS.display (JS.num t2')))%string).
    { injection Heq as Heq. exact Heq. }
    apply of_nat_inj. eapply hyphen_split; [| | exact Hs]; apply of_nat_hyphen_free.
Qed.

Lemma getExpenses_synthesized_ids_distinct_witness :
  let data := JObj [("expenses", JArr [JObj []; JObj [("vendor", JStr "Acme")]])] in
  let w := Demo.world [] (Demo.succeed_with data) in
  exists out,
    fst (getExpenses "u1" "org1" None w) = Ok (JS.spread_with data "expenses" (JArr out))
    /\ List.length out = List.length (expenses_of data)
    /\ forall n m e1 e2 r1 r2,
         n <> m ->
         nth_error (expenses_of data) n = Some e1 ->
         nth_error (expenses_of data) m = Some e2 ->
         upstream_id e1 = None -> upstream_id e2 = None ->
         nth_error out n = Some r1 -> nth_error out m = Some r2 ->
         JS.get r1 "expense_id" <> JS.get r2 "expense_id".
Proof.
  intros data w.
  assert (Hcall : zohoBooksApiCall "u1" "org1" (getExpenses_endpoint None) GET JUndefined w
                  = (Ok data, dispatched w (api_request "u1" "org1" "/expenses" GET JUndefined)))
    by (rewrite zohoBooksApiCall_run; reflexivity).
  assert (Hnn : Forall (fun expense => readable expense = true) (expenses_of data))
    by (repeat constructor).
  exact (getExpenses_synthesized_ids_distinct "u1" "org1" None w _ data Hcall Hnn).
Defined.

(** ** Expense accounts and the creation payload *)

Lemma filterM_kept {A} (f : A -> result bool) (l l' : list A) :
  filterM f l = Ok l' -> Forall (fun x => f x = Ok true) l'.
Proof.
  revert l'. induction l as [| x r IH]; intros l' H; simpl in H.
  - injection H as <-. constructor.
  - destruct (f x) as [b | e] eqn:Ef; [| discriminate].
    destruct (filterM f r) as [r' | e]; [| discriminate].
    injection H as <-. destruct b; [constructor|]; auto.
Qed.

Lemma is_expense_account_true (acc : value) :
  is_expense_account acc = Ok true -> JS.get acc "account_type" = JStr "expense".
Proof.
  unfold is_expense_account, prop. destruct (JS.nullish acc); [discriminate|].
  destruct (JS.get acc "account_type") as [| | b | x | t | l | f]; try discriminate.
  intros H. injection H as H. apply String.eqb_eq in H. congruence.
Qed.

(** X18. Every account getExpenseAccounts returns is an object of
    exactly three properties, account_id, account_name and account_type,
    and its account_type is the string 'expense'; an answer whose
    chartofaccounts is missing or not an array gives the empty list. *)
Theorem getExpenseAccounts_shape (u o : string) (w : World) (accounts : list value) :
  fst (getExpenseAccounts u o w) = Ok accounts ->
  Forall (fun account =>
            exists id name,
              account = JObj [("account_id", id); ("account_name", name);
                              ("account_type", JStr "expense")])
         accounts
  /\ (forall data w1,
        zohoBooksApiCall u o "/chartofaccounts" GET JUndefined w = (Ok data, w1) ->
        JS.isArray (JS.opt_get data "chartofaccounts") = false ->
        accounts = []).
Proof.
  unfold getExpenseAccounts. rewrite try_catch_rethrow. unfold bind at 1.
  destruct (zohoBooksApiCall u o "/chartofaccounts" GET JUndefined w) as [[data | e] w1];
    [| discriminate].
  intros H. split.
  - destruct (JS.opt_get data "chartofaccounts") as [| | b | x | t | chart | f];
      try (injection H as <-; constructor).
    unfold bind, lift in H.
    destruct (filterM is_expense_account chart) as [kept | e] eqn:Ef; [| discriminate].
    injection H as <-. apply filterM_kept in Ef.
    induction Ef as [| acc kept Hacc _ IH]; [constructor|].
    constructor; [| exact IH].
    exists (JS.get acc "account_id"), (JS.get acc "account_name").
    unfold account_summary. rewrite (is_expense_account_true acc Hacc). reflexivity.
  - intros data' w1' Heq Harr. injection Heq as <- <-.
    destruct (JS.opt_get data "chartofaccounts"); try (injection H as <-; reflexivity).
    discriminate.
Qed.

Lemma getExpenseAccounts_shape_witness :
  let chart := JArr [JObj [("account_id", JStr "a1"); ("account_type", JStr "income")];
                     JObj [("account_id", JStr "a2"); ("account_name", JStr "Travel");
                           ("account_type", JStr "expense"); ("is_active", JBool true)]] in
  let w := Demo.world [] (Demo.succeed_with (JObj [("chartofaccounts", chart)])) in
  Forall (fun account =>
            exists id name,
              account = JObj [("account_id", id); ("account_name", name);
                              ("account_type", JStr "expense")])
         [JObj [("account_id", JStr "a2"); ("account_name", JStr "Travel");
                ("account_type", JStr "expense")]]
  /\ (forall data w1,
        zohoBooksApiCall "u1" "org1" "/chartofaccounts" GET JUndefined w = (Ok data, w1) ->
        JS.isArray (JS.opt_get data "chartofaccounts") = false ->
        [JObj [("account_id", JStr "a2"); ("account_name", JStr "Travel");
               ("account_type", JStr "expense")]] = []).
Proof.
  intros chart w.
  apply (getExpenseAccounts_shape "u1" "org1" w). vm_compute. reflexivity.
Defined.

Lemma filterM_null_entry (chart : list value) :
  Exists (fun acc => JS.nullish acc = true) chart ->
  exists message, filterM is_expense_account chart = Err (TypeError message).
Proof.
  induction 1 as [acc chart Hnull | acc chart _ IH].
  - cbn [filterM]. unfold is_expense_account, prop. rewrite Hnull. eexists. reflexivity.
  - cbn [filterM]. destruct IH as [message IH]. rewrite IH.
    unfold is_expense_account, prop.
    destruct (JS.nullish acc).
    + eexists. reflexivity.
    + destruct (JS.get acc "account_type") as [| | b | x | t | l | f];
        exists message; reflexivity.
Qed.

(** X19. A chart of accounts holding a null or undefined entry makes
    getExpenseAccounts fail with a TypeError once the chart has been
    fetched; createExpense called without account_id then fails with the
    same error and sends no creation request. *)
Theorem chart_with_null_entry
        (u o : string) (w w1 : World) (data : value) (chart : list value) :
  zohoBooksApiCall u o "/chartofaccounts" GET JUndefined w = (Ok data, w1) ->
  JS.opt_get data "chartofaccounts" = JArr chart ->
  Exists (fun acc => JS.nullish acc = true) chart ->
  exists message,
    getExpenseAccounts u o w = (Err (TypeError message), w1)
    /\ forall d, JS.truthy (optional (account_id d)) = false ->
                 createExpense u o d w = (Err (TypeError message), w1).
Proof.
  intros Hcall Hchart Hnull.
  destruct (filterM_null_entry chart Hnull) as [message Hf].
  assert (Hget : getExpenseAccounts u o w = (Err (TypeError message), w1)).
  { unfold getExpenseAccounts. rewrite try_catch_rethrow.
    unfold bind at 1. rewrite Hcall, Hchart. unfold bind, lift. rewrite Hf. reflexivity. }
  exists message. split; [exact Hget|].
  intros d Hno. apply createExpense_accounts_failure; assumption.
Qed.

Lemma chart_with_null_entry_witness :
  let data := JObj [("chartofaccounts",
                     JArr [JObj [("account_id", JStr "a1"); ("account_type", JStr "expense")];
                           JNull])] in
  let w := Demo.world [] (Demo.succeed_with data) in
  let w1 := dispatched w (api_request "u1" "org1" "/chartofaccounts" GET JUndefined) in
  exists message,
    getExpenseAccounts "u1" "org1" w = (Err (TypeError message), w1)
    /\ forall d, JS.truthy (optional (account_id d)) = false ->
                 createExpense "u1" "org1" d w = (Err (TypeError message), w1).
Proof.
  intros data w w1.
  assert (Hcall : zohoBooksApiCall "u1" "org1" "/chartofaccounts" GET JUndefined w
                  = (Ok data, w1))
    by (rewrite zohoBooksApiCall_run; reflexivity).
  apply (chart_with_null_entry "u1" "org1" w w1 data _ Hcall eq_refl).
  right. left. reflexivity.
Defined.

Lemma assoc_set_if_same (k : string) (v : value) (payload : list (string * value)) :
  JS.assoc k payload = None ->
  JS.assoc k (set_if k v payload) = if JS.truthy v then Some v else None.
Proof.
  intros Hnone. unfold set_if. destruct (JS.truthy v); [apply assoc_set_same | exact Hnone].
Qed.

(** X20. The payload createExpense sends, for every expense data and
    account: vendor_name is always a non-empty string, the caller's when
    that is non-empty and 'Expense' otherwise; each of vendor_id,
    reference_number and notes is present exactly when the caller gave a
    non-empty string, and then carries it; attachments is present exactly
    when the caller gave a non-empty list; expense_date is the caller's. *)
Theorem expensePayload_optional_fields (d : ExpenseData) (accountId : value) :
  (exists name,
      JS.assoc "vendor_name" (expensePayload d accountId) = Some (JStr name)
      /\ name <> EmptyString
      /\ name = match vendor_name d with
                | Some (String c r) => String c r
                | _ => "Expense"
                end)
  /\ (forall k x,
        In (k, x) [("vendor_id", vendor_id d); ("reference_number", reference_number d);
                   ("notes", notes d)] ->
        JS.assoc k (expensePayload d accountId)
        = match x with
          | Some (String c r) => Some (JStr (String c r))
          | _ => None
          end)
  /\ JS.assoc "attachments" (expensePayload d accountId)
     = match attachments d with
       | Some (a :: r) => Some (JArr (map Attachment_value (a :: r)))
       | _ => None
       end
  /\ JS.assoc "expense_date" (expensePayload d accountId) = Some (JStr (expense_date d)).
Proof.
  assert (Hopt : forall x : option string,
             (if JS.truthy (optional x) then Some (optional x) else None)
             = match x with
               | Some (String c r) => Some (JStr (String c r))
               | _ => None
               end).
  { intros [[| c r] |]; reflexivity. }
  split; [| split; [| split]].
  - exists (match vendor_name d with Some (String c r) => String c r | _ => "Expense" end).
    split; [| split; [| reflexivity]].
    + unfold expensePayload.
      destruct (attachments d) as [[| a r] |];
        rewrite ?assoc_set_other by reflexivity;
        rewrite !assoc_set_if_other by reflexivity;
        destruct (vendor_name d) as [[| c s] |]; reflexivity.
    + destruct (vendor_name d) as [[| c s] |]; discriminate.
  - intros k x Hin. rewrite <- Hopt. unfold expensePayload. simpl in Hin.
    destruct Hin as [H | [H | [H | []]]]; injection H as <- <-.
    + destruct (attachments d) as [[| a r] |];
        rewrite ?assoc_set_other by reflexivity;
        rewrite !assoc_set_if_other by reflexivity;
        apply assoc_set_if_same; reflexivity.
    + destruct (attachments d) as [[| a r] |];
        rewrite ?assoc_set_other by reflexivity;
        rewrite 1?assoc_set_if_other by reflexivity;
        apply assoc_set_if_same; rewrite assoc_set_if_other by reflexivity; reflexivity.
    + destruct (attachments d) as [[| a r] |];
        rewrite ?assoc_set_other by reflexivity;
        apply assoc_set_if_same; rewrite !assoc_set_if_other by reflexivity; reflexivity.
  - unfold expensePayload.
    destruct (attachments d) as [[| a r] |];
      rewrite ?assoc_set_same; try reflexivity;
      rewrite !assoc_set_if_other by reflexivity; reflexivity.
  - unfold expensePayload.
    destruct (attachments d) as [[| a r] |];
      rewrite ?assoc_set_other by reflexivity;
      rewrite !assoc_set_if_other by reflexivity; reflexivity.
Qed.

(** ** Reports *)

Lemma or_zero (a : value) : JS.truthy (JS.or a zero) = true \/ JS.or a zero = zero.
Proof. unfold JS.or. destruct (JS.truthy a) eqn:E; [left; exact E | right; reflexivity]. Qed.

(** X21. When the upstream answer holds a report, each total of
    getProfitAndLoss and getBalance is the upstream property when that is
    truthy and the number 0 otherwise, so never undefined, null, NaN or
    an empty string; net_profit is the upstream net_profit when that is
    truthy, and otherwise total_income minus total_expenses, or 0 when
    the difference is 0 or NaN; when this subtraction cannot convert one
    of the two totals to a number, the call is rejected with the
    TypeError of the conversion.  A truthy answer without the report
    property is returned unchanged. *)
Theorem reports_totals (u o : string) (w w1 : World) (data : value) :
  (zohoBooksApiCall u o "/reports/profitandloss" GET JUndefined w = (Ok data, w1) ->
   JS.truthy data = true ->
   let report := JS.get data "profit_and_loss" in
   let transformed net_profit :=
     JObj [("total_income", JS.or (JS.get report "total_income") zero);
           ("total_expenses", JS.or (JS.get report "total_expenses") zero);
           ("net_profit", net_profit)] in
   getProfitAndLoss u o w
   = (if JS.truthy report then
        if JS.truthy (JS.get report "net_profit")
        then Ok (transformed (JS.get report "net_profit"))
        else match JS.minus (JS.get report "total_income") (JS.get report "total_expenses") with
             | Some difference => Ok (transformed (JS.or difference zero))
             | None => Err cannot_convert
             end
      else Ok data, w1)
   /\ (JS.truthy report = true ->
       forall r k, fst (getProfitAndLoss u o w) = Ok r ->
                   In k ["total_income"; "total_expenses"; "net_profit"] ->
                   JS.truthy (JS.get r k) = true \/ JS.get r k = zero))
  /\ (zohoBooksApiCall u o "/reports/balancesheet" GET JUndefined w = (Ok data, w1) ->
      JS.truthy data = true ->
      let report := JS.get data "balance_sheet" in
      getBalance u o w
      = (Ok (if JS.truthy report
             then JObj [("total_assets", JS.or (JS.get report "total_assets") zero);
                        ("total_liabilities",
                         JS.or (JS.get report "total_liabilities") zero)]
             else data), w1)
      /\ (JS.truthy report = true ->
          forall r k, fst (getBalance u o w) = Ok r ->
                      In k ["total_assets"; "total_liabilities"] ->
                      JS.truthy (JS.get r k) = true \/ JS.get r k = zero)).
Proof.
  split; intros Hcall Hdata report.
  - intros transformed.
    assert (Hrun : getProfitAndLoss u o w
                   = (if JS.truthy report then
                        if JS.truthy (JS.get report "net_profit")
                        then Ok (transformed (JS.get report "net_profit"))
                        else match JS.minus (JS.get report "total_income")
                                            (JS.get report "total_expenses") with
                             | Some difference => Ok (transformed (JS.or difference zero))
                             | None => Err cannot_convert
                             end
                      else Ok data, w1)).
    { unfold getProfitAndLoss. rewrite try_catch_rethrow. unfold bind at 1. rewrite Hcall.
      cbv zeta. rewrite Hdata. fold report.
      destruct (JS.truthy report); [| reflexivity].
      unfold bind at 1.
      destruct (JS.truthy (JS.get report "net_profit")); [reflexivity|].
      unfold bind, lift, minus.
      destruct (JS.minus (JS.get report "total_income") (JS.get report "total_expenses"));
        reflexivity. }
    split; [exact Hrun|].
    intros Hreport r k. rewrite Hrun, Hreport. cbn [fst].
    assert (Hall : forall net,
               JS.truthy net = true \/ net = zero ->
               In k ["total_income"; "total_expenses"; "net_profit"] ->
               JS.truthy (JS.get (transformed net) k) = true
               \/ JS.get (transformed net) k = zero).
    { intros net Hnet Hk. simpl in Hk.
      destruct Hk as [<- | [<- | [<- | []]]]; [apply or_zero | apply or_zero | exact Hnet]. }
    destruct (JS.truthy (JS.get report "net_profit")) eqn:Hnet.
    + intros [= <-]. apply Hall. left. exact Hnet.
    + destruct (JS.minus (JS.get report "total_income") (JS.get report "total_expenses"))
        as [difference |]; [| discriminate].
      intros [= <-]. apply Hall. apply or_zero.
  - assert (Hrun : getBalance u o w
                   = (Ok (if JS.truthy report
                          then JObj [("total_assets",
                                      JS.or (JS.get report "total_assets") zero);
                                     ("total_liabilities",
                                      JS.or (JS.get report "total_liabilities") zero)]
                          else data), w1)).
    { unfold getBalance. rewrite try_catch_rethrow. unfold bind. rewrite Hcall.
      cbv zeta. rewrite Hdata. fold report.
      destruct (JS.truthy report); reflexivity. }
    split; [exact Hrun|].
    intros Hreport r k. rewrite Hrun, Hreport. cbn [fst]. intros [= <-] Hk. simpl in Hk.
    destruct Hk as [<- | [<- | []]]; apply or_zero.
Qed.

Lemma reports_totals_witness :
  let income := JNum (Num.Dec 3 (-1)) in
  let expenses := JNum (Num.Dec 1 (-1)) in
  let data := JObj [("profit_and_loss",
                     JObj [("total_income", income); ("total_expenses", expenses)])] in
  let w := Demo.world [] (Demo.succeed_with data) in
  let w1 := dispatched w (api_request "u1" "org1" "/reports/profitandloss" GET JUndefined) in
  getProfitAndLoss "u1" "org1" w
  = (Ok (JObj [("total_income", income); ("total_expenses", expenses);
               ("net_profit", JNum (Num.Dec 19999999999999998 (-17)))]), w1).
Proof.
  intros income expenses data w w1.
  assert (Hcall : zohoBooksApiCall "u1" "org1" "/reports/profitandloss" GET JUndefined w
                  = (Ok data, w1))
    by (rewrite zohoBooksApiCall_run; reflexivity).
  rewrite (proj1 (proj1 (reports_totals "u1" "org1" w w1 data) Hcall eq_refl)).
  vm_compute. reflexivity.
Defined.

(** ** Disconnecting and the connection status *)

(** X22. When the record store answers the update with an error,
    disconnectZohoBooks rejects with that very error object (thrown as it
    is, not wrapped in an Error), after one clock read and one update
    request, and no record has changed. *)
Theorem disconnectZohoBooks_store_error (u : string) (w : World) :
  let t := clock w (log w) in
  let error := store_error w (log w ++ [Now t])%list in
  JS.truthy error = true ->
  fst (disconnectZohoBooks u w) = Err (Thrown error)
  /\ new_events w (snd (disconnectZohoBooks u w)) = [Now t; Update u (disconnect_patch t)]
  /\ rows (snd (disconnectZohoBooks u w)) = rows w.
Proof.
  intros t error Herr.
  assert (Hrun : disconnectZohoBooks u w
                 = (Err (Thrown error),
                    record (record w (Now t)) (Update u (disconnect_patch t)))).
  { unfold disconnectZohoBooks, bind, now, update_eq. simpl.
    fold t. fold error. rewrite Herr. fold error. rewrite Herr. reflexivity. }
  rewrite Hrun. split; [reflexivity|]. split; [| reflexivity].
  apply new_events_app. unfold record, with_store; simpl.
  rewrite <- app_assoc. reflexivity.
Qed.

Lemma disconnectZohoBooks_store_error_witness :
  let w := {| rows := [Demo.connected Demo.future_stamp];
              log := [];
              edge := fun _ store _ _ => (JNull, JNull, store);
              store_error := fun _ => JObj [("message", JStr "connection refused")];
              clock := fun _ => Demo.today;
              date_parse := Demo.parse |} in
  fst (disconnectZohoBooks "u1" w)
  = Err (Thrown (JObj [("message", JStr "connection refused")]))
  /\ new_events w (snd (disconnectZohoBooks "u1" w))
     = [Now Demo.today; Update "u1" (disconnect_patch Demo.today)]
  /\ rows (snd (disconnectZohoBooks "u1" w)) = rows w.
Proof.
  intros w. apply (disconnectZohoBooks_store_error "u1" w). reflexivity.
Defined.

Lemma Forall_patched (t : Z) (rs : list Integration) :
  Forall (is_disconnected t) (map (apply_patch (disconnect_patch t)) rs).
Proof.
  induction rs as [| r rs IH]; simpl; constructor; [| exact IH].
  unfold is_disconnected; simpl. repeat split.
Qed.

(** The store after a disconnect that went through. *)
Lemma disconnect_records (u : string) (w : World) :
  let t := clock w (log w) in
  let w1 := snd (disconnectZohoBooks u w) in
  JS.truthy (store_error w (log w ++ [Now t])%list) = false ->
  fst (disconnectZohoBooks u w) = Ok success
  /\ records_of u w1 = map (apply_patch (disconnect_patch t)) (records_of u w)
  /\ records_of_others u w1 = records_of_others u w
  /\ rows w1 = map (fun r => if of_user u r then apply_patch (disconnect_patch t) r else r)
                   (rows w)
  /\ store_error w1 = store_error w.
Proof.
  intros t w1 Hstore. unfold w1.
  rewrite (disconnectZohoBooks_run u w Hstore). fold t.
  change {| set_is_connected := false; set_access_token := None; set_refresh_token := None;
            set_disconnected_at := Some (Date.toISOString t) |} with (disconnect_patch t).
  simpl fst. simpl snd. unfold records_of, records_of_others. simpl rows.
  split; [reflexivity|].
  split; [apply filter_patched|].
  split; [apply filter_others_patched|].
  split; reflexivity.
Qed.

(** X23. With the store reachable, disconnectZohoBooks succeeds however
    many records the user has: every record of the user, be there none,
    one or several, comes out disconnected (tokens cleared,
    is_connected=false, disconnected_at stamped with the time read), as
    many as before; the records of other users are untouched; and a user
    without any record leaves the store as it was. *)
Theorem disconnectZohoBooks_all_records (u : string) (w : World) :
  let t := clock w (log w) in
  let w1 := snd (disconnectZohoBooks u w) in
  JS.truthy (store_error w (log w ++ [Now t])%list) = false ->
  fst (disconnectZohoBooks u w) = Ok success
  /\ Forall (is_disconnected t) (records_of u w1)
  /\ List.length (records_of u w1) = List.length (records_of u w)
  /\ records_of_others u w1 = records_of_others u w
  /\ (records_of u w = [] -> rows w1 = rows w).
Proof.
  intros t w1 Hstore.
  destruct (disconnect_records u w Hstore) as (Hok & Hrec & Hoth & Hrows & _).
  fold t in Hrec, Hrows. fold w1 in Hrec, Hoth, Hrows.
  split; [exact Hok|].
  split; [rewrite Hrec; apply Forall_patched|].
  split; [rewrite Hrec; apply length_map|].
  split; [exact Hoth|].
  rewrite Hrows. unfold records_of.
  generalize (rows w) as rs. induction rs as [| r rs IH]; simpl; [reflexivity|].
  destruct (of_user u r); [discriminate|]. intros H. rewrite (IH H). reflexivity.
Qed.

Lemma disconnectZohoBooks_all_records_witness :
  let w := Demo.world [Demo.connected Demo.future_stamp; Demo.connected Demo.expired_stamp]
                      (Demo.succeed_with JNull) in
  let w1 := snd (disconnectZohoBooks "u1" w) in
  fst (disconnectZohoBooks "u1" w) = Ok success
  /\ Forall (is_disconnected Demo.today) (records_of "u1" w1)
  /\ List.length (records_of "u1" w1) = List.length (records_of "u1" w)
  /\ records_of_others "u1" w1 = records_of_others "u1" w
  /\ (records_of "u1" w = [] -> rows w1 = rows w).
Proof.
  intros w w1. apply (disconnectZohoBooks_all_records "u1" w). reflexivity.
Defined.

(** Every way [getZohoBooksStatus] can go. *)
Lemma getZohoBooksStatus_cases (u : string) (w : World) :
  exists status connected,
    getZohoBooksStatus u w = (Ok status, record w (Select u))
    /\ JS.get status "is_connected" = JBool connected
    /\ (connected = true <->
        JS.truthy (store_error w (log w)) = false
        /\ exists r, records_of u w = [r] /\ is_connected r = true).
Proof.
  unfold getZohoBooksStatus, bind, select_single, records_of.
  destruct (JS.truthy (store_error w (log w))) eqn:Hstore.
  - cbv iota beta. rewrite Hstore. eexists _, false. split; [reflexivity|].
    split; [reflexivity|]. split; [discriminate | intros [H _]; discriminate].
  - destruct (filter (of_user u) (rows w)) as [| r [| r' rest]] eqn:Hrows.
    + cbv iota beta. eexists _, false. split; [reflexivity|]. split; [reflexivity|].
      split; [discriminate | intros [_ (r & H & _)]; discriminate].
    + cbv iota beta. eexists _, (is_connected r). split; [reflexivity|].
      split; [destruct (is_connected r); reflexivity|].
      split.
      * intros H. split; [reflexivity|]. exists r. split; [reflexivity | exact H].
      * intros [_ (r0 & H0 & H1)]. injection H0 as <-. exact H1.
    + cbv iota beta. eexists _, false. split; [reflexivity|]. split; [reflexivity|].
      split; [discriminate | intros [_ (r0 & H & _)]; discriminate].
Qed.

(** X24. getZohoBooksStatus never fails and never writes: it makes one
    read of the store, leaves every record as it was, and answers with an
    object whose is_connected is a boolean.  That boolean is true exactly
    when the store answered without error, holds exactly one record for
    the user, and that record has is_connected set; a store error, a
    missing record or several records all read as not connected. *)
Theorem getZohoBooksStatus_total (u : string) (w : World) :
  exists status connected,
    fst (getZohoBooksStatus u w) = Ok status
    /\ new_events w (snd (getZohoBooksStatus u w)) = [Select u]
    /\ rows (snd (getZohoBooksStatus u w)) = rows w
    /\ JS.get status "is_connected" = JBool connected
    /\ (connected = true <->
        JS.truthy (store_error w (log w)) = false
        /\ exists r, records_of u w = [r] /\ is_connected r = true).
Proof.
  destruct (getZohoBooksStatus_cases u w) as (status & connected & Hrun & Hget & Hiff).
  exists status, connected. rewrite Hrun.
  split; [reflexivity|]. split; [apply new_events_app; reflexivity|].
  split; [reflexivity|]. split; assumption.
Qed.

(** X25. After a successful disconnect the account is locked out: with
    the store reachable, whatever records the user had, the next
    getZohoBooksStatus reports is_connected false, and the next
    getValidAccessToken rejects with 'No Zoho Books integration found'
    after its one read of the store, without reading the clock or
    invoking the refresh procedure. *)
Theorem disconnect_locks_out (u : string) (w : World) :
  (forall evs, JS.truthy (store_error w evs) = false) ->
  let w1 := snd (disconnectZohoBooks u w) in
  fst (disconnectZohoBooks u w) = Ok success
  /\ (exists status,
         fst (getZohoBooksStatus u w1) = Ok status
         /\ JS.get status "is_connected" = JBool false)
  /\ fst (getValidAccessToken u w1) = Err (Error "No Zoho Books integration found")
  /\ new_events w1 (snd (getValidAccessToken u w1)) = [Select u].
Proof.
  intros Hstore w1.
  destruct (disconnect_records u w (Hstore _)) as (Hok & Hrec & _).
  fold w1 in Hrec.
  assert (Hall : Forall (is_disconnected (clock w (log w))) (records_of u w1))
    by (rewrite Hrec; apply Forall_patched).
  split; [exact Hok|]. split.
  - destruct (getZohoBooksStatus_cases u w1) as (status & connected & Hrun & Hget & Hiff).
    exists status. rewrite Hrun. split; [reflexivity|].
    destruct connected; [| exact Hget].
    destruct (proj1 Hiff eq_refl) as [_ (r & Hr & Hc)].
    rewrite Hr in Hall. inversion Hall as [| ? ? (_ & _ & Hd & _) _]; subst.
    congruence.
  - destruct (getValidAccessToken_cases u w1)
      as [[-> _] | (r & token & _ & Hrow & Htok & _)].
    + split; [reflexivity|]. apply new_events_app. reflexivity.
    + exfalso. rewrite Hrow in Hall.
      inversion Hall as [| ? ? (Hd & _) _]; subst. congruence.
Qed.

Lemma disconnect_locks_out_witness :
  let w := Demo.world [Demo.connected Demo.future_stamp] (Demo.succeed_with JNull) in
  let w1 := snd (disconnectZohoBooks "u1" w) in
  fst (disconnectZohoBooks "u1" w) = Ok success
  /\ (exists status,
         fst (getZohoBooksStatus "u1" w1) = Ok status
         /\ JS.get status "is_connected" = JBool false)
  /\ fst (getValidAccessToken "u1" w1) = Err (Error "No Zoho Books integration found")
  /\ new_events w1 (snd (getValidAccessToken "u1" w1)) = [Select "u1"].
Proof.
  intros w. apply (disconnect_locks_out "u1" w). intros evs. reflexivity.
Defined.

(** ** Separators of the query string *)

Lemma occurrences_app (c : ascii) (a b : string) :
  occurrences c (a ++ b) = (occurrences c a + occurrences c b)%nat.
Proof. induction a as [| x a IH]; simpl; [reflexivity | rewrite IH; lia]. Qed.

(** The serializer escapes the two separators of a query string. *)
Lemma encode_char_escapes (c x : ascii) :
  c = "&"%char \/ c = "="%char ->
  occurrences c (URLSearchParams.encode (String x EmptyString)) = 0%nat.
Proof.
  intros [-> | ->]; destruct x as [[] [] [] [] [] [] [] []]; reflexivity.
Qed.

Lemma encode_cons (x : ascii) (r : string) :
  URLSearchParams.encode (String x r)
  = (URLSearchParams.encode (String x EmptyString) ++ URLSearchParams.encode r)%string.
Proof.
  cbn [URLSearchParams.encode]. rewrite string_app_assoc. reflexivity.
Qed.

Lemma encode_escapes (c : ascii) (s : string) :
  c = "&"%char \/ c = "="%char -> occurrences c (URLSearchParams.encode s) = 0%nat.
Proof.
  intros Hc. induction s as [| x r IH]; [reflexivity|].
  rewrite encode_cons, occurrences_app, IH, (encode_char_escapes c x Hc). reflexivity.
Qed.

(** A serialized parameter list has one '=' per parameter and one '&'
    between two parameters. *)
Lemma toString_separators (p : URLSearchParams.t) :
  occurrences "&" (URLSearchParams.toString p) = pred (List.length p)
  /\ occurrences "=" (URLSearchParams.toString p) = List.length p.
Proof.
  unfold URLSearchParams.toString.
  induction p as [| [k v] r [IHa IHe]]; [split; reflexivity|].
  destruct r as [| kv r'].
  - cbn [map Str.join fst snd List.length pred].
    rewrite !occurrences_app, !encode_escapes by auto. split; reflexivity.
  - change (Str.join "&" (map (fun kv0 => (URLSearchParams.encode (fst kv0) ++ "="
                                           ++ URLSearchParams.encode (snd kv0))%string)
                              ((k, v) :: kv :: r')))
      with ((URLSearchParams.encode k ++ "=" ++ URLSearchParams.encode v) ++ "&"
            ++ Str.join "&" (map (fun kv0 => (URLSearchParams.encode (fst kv0) ++ "="
                                             ++ URLSearchParams.encode (snd kv0))%string)
                                  (kv :: r')))%string.
    rewrite !occurrences_app, !encode_escapes by auto.
    rewrite IHa, IHe. cbn [List.length pred occurrences Ascii.eqb]. simpl. split; lia.
Qed.

Lemma toString_empty (p : URLSearchParams.t) :
  JS.truthy (JStr (URLSearchParams.toString p)) = negb (Nat.eqb (List.length p) 0).
Proof.
  destruct p as [| [k v] r]; [reflexivity|].
  pose proof (toString_separators ((k, v) :: r)) as [_ He].
  destruct (URLSearchParams.toString ((k, v) :: r)); [discriminate | reflexivity].
Qed.

Lemma with_query_separators (base : string) (p : URLSearchParams.t) :
  occurrences "&" base = 0%nat -> occurrences "=" base = 0%nat ->
  occurrences "&" (with_query base p) = pred (List.length p)
  /\ occurrences "=" (with_query base p) = List.length p.
Proof.
  intros Ha He. unfold with_query. rewrite toString_empty.
  destruct (toString_separators p) as [Pa Pe].
  destruct p as [| kv r].
  - simpl negb. cbv iota. rewrite !occurrences_app, Ha, He. split; reflexivity.
  - simpl negb. cbv iota. rewrite !occurrences_app, Ha, He, Pa, Pe. split; reflexivity.
Qed.

Lemma filters_length (filters : option Filters) :
  List.length (set_offset filters (set_limit filters (set_status filters URLSearchParams.empty)))
  = applied filters
  /\ List.length (set_status filters (set_offset filters
                                        (set_limit filters URLSearchParams.empty)))
     = applied filters.
Proof.
  destruct filters as [[[s |] [l |] [f |]] |];
    unfold applied, set_status, set_limit, set_offset, optional;
    cbn [status limit offset];
    repeat match goal with
           | |- context [JS.truthy (JStr ?v)] => destruct (JS.truthy (JStr v))
           | |- context [JS.truthy (JNum ?v)] => destruct (JS.truthy (JNum v))
           end;
    split; reflexivity.
Qed.

(** X26. A filter value cannot add or split a parameter.  For every
    filters object, whatever text its status holds, the endpoint of each
    list operation has exactly one '=' per parameter it sets and one '&'
    between two parameters: as many '=' as filters applied for invoices
    and expenses, one more (the contact_type) for customers and
    vendors. *)
Theorem list_endpoints_separators (filters : option Filters) :
  (forall endpoint,
     In endpoint [getInvoices_endpoint; getExpenses_endpoint] ->
     occurrences "=" (endpoint filters) = applied filters
     /\ occurrences "&" (endpoint filters) = pred (applied filters))
  /\ (forall endpoint,
        In endpoint [getCustomers_endpoint; getVendors_endpoint] ->
        occurrences "=" (endpoint filters) = S (applied filters)
        /\ occurrences "&" (endpoint filters) = applied filters).
Proof.
  destruct (filters_length filters) as [L1 L2].
  split; intros endpoint [<- | [<- | []]].
  - unfold getInvoices_endpoint. cbv zeta.
    destruct (with_query_separators "/invoices"
                (set_offset filters (set_limit filters
                                       (set_status filters URLSearchParams.empty)))
                eq_refl eq_refl) as [Ha He].
    rewrite Ha, He, L1. split; reflexivity.
  - unfold getExpenses_endpoint. cbv zeta.
    destruct (with_query_separators "/expenses"
                (set_status filters (set_offset filters
                                       (set_limit filters URLSearchParams.empty)))
                eq_refl eq_refl) as [Ha He].
    rewrite Ha, He, L2. split; reflexivity.
  - unfold getCustomers_endpoint. cbv zeta.
    rewrite (set_fresh _ _ _ (filter_keys filters)).
    destruct (with_query_separators "/contacts"
                (set_status filters (set_offset filters
                                       (set_limit filters URLSearchParams.empty))
                 ++ [("contact_type", "customer")])%list
                eq_refl eq_refl) as [Ha He].
    rewrite Ha, He, length_app, L2. simpl. rewrite Nat.add_1_r. split; reflexivity.
  - unfold getVendors_endpoint. cbv zeta.
    rewrite (set_fresh _ _ _ (filter_keys filters)).
    destruct (with_query_separators "/contacts"
                (set_status filters (set_offset filters
                                       (set_limit filters URLSearchParams.empty))
                 ++ [("contact_type", "vendor")])%list
                eq_refl eq_refl) as [Ha He].
    rewrite Ha, He, length_app, L2. simpl. rewrite Nat.add_1_r. split; reflexivity.
Qed.

(** ** The authorization URL *)

Lemma substring_length (n m : nat) (s : string) :
  (String.length (String.substring n m s) <= m)%nat.
Proof.
  revert n m. induction s as [| c r IH]; intros [| n] [| m]; simpl; try lia.
  - specialize (IH 0%nat m). lia.
  - apply IH.
  - apply IH.
Qed.

Lemma length_append (a b : string) :
  String.length (a ++ b) = (String.length a + String.length b)%nat.
Proof. induction a as [| c a IH]; simpl; [reflexivity | rewrite IH; reflexivity]. Qed.

(** X27. getZohoBooksAuthUrl fails, with the 'not configured' message,
    exactly when the client id is missing or empty.  Otherwise it returns
    the authorization endpoint followed by '?' and six parameters in a
    fixed order (client_id, redirect_uri, response_type=code,
    access_type=offline, scope=ZohoBooks.fullaccess.ALL, state), the
    redirect URI being the configured one when that is non-empty and the
    page origin followed by '/books/callback' otherwise; whatever the
    client id, the redirect URI and the random state hold, the URL has
    exactly six '=' and five '&'.  The state is at most 26 characters
    long. *)
Theorem getZohoBooksAuthUrl_contract (env : OAuth.Env) (random1 random2 : string) :
  match OAuth.getZohoBooksAuthUrl env random1 random2 with
  | Err e =>
      JS.truthy (optional (OAuth.VITE_ZOHO_CLIENT_ID env)) = false
      /\ e = Error OAuth.client_id_not_configured
  | Ok url =>
      exists id,
        OAuth.VITE_ZOHO_CLIENT_ID env = Some id /\ id <> EmptyString
        /\ url = ("https://accounts.zoho.com/oauth/v2/auth?client_id="
                  ++ URLSearchParams.encode id
                  ++ "&redirect_uri="
                  ++ URLSearchParams.encode
                       (match OAuth.VITE_ZOHO_REDIRECT_URI env with
                        | Some (String c r) => String c r
                        | _ => OAuth.origin env ++ "/books/callback"
                        end)
                  ++ "&response_type=code&access_type=offline"
                  ++ "&scope=ZohoBooks.fullaccess.ALL&state="
                  ++ URLSearchParams.encode (OAuth.generateState random1 random2))%string
        /\ occurrences "=" url = 6%nat
        /\ occurrences "&" url = 5%nat
  end
  /\ (String.length (OAuth.generateState random1 random2) <= 26)%nat.
Proof.
  split.
  - unfold OAuth.getZohoBooksAuthUrl.
    destruct (OAuth.VITE_ZOHO_CLIENT_ID env) as [[| c id] |]; simpl negb; cbv iota.
    + split; reflexivity.
    + exists (String c id). split; [reflexivity|]. split; [discriminate|].
      split.
      * cbv zeta. unfold URLSearchParams.toString, OAuth.ZOHO_OAUTH_AUTH_URL.
        cbn [map Str.join fst snd].
        change (URLSearchParams.encode "client_id") with "client_id".
        change (URLSearchParams.encode "redirect_uri") with "redirect_uri".
        change (URLSearchParams.encode "response_type") with "response_type".
        change (URLSearchParams.encode "access_type") with "access_type".
        change (URLSearchParams.encode "scope") with "scope".
        change (URLSearchParams.encode "state") with "state".
        change (URLSearchParams.encode "code") with "code".
        change (URLSearchParams.encode "offline") with "offline".
        change (URLSearchParams.encode "ZohoBooks.fullaccess.ALL")
          with "ZohoBooks.fullaccess.ALL".
        assert (Huri : OAuth.getRedirectURI env
                       = match OAuth.VITE_ZOHO_REDIRECT_URI env with
                         | Some (String c0 r) => String c0 r
                         | _ => (OAuth.origin env ++ "/books/callback")%string
                         end).
        { unfold OAuth.getRedirectURI.
          destruct (OAuth.VITE_ZOHO_REDIRECT_URI env) as [[| c0 r] |]; reflexivity. }
        rewrite Huri. rewrite !string_app_assoc. reflexivity.
      * cbv zeta.
        destruct (toString_separators
                    [("client_id", String c id);
                     ("redirect_uri", OAuth.getRedirectURI env);
                     ("response_type", "code");
                     ("access_type", "offline");
                     ("scope", "ZohoBooks.fullaccess.ALL");
                     ("state", OAuth.generateState random1 random2)]) as [Ha He].
        rewrite !occurrences_app, Ha, He. split; reflexivity.
    + split; reflexivity.
  - unfold OAuth.generateState, OAuth.substring_2_15. rewrite length_append.
    pose proof (substring_length 2 13 random1). pose proof (substring_length 2 13 random2).
    lia.
Qed.

(** ** Operations that pass the answer through *)

(** X28. Nineteen of the operations are pure pass-through: each of them
    returns what its one dispatch returned, data or error, unmodified,
    and leaves the world as that dispatch left it; the try/catch around
    getChartOfAccounts, getCashFlow and getExpenseReport changes
    nothing.  The other eight are those of [transforms]. *)
Theorem run_passes_through (u o : string) (op : Operation) (w : World) :
  transforms op = false ->
  run u o op w = let '(ep, m, b) := request_of op in zohoBooksApiCall u o ep m b w.
Proof.
  destruct op; try discriminate; intros _; try reflexivity;
    cbn [run request_of];
    unfold getChartOfAccounts, getCashFlow, getExpenseReport;
    rewrite try_catch_rethrow; apply bind_ret_id.
Qed.

Lemma run_passes_through_witness :
  run "u1" "org1" GetCashFlow (Demo.world [] (Demo.fail_with "down" 500))
  = zohoBooksApiCall "u1" "org1" "/reports/cashflow" GET JUndefined
                     (Demo.world [] (Demo.fail_with "down" 500)).
Proof.
  apply (run_passes_through "u1" "org1" GetCashFlow
           (Demo.world [] (Demo.fail_with "down" 500))).
  reflexivity.
Defined.

(** X29. Customers and vendors are told apart when listed and when a
    vendor is created, and nowhere else: reading, updating or deleting a
    vendor by identifier is the same computation as doing so to a
    customer with that identifier, on the shared '/contacts/' collection;
    an update sends the caller's body as it is, without a contact_type of
    its own, and the identifier is appended to the path as it is. *)
Theorem contact_items_not_discriminated (u o id : string) (body : value) (w : World) :
  getVendor u o id w = getCustomer u o id w
  /\ updateVendor u o id body w = updateCustomer u o id body w
  /\ deleteVendor u o id w = deleteCustomer u o id w
  /\ api_requests (new_events w (snd (updateVendor u o id body w)))
     = [api_request u o ("/contacts/" ++ id) PUT body]
  /\ JS.get (api_request u o ("/contacts/" ++ id) PUT body) "body" = body.
Proof.
  split; [reflexivity|]. split; [reflexivity|]. split; [reflexivity|].
  split.
  - unfold updateVendor.
    rewrite (zohoBooksApiCall_events u o ("/contacts/" ++ id) PUT body w).
    cbn [api_requests]. simpl String.eqb. reflexivity.
  - apply api_request_body.
Qed.

(** ** Propagation of failures, every operation *)

Lemma failures_In (w : World) (evs before : list event) (ev : event) :
  In ev (failures w before evs) ->
  In ev evs /\ exists prefix, failed w prefix ev = true.
Proof.
  revert before. induction evs as [| x r IH]; intros before; simpl; [intros []|].
  intros Hin. apply in_app_or in Hin as [Hin | Hin].
  - destruct (failed w before x) eqn:E; [| destruct Hin].
    destruct Hin as [<- | []]. split; [left; reflexivity | eauto].
  - destruct (IH _ Hin) as [H1 H2]. split; [right; exact H1 | exact H2].
Qed.

Lemma failures_nonempty (w : World) (before evs : list event) :
  failures w before evs <> [] ->
  exists ev, In ev (failures w before evs).
Proof.
  destruct (failures w before evs) as [| ev r]; [congruence|].
  intros _. exists ev. left. reflexivity.
Qed.

(** A dispatch that failed as a request failed as a dispatch. *)
Lemma failed_dispatch_failed (w : World) (prefix : list event) (ev : event) :
  is_dispatch ev = true -> failed w prefix ev = true ->
  exists e, failed_dispatch ev = Some e.
Proof.
  destruct ev as [fn body data error | | |]; try discriminate.
  cbn [is_dispatch failed failed_dispatch]. intros Hfn. rewrite Hfn.
  apply String.eqb_eq in Hfn. subst fn. cbn [String.eqb Ascii.eqb Bool.eqb andb orb].
  rewrite !orb_false_r. unfold dispatch_result.
  destruct (JS.truthy error); [eauto|].
  destruct (JS.truthy (JS.opt_get data "success")); [discriminate | simpl; eauto].
Qed.

(** The events of an operation that goes through the dispatcher are
    dispatches and clock reads. *)
Lemma run_event_kinds (u o : string) (op : Operation) (w : World) (ev : event) :
  In ev (new_events w (snd (run u o op w))) ->
  is_dispatch ev = true \/ exists t, ev = Now t.
Proof.
  destruct (is_createExpense op) eqn:Hop.
  - destruct op; try discriminate Hop. cbn [run].
    pose proof (createExpense_events u o expenseData w) as H. cbv zeta in H.
    destruct (JS.truthy (optional (account_id expenseData))).
    + rewrite H. intros [<- | []]. left. reflexivity.
    + destruct H as [-> | (accountId & w1 & ->)].
      * intros [<- | []]. left. reflexivity.
      * intros [<- | [<- | []]]; left; reflexivity.
  - destruct (run_events u o op w Hop) as (reads & Hev & _).
    rewrite Hev. destruct (request_of op) as [[ep m] b].
    intros [<- | Hin]; [left; reflexivity|].
    apply in_map_iff in Hin as (t & <- & _). right. eauto.
Qed.

Lemma getOrganizationId_run (u : string) (w : World) :
  let data := fst (organization_answer w u) in
  let functionError := snd (organization_answer w u) in
  fst (getOrganizationId u w)
  = (if JS.truthy functionError then Err (Thrown functionError)
     else if negb (JS.truthy (JS.opt_get data "success"))
             || negb (JS.truthy (JS.opt_get data "organizationId"))
     then Err (new_Error (JS.or (JS.opt_get data "error")
                                (JStr "Failed to fetch organization")))
     else Ok (JS.get data "organizationId"))
  /\ new_events w (snd (getOrganizationId u w))
     = [Invoke "zoho-get-organization" (JS.object [("userId", JStr u)]) data functionError].
Proof.
  intros data functionError. unfold data, functionError, organization_answer.
  unfold getOrganizationId. rewrite try_catch_rethrow.
  unfold bind, functions_invoke.
  destruct (edge w (log w) (rows w) "zoho-get-organization" (JS.object [("userId", JStr u)]))
    as [[d e] rs]; simpl fst; simpl snd.
  destruct (JS.truthy e); [split; [reflexivity | apply new_events_app; reflexivity]|].
  destruct (negb (JS.truthy (JS.opt_get d "success"))
            || negb (JS.truthy (JS.opt_get d "organizationId")));
    (split; [reflexivity | apply new_events_app; reflexivity]).
Qed.

(** A failed request makes every operation other than the two that
    answer with a default reject the call. *)
Lemma perform_propagates (u o : string) (call : Call) (w : World) :
  failures_of w (snd (perform u o call w)) <> [] ->
  match call with
  | Dispatched GetOrganizationDetails => fst (perform u o call w) = Ok default_currency
  | GetZohoBooksStatus =>
      exists status, fst (perform u o call w) = Ok status
                     /\ JS.get status "is_connected" = JBool false
  | _ => exists e, fst (perform u o call w) = Err e
  end.
Proof.
  unfold failures_of. intros Hfail.
  destruct call as [op | | | | | | code | ep m b]; cbn [perform] in *.
  - (* through the dispatcher *)
    apply failures_nonempty in Hfail as [ev Hev].
    apply failures_In in Hev as [Hin [prefix Hfailed]].
    destruct (run_event_kinds u o op w ev Hin) as [Hd | [t ->]]; [| discriminate Hfailed].
    destruct (failed_dispatch_failed w prefix ev Hd Hfailed) as [e He].
    destruct op;
      try (exists e; apply (run_propagates u o _ w ev e); [discriminate | exact Hin | exact He]).
    exact (getOrganizationDetails_swallows u o w ev e Hin He).
  - (* refreshZohoBooksToken *)
    destruct (refreshZohoBooksToken_run u w) as [Hres Hlog].
    rewrite (new_events_app w _ _ Hlog) in Hfail. rewrite Hres.
    unfold refresh_result. cbn [failures failed] in Hfail.
    cbn [String.eqb Ascii.eqb Bool.eqb andb] in Hfail. rewrite !orb_false_r in Hfail.
    destruct (JS.truthy (snd (refresh_answer w u))); [eauto|].
    destruct (JS.truthy (JS.opt_get (fst (refresh_answer w u)) "success"));
      destruct (JS.truthy (JS.opt_get (fst (refresh_answer w u)) "accessToken"));
      simpl in *; eauto; congruence.
  - (* getValidAccessToken *)
    destruct (getValidAccessToken_cases u w)
      as [[-> _] | (r & token & Hstore & Hrow & Htok & Hne & Hrun)];
      [cbn [fst]; eauto|].
    rewrite Hrun in Hfail |- *.
    destruct (Date.lt (expiry w r) (call_time w u)).
    + destruct (refreshZohoBooksToken_run u (after_reads w u)) as [Hres Hlog].
      rewrite Hres.
      rewrite (new_events_app w _ ([Select u; Now (call_time w u)]
                                    ++ [Invoke "zoho-token-refresh" (refresh_request u)
                                          (fst (refresh_answer (after_reads w u) u))
                                          (snd (refresh_answer (after_reads w u) u))]))
        in Hfail.
      2:{ rewrite Hlog. unfold after_reads, record, with_store; simpl.
          rewrite <- !app_assoc. reflexivity. }
      cbn [app failures failed] in Hfail. unfold records_of in Hrow.
      rewrite Hstore, Hrow in Hfail.
      cbn [String.eqb Ascii.eqb Bool.eqb andb orb app] in Hfail.
      rewrite !orb_false_r in Hfail.
      unfold refresh_result.
      destruct (JS.truthy (snd (refresh_answer (after_reads w u) u))); [eauto|].
      destruct (JS.truthy (JS.opt_get (fst (refresh_answer (after_reads w u) u)) "success"));
        destruct (JS.truthy (JS.opt_get (fst (refresh_answer (after_reads w u) u))
                                        "accessToken"));
        simpl in *; eauto; congruence.
    + exfalso. apply Hfail.
      rewrite (new_events_app w _ [Select u; Now (call_time w u)]).
      * cbn [failures failed]. unfold records_of in Hrow. rewrite Hstore, Hrow. reflexivity.
      * unfold after_reads, record, with_store; simpl. rewrite <- app_assoc. reflexivity.
  - (* getOrganizationId *)
    destruct (getOrganizationId_run u w) as [Hres Hev]. cbv zeta in Hres, Hev.
    rewrite Hev in Hfail. rewrite Hres.
    cbn [failures failed] in Hfail.
    cbn [String.eqb Ascii.eqb Bool.eqb andb] in Hfail. rewrite !orb_false_r in Hfail.
    destruct (JS.truthy (snd (organization_answer w u))); [eauto|].
    destruct (JS.truthy (JS.opt_get (fst (organization_answer w u)) "success"));
      destruct (JS.truthy (JS.opt_get (fst (organization_answer w u)) "organizationId"));
      simpl in *; eauto; congruence.
  - (* disconnectZohoBooks *)
    destruct (JS.truthy (store_error w (log w ++ [Now (clock w (log w))])%list)) eqn:Hstore.
    + exists (Thrown (store_error w (log w ++ [Now (clock w (log w))])%list)).
      unfold disconnectZohoBooks, bind, now, update_eq. simpl.
      rewrite Hstore. rewrite Hstore. reflexivity.
    + exfalso. apply Hfail.
      rewrite (disconnectZohoBooks_run u w Hstore). cbn [snd].
      rewrite (new_events_app w _ [Now (clock w (log w));
                                   Update u (disconnect_patch (clock w (log w)))]).
      * cbn [failures failed app]. rewrite Hstore. reflexivity.
      * unfold with_store, record; simpl. rewrite <- app_assoc. reflexivity.
  - (* getZohoBooksStatus *)
    destruct (getZohoBooksStatus_cases u w) as (status & connected & Hrun & Hget & Hiff).
    exists status. rewrite Hrun in *. split; [reflexivity|].
    destruct connected; [| exact Hget]. exfalso. apply Hfail.
    destruct (proj1 Hiff eq_refl) as [Hstore (r & Hrow & _)].
    cbn [snd]. rewrite (new_events_app w _ [Select u]) by reflexivity.
    cbn [failures failed]. unfold records_of in Hrow. rewrite Hstore, Hrow. reflexivity.
  - (* exchangeCodeForToken *)
    eexists. reflexivity.
  - (* zohoBooksApiCall *)
    rewrite zohoBooksApiCall_run in *. cbn [fst snd] in *.
    rewrite (new_events_app w _ _ (dispatched_log w _)) in Hfail.
    cbn [failures failed] in Hfail.
    cbn [String.eqb Ascii.eqb Bool.eqb andb] in Hfail. rewrite !orb_false_r in Hfail.
    unfold dispatch_result.
    destruct (JS.truthy (snd (answer w (api_request u o ep m b)))); [eauto|].
    destruct (JS.truthy (JS.opt_get (fst (answer w (api_request u o ep m b))) "success"));
      simpl in *; eauto; congruence.
Qed.

(** C4 (amended). A failed request, to the remote boundary or to the
    record store, makes every asynchronous operation of the module reject
    the call: the operations that go through the dispatcher,
    getProfitAndLoss and getBalance included, the dispatcher itself
    (zohoBooksApiCall), the token operations (refreshZohoBooksToken,
    getValidAccessToken), getOrganizationId and disconnectZohoBooks
    (exchangeCodeForToken issues no request and always rejects).  There
    are two exceptions: getOrganizationDetails answers a failed dispatch
    with the default currency (USD, $), and getZohoBooksStatus answers a
    failed read of the store with is_connected false.  An operation that
    goes through the dispatcher rejects with the error of the dispatch
    that failed.  The zero-valued structure of getProfitAndLoss and
    getBalance is what they return when the dispatch succeeds with empty
    data. *)
Theorem failures_propagate (u o : string) (w : World) :
  (forall call,
     failures_of w (snd (perform u o call w)) <> [] ->
     match call with
     | Dispatched GetOrganizationDetails => fst (perform u o call w) = Ok default_currency
     | GetZohoBooksStatus =>
         exists status, fst (perform u o call w) = Ok status
                        /\ JS.get status "is_connected" = JBool false
     | _ => exists e, fst (perform u o call w) = Err e
     end)
  /\ (forall op ev e,
        In ev (new_events w (snd (run u o op w))) ->
        failed_dispatch ev = Some e ->
        fst (run u o op w) = if swallows_failures op then Ok default_currency else Err e)
  /\ (forall data w1,
        zohoBooksApiCall u o "/reports/profitandloss" GET JUndefined w = (Ok data, w1) ->
        JS.truthy data = false ->
        getProfitAndLoss u o w = (Ok zero_profit_and_loss, w1))
  /\ (forall data w1,
        zohoBooksApiCall u o "/reports/balancesheet" GET JUndefined w = (Ok data, w1) ->
        JS.truthy data = false ->
        getBalance u o w = (Ok zero_balance, w1)).
Proof.
  split; [intros call; apply perform_propagates|].
  split; [| split].
  - intros op ev e Hin Hfail.
    destruct (swallows_failures op) eqn:Hs.
    + destruct op; try discriminate Hs.
      exact (getOrganizationDetails_swallows u o w ev e Hin Hfail).
    + apply (run_propagates u o op w ev e); [| assumption | assumption].
      intros ->. discriminate Hs.
  - intros data w1 Hcall Hfalsy. unfold getProfitAndLoss.
    apply (report_default u o _ w w1 data _ _ Hcall Hfalsy).
    intros d w' Hd. rewrite Hd. reflexivity.
  - intros data w1 Hcall Hfalsy. unfold getBalance.
    apply (report_default u o _ w w1 data _ _ Hcall Hfalsy).
    intros d w' Hd. rewrite Hd. reflexivity.
Qed.

(** The theorem applied to a boundary that answers every call with
    status 500, and to a record store that answers every request with an
    error. *)
Lemma failures_propagate_witness :
  let w := Demo.world [] (Demo.fail_with "Internal error" 500) in
  let down := Demo.store_down (Demo.world [Demo.connected Demo.future_stamp]
                                          (Demo.succeed_with JNull)) in
  (exists e, fst (perform "u1" "org1" (Dispatched GetProfitAndLoss) w) = Err e)
  /\ (exists e, fst (perform "u1" "org1" (Dispatched GetBalance) w) = Err e)
  /\ fst (perform "u1" "org1" (Dispatched GetOrganizationDetails) w) = Ok default_currency
  /\ (exists e, fst (perform "u1" "org1" RefreshZohoBooksToken w) = Err e)
  /\ (exists e, fst (perform "u1" "org1" GetValidAccessToken down) = Err e)
  /\ (exists e, fst (perform "u1" "org1" DisconnectZohoBooks down) = Err e)
  /\ (exists status,
         fst (perform "u1" "org1" GetZohoBooksStatus down) = Ok status
         /\ JS.get status "is_connected" = JBool false).
Proof.
  intros w down.
  pose proof (proj1 (failures_propagate "u1" "org1" w)) as H.
  pose proof (proj1 (failures_propagate "u1" "org1" down)) as D.
  split; [apply (H (Dispatched GetProfitAndLoss)); vm_compute; discriminate|].
  split; [apply (H (Dispatched GetBalance)); vm_compute; discriminate|].
  split; [apply (H (Dispatched GetOrganizationDetails)); vm_compute; discriminate|].
  split; [apply (H RefreshZohoBooksToken); vm_compute; discriminate|].
  split; [apply (D GetValidAccessToken); vm_compute; discriminate|].
  split; [apply (D DisconnectZohoBooks); vm_compute; discriminate|].
  apply (D GetZohoBooksStatus); vm_compute; discriminate.
Defined.

(** C4, as stated, fails on a boundary that answers every call with
    status 500: getProfitAndLoss and getBalance reject the call with the
    error of the dispatch instead of returning a zero-valued structure,
    and getOrganizationDetails, which the claim does not except, returns
    a default instead of rejecting the call.  It fails also on a record
    store that answers every request with an error: getZohoBooksStatus,
    which the claim does not except either, returns is_connected false
    instead of rejecting the call. *)
Lemma report_failures_are_not_defaulted :
  let w := Demo.world [] (Demo.fail_with "Internal error" 500) in
  let down := Demo.store_down (Demo.world [Demo.connected Demo.future_stamp]
                                          (Demo.succeed_with JNull)) in
  fst (getProfitAndLoss "u1" "org1" w) = Err (Error "Internal error")
  /\ fst (getBalance "u1" "org1" w) = Err (Error "Internal error")
  /\ fst (getOrganizationDetails "u1" "org1" w) = Ok default_currency
  /\ fst (getZohoBooksStatus "u1" down)
     = Ok (JObj [("is_connected", JBool false); ("organization_id", JNull);
                 ("connected_at", JNull)]).
Proof.
  repeat split; vm_compute; reflexivity.
Qed.
